(** * mpesa-tools: classification, configuration validation, ledger rendering
      and SMS and PDF extraction, embedded from the Python sources

    Sources embedded here:
    - [src/mpesatools/ledgerfy.py]       (modules [Ledgerfy],
      [LedgerfyConfig], [LedgerfyRun], [LedgerfyMain])
    - [src/mpesa2csv/mpesa_ledgerfy.py]  (modules [Mpesa2csv],
      [Mpesa2csvConfig], [Mpesa2csvRun])
    - [src/mpesatools/xtract-android.py] (modules [XtractAndroid],
      [SmsBatch])
    - [src/mpesatools/xtract.py]         (module [Xtract])

    Python values are modelled as follows.  A [str] is a Rocq [string]
    (the statements and rule files handled by the tool are ASCII text, and
    [lower] below is ASCII lower-casing); a [float] is a primitive binary64
    float; a [dict] read from JSON is a [json] object; the [defaultdict]
    that buckets postings per day is a [gmap] from date strings to lists.
    What the interpreter does and the repository does not define ([eval],
    [float] on a string, the regular-expression engine) is an interface,
    [PyRuntime], over which every definition and theorem is generic. *)

From Stdlib Require Import ZArith QArith Floats Ascii OrdersEx.
From Stdlib Require String.
From stdpp Require Import base option list gmap strings sorting.

Set Warnings "-register-all".
Local Open Scope Z_scope.

(** ** Python [str] operations used by the sources *)

Module PyStr.

Definition is_upper (c : ascii) : bool :=
  (N.leb 65 (N_of_ascii c) && N.leb (N_of_ascii c) 90)%N.

Definition is_lower (c : ascii) : bool :=
  (N.leb 97 (N_of_ascii c) && N.leb (N_of_ascii c) 122)%N.

Definition lower_char (c : ascii) : ascii :=
  if is_upper c then ascii_of_N (N_of_ascii c + 32) else c.

(** [s.lower()] *)
Fixpoint lower (s : string) : string :=
  match s with
  | EmptyString => EmptyString
  | String c s' => String (lower_char c) (lower s')
  end.

(** [s.startswith(p)] *)
Definition startswith (s p : string) : bool := String.prefix p s.

(** [needle in hay] on two strings: substring test. *)
Fixpoint contains (needle hay : string) : bool :=
  String.prefix needle hay ||
  match hay with
  | EmptyString => false
  | String _ hay' => contains needle hay'
  end.

(** [any(c is an upper-case letter for c in s)] *)
Fixpoint has_upper (s : string) : bool :=
  match s with
  | EmptyString => false
  | String c s' => is_upper c || has_upper s'
  end.

(** [s.split(" ")[0]]: the characters before the first space. *)
Fixpoint split_space_head (s : string) : string :=
  match s with
  | EmptyString => EmptyString
  | String c s' =>
      if Ascii.eqb c " " then EmptyString else String c (split_space_head s')
  end.

(** [" " * n] *)
Fixpoint spaces (n : nat) : string :=
  match n with
  | O => EmptyString
  | S n' => String " " (spaces n')
  end.

(** [f"{s:<w}"]: pad on the right up to width [w], never truncate. *)
Definition ljust (w : nat) (s : string) : string :=
  s +:+ spaces (w - String.length s).

(** [f"{s:>w}"], the alignment numbers get by default. *)
Definition rjust (w : nat) (s : string) : string :=
  spaces (w - String.length s) +:+ s.

(** [all(P(c) for c in s)] *)
Fixpoint all_chars (P : ascii -> bool) (s : string) : bool :=
  match s with
  | EmptyString => true
  | String c s' => P c && all_chars P s'
  end.

(** A decimal digit, and a string of decimal digits ([\d] and [\d*] on
    ASCII text). *)
Definition is_digit (c : ascii) : bool :=
  (N.leb 48 (N_of_ascii c) && N.leb (N_of_ascii c) 57)%N.

Definition digits_only (s : string) : bool := all_chars is_digit s.

(** Any character but the plus sign. *)
Definition not_plus (c : ascii) : bool := negb (Ascii.eqb c "+").

(** Truthiness of a [str]: non-empty. *)
Definition truthy (s : string) : bool :=
  match s with EmptyString => false | _ => true end.

(** [a < b] and [a <= b] on [str]: lexicographic on code points. *)
Definition lt (a b : string) : bool := String.ltb a b.
Definition le (a b : string) : bool := String.leb a b.

End PyStr.

(** ** The interpreter services the sources rely on *)

(** Outcome of [eval(condition, {"amount": amount})] followed by the truth
    test of [if]: the value is truthy, it is falsy, or an [Exception] was
    raised (a [SyntaxError] for a malformed expression, a [NameError], a
    [ZeroDivisionError], ...).  An expression that ends the interpreter or
    does not return is outside the model. *)
Inductive eval_outcome : Type :=
  | EvalTruthy
  | EvalFalsy
  | EvalRaised.

(** What [re.Match.group] gives for the named groups the callbacks read.
    A group that took no part in the match is [None]. *)
Record sms_match : Type := mkMatch {
  g_receipt_number : string;
  g_amount : option string;
  g_details : option string;
  g_date : option string;
  g_time : option string;
  g_balance : option string;
  g_charge : option string
}.

(** The four entries of [MpesaParser.patterns], in their order: money
    sent or paid, cash withdrawn, money received, cash deposited. *)
Inductive pattern : Type :=
  | PatSent
  | PatWithdraw
  | PatReceived
  | PatDeposit.

Class PyRuntime : Type := {
  (** [eval(condition, {"amount": amount})] and its truth value *)
  py_eval : string -> float -> eval_outcome;
  (** [float(s)] for a [str]; [None] stands for [ValueError] *)
  py_float : string -> option float;
  (** [pattern.search(sms)] for each compiled pattern *)
  re_search : pattern -> string -> option sms_match;
  (** the [meta_patterns] searches of [_extract_metadata] whose result
      the callbacks consult: ["date"] and ["time"] *)
  meta_date : string -> option string;
  meta_time : string -> option string
}.

(** ** Rule sets as the classifier reads them *)

(** A rule of the JSON rule file.  [rule_exclude], [rule_match_type] and
    [rule_condition] are optional keys; [None] is an absent key, which
    [dict.get] replaces by its default ([ledgerfy.py] treats a JSON [null]
    for [exclude] or [condition] in the same way). *)
Record Rule : Type := mkRule {
  rule_account : string;
  rule_keywords : list string;
  rule_exclude : option (list string);
  rule_match_type : option string;
  rule_condition : option string
}.

Record Config : Type := mkConfig {
  cfg_accounts : list string;
  cfg_rules : list Rule;
  cfg_default_account : string
}.

(** [if condition:] on the result of [rule.get("condition")]: an absent
    key and the empty string are both falsy. *)
Definition condition_present (c : option string) : option string :=
  match c with
  | Some s => if PyStr.truthy s then Some s else None
  | None => None
  end.

Module Ledgerfy.

(** [check_keywords_match(details_lower, keywords, match_type, exclude)] *)
Definition check_keywords_match (details_lower : string)
    (keywords : list string) (match_type : string)
    (exclude : option (list string)) : bool :=
  match keywords with
  | [] => false
  | _ :: _ =>
      if match exclude with
         | None | Some [] => false
         | Some ex => existsb (fun k => PyStr.contains k details_lower) ex
         end
      then false
      else if String.eqb match_type "all"
           then forallb (fun k => PyStr.contains k details_lower) keywords
           else existsb (fun k => PyStr.contains k details_lower) keywords
  end.

(** The same call with the defaults of the signature,
    [match_type="any", exclude=None]. *)
Definition check_keywords_match_defaults (details_lower : string)
    (keywords : list string) : bool :=
  check_keywords_match details_lower keywords "any" None.

Section Classifier.
Context `{PyRuntime}.

  (** The [for rule in config["rules"]] loop of [categorize_transaction],
      with the fall-through to [config["default_account"]]. *)
Fixpoint categorize_loop (details_lower : string) (amount : float)
      (rules : list Rule) (default_account : string) : string :=
    match rules with
    | [] => default_account
    | rule :: rest =>
        let keywords := rule_keywords rule in
        let exclude := Some (default [] (rule_exclude rule)) in
        let condition := rule_condition rule in
        let match_type := default "any" (rule_match_type rule) in
        if negb (check_keywords_match details_lower keywords match_type exclude)
        then categorize_loop details_lower amount rest default_account
        else
          match condition_present condition with
          | Some c =>
              match py_eval c amount with
              | EvalTruthy => rule_account rule
              | EvalFalsy => categorize_loop details_lower amount rest default_account
              | EvalRaised => categorize_loop details_lower amount rest default_account
              end
          | None => rule_account rule
          end
    end.

Definition categorize_transaction (details : string) (amount : float)
      (config : Config) : string :=
    let details_lower := PyStr.lower details in
    categorize_loop details_lower amount (cfg_rules config)
      (cfg_default_account config).

End Classifier.

End Ledgerfy.

Module Mpesa2csv.

Section Classifier.
Context `{PyRuntime}.

  (** [categorize_transaction] of [mpesa2csv/mpesa_ledgerfy.py]: no
      [match_type], the exclude test comes first and on its own. *)
Fixpoint categorize_loop (details_lower : string) (amount : float)
      (rules : list Rule) (default_account : string) : string :=
    match rules with
    | [] => default_account
    | rule :: rest =>
        let keywords := rule_keywords rule in
        let exclude := default [] (rule_exclude rule) in
        let condition := rule_condition rule in
        if existsb (fun k => PyStr.contains k details_lower) exclude
        then categorize_loop details_lower amount rest default_account
        else if existsb (fun k => PyStr.contains k details_lower) keywords
        then
          match condition_present condition with
          | Some c =>
              match py_eval c amount with
              | EvalTruthy => rule_account rule
              | EvalFalsy => categorize_loop details_lower amount rest default_account
              | EvalRaised => categorize_loop details_lower amount rest default_account
              end
          | None => rule_account rule
          end
        else categorize_loop details_lower amount rest default_account
    end.

Definition categorize_transaction (details : string) (amount : float)
      (config : Config) : string :=
    let details_lower := PyStr.lower details in
    categorize_loop details_lower amount (cfg_rules config)
      (cfg_default_account config).

End Classifier.

End Mpesa2csv.

(** ** JSON documents and the exceptions the sources raise *)

(** The value [json.load] returns.  A JSON number is kept as the rational
    it denotes, which is what Python's [==] compares; a [dict] is the list
    of its bindings, keys distinct, and a lookup takes the first binding. *)
Inductive json : Type :=
  | JNull
  | JBool (b : bool)
  | JNum (q : Q)
  | JStr (s : string)
  | JList (l : list json)
  | JObj (kvs : list (string * json)).

(** The [ValueError]s of [validate_config], one constructor per message
    template, carrying the values the f-string interpolates. *)
Inductive config_error : Type :=
  | MissingRequiredField (field : string)
  | AccountsNotList
  | RulesNotList
  | DefaultAccountNotInAccounts (default_account : json)
  | RuleMissingAccount (i : nat)
  | RuleAccountNotInAccounts (i : nat) (account : json)
  | RuleMissingKeywords (i : nat)
  | RuleKeywordsNotList (i : nat)
  | RuleInvalidMatchType (i : nat) (match_type : json).

Inductive py_error : Type :=
  | ValueError_config (e : config_error)
  (** [float(s)] on a string that is not a number *)
  | ValueError_float (s : string)
  (** [datetime.strptime] on a string that does not match the format *)
  | ValueError_strptime (s : string)
  | TypeError
  | KeyError (k : string)
  (** not an exception of the program: the mark of a rule file that
      passes [validate_config] but is outside the typed view of a rule
      set, holding something other than strings where the classifier
      reads strings (an [exclude] that is a string, a [condition] that is
      a number).  What the program does with such a file is not modelled;
      the theorems about a run are about rule files that are loaded. *)
  | IllTypedRuleSet.

Inductive result (A : Type) : Type :=
  | Ok (a : A)
  | Raise (e : py_error).
Arguments Ok {A} a.
Arguments Raise {A} e.

#[global] Instance result_ret : MRet result := fun A a => Ok a.

#[global] Instance result_bind : MBind result := fun A B k r =>
  match r with
  | Ok a => k a
  | Raise e => Raise e
  end.

#[global] Instance result_fmap : FMap result := fun A B f r =>
  match r with
  | Ok a => Ok (f a)
  | Raise e => Raise e
  end.

Module Json.

Fixpoint assoc (k : string) (kvs : list (string * json)) : option json :=
  match kvs with
  | [] => None
  | (k', v) :: rest => if String.eqb k k' then Some v else assoc k rest
  end.

(** Python's [a == b] on values read from JSON ([True == 1] holds there,
    lists compare element-wise, dicts binding by binding). *)
Fixpoint py_eq (a b : json) {struct a} : bool :=
  match a, b with
  | JNull, JNull => true
  | JBool x, JBool y => Bool.eqb x y
  | JBool x, JNum q => Qeq_bool (if x then 1%Q else 0%Q) q
  | JNum q, JBool x => Qeq_bool q (if x then 1%Q else 0%Q)
  | JNum p, JNum q => Qeq_bool p q
  | JStr s, JStr t => String.eqb s t
  | JList xs, JList ys =>
      (fix go (xs ys : list json) {struct xs} : bool :=
         match xs, ys with
         | [], [] => true
         | x :: xs', y :: ys' => py_eq x y && go xs' ys'
         | _, _ => false
         end) xs ys
  | JObj kvs, JObj kws =>
      Nat.eqb (length kvs) (length kws) &&
      (fix go (kvs : list (string * json)) {struct kvs} : bool :=
         match kvs with
         | [] => true
         | (k, v) :: rest =>
             match assoc k kws with
             | Some w => py_eq v w && go rest
             | None => false
             end
         end) kvs
  | _, _ => false
  end.

(** [v in l] for a list [l] *)
Definition in_list (v : json) (l : list json) : bool :=
  existsb (fun e => py_eq e v) l.

(** [key in c] for a string [key]: a key test on a dict, a membership
    test on a list, a substring test on a string, [TypeError] otherwise. *)
Definition contains_str (key : string) (c : json) : result bool :=
  match c with
  | JObj kvs => Ok (bool_decide (is_Some (assoc key kvs)))
  | JList l => Ok (in_list (JStr key) l)
  | JStr s => Ok (PyStr.contains key s)
  | _ => Raise TypeError
  end.

(** [c[key]] for a string [key] *)
Definition getitem (c : json) (key : string) : result json :=
  match c with
  | JObj kvs =>
      match assoc key kvs with
      | Some v => Ok v
      | None => Raise (KeyError key)
      end
  | _ => Raise TypeError
  end.

(** [isinstance(v, list)] *)
Definition is_list (v : json) : bool :=
  match v with JList _ => true | _ => false end.

Definition is_obj (v : json) : bool :=
  match v with JObj _ => true | _ => false end.

End Json.

Module LedgerfyConfig.
Import Json.

(** The first loop of [validate_config], over [required_fields]. *)
Fixpoint check_required (config : json) (fields : list string) : result unit :=
  match fields with
  | [] => Ok tt
  | field :: rest =>
      present ← contains_str field config;
      if negb present
      then Raise (ValueError_config (MissingRequiredField field))
      else check_required config rest
  end.

(** The body of [for i, rule in enumerate(config["rules"])]. *)
Definition validate_rule (accounts : list json) (i : nat) (rule : json)
    : result unit :=
  has_account ← contains_str "account" rule;
  if negb has_account
  then Raise (ValueError_config (RuleMissingAccount i))
  else
    account ← getitem rule "account";
    if negb (in_list account accounts)
    then Raise (ValueError_config (RuleAccountNotInAccounts i account))
    else
      has_keywords ← contains_str "keywords" rule;
      if negb has_keywords
      then Raise (ValueError_config (RuleMissingKeywords i))
      else
        keywords ← getitem rule "keywords";
        if negb (is_list keywords)
        then Raise (ValueError_config (RuleKeywordsNotList i))
        else
          has_match_type ← contains_str "match_type" rule;
          if (has_match_type : bool)
          then
            match_type ← getitem rule "match_type";
            if negb (in_list match_type [JStr "any"; JStr "all"])
            then Raise (ValueError_config (RuleInvalidMatchType i match_type))
            else Ok tt
          else Ok tt.

Fixpoint validate_rules (accounts : list json) (i : nat) (rules : list json)
    : result unit :=
  match rules with
  | [] => Ok tt
  | rule :: rest =>
      validate_rule accounts i rule;;
      validate_rules accounts (S i) rest
  end.

(** [validate_config(config)]; returning [Ok tt] is returning normally
    (after the "Configuration validated" line is printed). *)
Definition validate_config (config : json) : result unit :=
  check_required config ["accounts"; "rules"; "default_account"];;
  accounts ← getitem config "accounts";
  match accounts with
  | JList accounts =>
      rules ← getitem config "rules";
      match rules with
      | JList rules =>
          default_account ← getitem config "default_account";
          if negb (in_list default_account accounts)
          then Raise (ValueError_config
                        (DefaultAccountNotInAccounts default_account))
          else validate_rules accounts 0 rules
      | _ => Raise (ValueError_config RulesNotList)
      end
  | _ => Raise (ValueError_config AccountsNotList)
  end.

(** *** The typed view of a validated rule file *)

Definition as_str (v : json) : option string :=
  match v with JStr s => Some s | _ => None end.

Definition as_str_list (v : json) : option (list string) :=
  match v with JList l => mapM as_str l | _ => None end.

(** An optional key: absent or [null] is [None]. *)
Definition optional {A : Type} (dec : json -> option A) (v : option json)
    : option (option A) :=
  match v with
  | None | Some JNull => Some None
  | Some v => Some <$> dec v
  end.

Definition rule_of_json (rule : json) : option Rule :=
  match rule with
  | JObj kvs =>
      account ← assoc "account" kvs ≫= as_str;
      keywords ← assoc "keywords" kvs ≫= as_str_list;
      exclude ← optional as_str_list (assoc "exclude" kvs);
      match_type ← optional as_str (assoc "match_type" kvs);
      condition ← optional as_str (assoc "condition" kvs);
      Some (mkRule account keywords exclude match_type condition)
  | _ => None
  end.

Definition config_of_json (config : json) : option Config :=
  match config with
  | JObj kvs =>
      accounts ← assoc "accounts" kvs ≫= as_str_list;
      rules ← match assoc "rules" kvs with
              | Some (JList l) => mapM rule_of_json l
              | _ => None
              end;
      default_account ← assoc "default_account" kvs ≫= as_str;
      Some (mkConfig accounts rules default_account)
  | _ => None
  end.

(** [load_config], from the parsed document on: validate, then hand the
    dict to the caller, here in its typed view.  [IllTypedRuleSet] marks
    the validated rule files that have none, which the program itself
    hands over like any other. *)
Definition load_config (config : json) : result Config :=
  validate_config config;;
  match config_of_json config with
  | Some c => Ok c
  | None => Raise IllTypedRuleSet
  end.

End LedgerfyConfig.

(** ** Python [float] formatting *)

Module PyFloat.

(** The line feed the f-strings end with. *)
Definition nl : string := String (ascii_of_N 10) EmptyString.

Definition digit_char (d : Z) : ascii := ascii_of_N (48 + Z.to_N d).

(** Decimal digits of a non-negative integer, most significant first. *)
Fixpoint digits_fuel (fuel : nat) (n : Z) (acc : string) : string :=
  match fuel with
  | O => acc
  | S fuel' =>
      let acc' := String (digit_char (n mod 10)) acc in
      if n / 10 =? 0 then acc' else digits_fuel fuel' (n / 10) acc'
  end.

Definition str_of_nonneg (n : Z) : string :=
  digits_fuel (S (Z.to_nat (Z.log2 n))) n EmptyString.

Definition two_digits (n : Z) : string :=
  String (digit_char (n / 10)) (String (digit_char (n mod 10)) EmptyString).

(** [num / den] rounded to the nearest integer, ties to even
    ([0 <= num], [0 < den]). *)
Definition round_half_even (num den : Z) : Z :=
  let q := num / den in
  let r := num mod den in
  match 2 * r ?= den with
  | Lt => q
  | Gt => q + 1
  | Eq => if Z.even q then q else q + 1
  end.

(** The number of hundredths nearest to [m * 2^e]. *)
Definition hundredths (m : positive) (e : Z) : Z :=
  if 0 <=? e
  then Z.pos m * 2 ^ e * 100
  else round_half_even (Z.pos m * 100) (2 ^ (- e)).

(** The digits [format(x, ".2f")] prints after the sign.  The conversion
    is correctly rounded: the exact binary value goes to the nearest
    multiple of 0.01, ties to even. *)
Definition format_magnitude (x : spec_float) : string :=
  match x with
  | S754_zero _ => "0.00"
  | S754_infinity _ => "inf"
  | S754_nan => "nan"
  | S754_finite _ m e =>
      let h := hundredths m e in
      str_of_nonneg (h / 100) +:+ "." +:+ two_digits (h mod 100)
  end.

(** The sign bit, as printed: [-0.0] and negative values that round to
    zero keep their ["-"]; a NaN prints none. *)
Definition sign_bit (x : spec_float) : bool :=
  match x with
  | S754_zero s | S754_infinity s | S754_finite s _ _ => s
  | S754_nan => false
  end.

Definition format_spec_2f (x : spec_float) : string :=
  (if sign_bit x then "-" else "") +:+ format_magnitude x.

(** [f"{x:.2f}"] *)
Definition format_2f (x : float) : string := format_spec_2f (Prim2SF x).

(** [f"{x:15.2f}"] *)
Definition format_15_2f (x : float) : string := PyStr.rjust 15 (format_2f x).

(** [x >= 0] in the sense of the sign bit: what the data model asks of
    [paidIn] and [withdrawn]. *)
Definition nonneg (x : float) : bool :=
  match Prim2SF x with
  | S754_nan => false
  | sf => negb (sign_bit sf)
  end.

End PyFloat.

(** ** The ledger stage of [ledgerfy.py] *)

(** A row of the input table, as [csv.DictReader] or [json.load] yields
    it: every field is a string, possibly empty. *)
Record Row : Type := mkRow {
  row_receipt_no : string;
  row_completion_time : string;
  row_details : string;
  row_status : string;
  row_paid_in : string;
  row_withdrawn : string;
  row_balance : string
}.

(** The dict appended to [transactions_by_date[transaction_date]]. *)
Record Posting : Type := mkPosting {
  tx_account : string;
  tx_amount : float;
  tx_details : string;
  tx_balance : float;
  tx_timestamp : string
}.

#[global] Instance Posting_inhabited : Inhabited Posting :=
  populate (mkPosting "" 0%float "" 0%float "").

(** What a run of [parse_mpesa_to_ledger_with_balance] leaves behind when
    it returns: either the "No transactions found" message and no output
    file, or the strings passed to [ledger_file.write], in order. *)
Inductive ledger_outcome : Type :=
  | NoTransactions
  | LedgerWritten (writes : list string).

(** [sorted(l, key=key)] with string keys.  Python's sort is stable, and
    the stable sorted arrangement of a list is unique, so insertion from
    the right computes the same list. *)
Fixpoint sorted_insert {A : Type} (key : A -> string) (x : A) (l : list A)
    : list A :=
  match l with
  | [] => [x]
  | y :: l' =>
      if PyStr.le (key x) (key y) then x :: y :: l'
      else y :: sorted_insert key x l'
  end.

Fixpoint py_sorted {A : Type} (key : A -> string) (l : list A) : list A :=
  match l with
  | [] => []
  | x :: l' => sorted_insert key x (py_sorted key l')
  end.

Module LedgerfyRun.
Import PyFloat.

(** [f"{amount:15.2f} KES"] or [f"{-amount:15.2f} KES"] *)
Definition formatted_amount (account : string) (amount : float) : string :=
  if PyStr.startswith account "Expenses"
  then format_15_2f amount +:+ " KES"
  else format_15_2f (- amount)%float +:+ " KES".

(** The string one iteration of the inner loop writes; [is_last] is the
    test [i == len(daily_transactions) - 1]. *)
Definition posting_line (is_last : bool) (transaction : Posting) : string :=
  let account := tx_account transaction in
  let amount := tx_amount transaction in
  let details := tx_details transaction in
  let balance := tx_balance transaction in
  let truncated_details := details in
  if is_last
  then "    " +:+ PyStr.ljust 45 account +:+ " " +:+
       formatted_amount account amount +:+ " ; " +:+ truncated_details +:+
       " BAL KES " +:+ format_2f balance +:+ nl
  else "    " +:+ PyStr.ljust 45 account +:+ " " +:+
       formatted_amount account amount +:+ " ; " +:+ truncated_details +:+ nl.

(** [for i, transaction in enumerate(daily_transactions)], started at
    index [i] with [n = len(daily_transactions)]. *)
Fixpoint write_postings (n i : nat) (daily : list Posting) : list string :=
  match daily with
  | [] => []
  | transaction :: rest =>
      posting_line (Nat.eqb i (n - 1)) transaction ::
      write_postings n (S i) rest
  end.

(** One iteration of [for date in sorted(transactions_by_date.keys())]. *)
Definition write_day (date : string) (transactions : list Posting)
    : list string :=
  let daily_transactions := py_sorted tx_timestamp transactions in
  [date +:+ " *" +:+ nl; "    Assets:Checking:Mpesa" +:+ nl] ++
  write_postings (length daily_transactions) 0 daily_transactions ++
  [nl].

Definition sorted_dates (by_date : gmap string (list Posting)) : list string :=
  py_sorted id (map_to_list by_date).*1.

Definition write_ledger (by_date : gmap string (list Posting)) : list string :=
  concat (map (fun date => write_day date (by_date !!! date))
              (sorted_dates by_date)).

Section Run.
Context `{PyRuntime}.

(** [float(s) if s else 0.0] *)
Definition float_or_zero (s : string) : result float :=
  if PyStr.truthy s
  then match py_float s with
       | Some x => Ok x
       | None => Raise (ValueError_float s)
       end
  else Ok 0%float.

(** The body of [for row in transactions]: [None] is [continue], a pair
    is the date key and the dict appended under it. *)
Definition process_row (config : Config) (start_date : string)
    (end_date : option string) (row : Row)
    : result (option (string * Posting)) :=
  let completion_time := row_completion_time row in
  let transaction_date := PyStr.split_space_head completion_time in
  if PyStr.lt transaction_date start_date then Ok None
  else if match end_date with
          | Some e => PyStr.truthy e && PyStr.lt e transaction_date
          | None => false
          end
  then Ok None
  else
    let details := row_details row in
    let status := row_status row in
    paid_in ← float_or_zero (row_paid_in row);
    withdrawn ← float_or_zero (row_withdrawn row);
    balance ← float_or_zero (row_balance row);
    if negb (String.eqb (PyStr.lower status) "completed") then Ok None
    else
      let amount := if (0 <? paid_in)%float then paid_in else withdrawn in
      let account := Ledgerfy.categorize_transaction details amount config in
      Ok (Some (transaction_date,
                mkPosting account amount details balance completion_time)).

Fixpoint collect (config : Config) (start_date : string)
    (end_date : option string) (rows : list Row)
    (transactions_by_date : gmap string (list Posting))
    : result (gmap string (list Posting)) :=
  match rows with
  | [] => Ok transactions_by_date
  | row :: rest =>
      step ← process_row config start_date end_date row;
      match step with
      | None => collect config start_date end_date rest transactions_by_date
      | Some (date, posting) =>
          collect config start_date end_date rest
            (<[date := (transactions_by_date !!! date) ++ [posting]]>
               transactions_by_date)
      end
  end.

(** [parse_mpesa_to_ledger_with_balance], from the parsed rule file and
    the parsed input table on.  A [Raise] leaves the function before the
    output file is opened. *)
Definition parse_mpesa_to_ledger_with_balance (config_document : json)
    (transactions : list Row) (start_date : string)
    (end_date : option string) : result ledger_outcome :=
  config ← LedgerfyConfig.load_config config_document;
  transactions_by_date ← collect config start_date end_date transactions ∅;
  if bool_decide (transactions_by_date = ∅) then Ok NoTransactions
  else Ok (LedgerWritten (write_ledger transactions_by_date)).

End Run.

End LedgerfyRun.

(** ** [datetime.strptime] and [strftime] for the two formats in use *)

Record datetime : Type := mkDatetime {
  dt_year : Z;
  dt_month : Z;
  dt_day : Z;
  dt_hour : Z;
  dt_minute : Z;
  dt_second : Z
}.

Module PyTime.

(** [strptime] turns its format into a regular expression and matches it
    with backtracking, first alternative first.  A matcher maps the input
    to every way of matching a prefix of it, in the order the engine
    tries them, each with the captured value and the rest of the input. *)
Definition matcher (A : Type) : Type := string -> list (A * string).

Definition m_ret {A : Type} (a : A) : matcher A := fun s => [(a, s)].

Definition m_bind {A B : Type} (p : matcher A) (k : A -> matcher B)
    : matcher B :=
  fun s => concat (map (fun r => k (fst r) (snd r)) (p s)).

Definition m_alt {A : Type} (p q : matcher A) : matcher A :=
  fun s => p s ++ q s.

(** One decimal digit between [lo] and [hi]. *)
Definition m_digit (lo hi : Z) : matcher Z :=
  fun s =>
    match s with
    | String c s' =>
        let d := Z.of_N (N_of_ascii c) - 48 in
        if (lo <=? d) && (d <=? hi) then [(d, s')] else []
    | EmptyString => []
    end.

Definition m_char (c : ascii) : matcher unit :=
  fun s =>
    match s with
    | String c' s' => if Ascii.eqb c c' then [(tt, s')] else []
    | EmptyString => []
    end.

(** A letter, ignoring case ([re.IGNORECASE]). *)
Definition m_letter (c : ascii) : matcher unit :=
  fun s =>
    match s with
    | String c' s' =>
        if Ascii.eqb (PyStr.lower_char c) (PyStr.lower_char c')
        then [(tt, s')] else []
    | EmptyString => []
    end.

(** What [\s] and [str.strip] take for white space below code point 128. *)
Definition is_space (c : ascii) : bool :=
  let n := N_of_ascii c in
  (N.leb 9 n && N.leb n 13) || (N.leb 28 n && N.leb n 32).

(** [\s+], greedy: the longest run first, then shorter ones. *)
Fixpoint m_spaces_from (s : string) : list (unit * string) :=
  match s with
  | String c s' =>
      if is_space c then m_spaces_from s' ++ [(tt, s')] else []
  | EmptyString => []
  end.

Definition m_spaces : matcher unit := m_spaces_from.

(** Two digits, the first in [[a, b]] and the second in [[c, d]], read as
    a number. *)
Definition m_two (a b c d : Z) : matcher Z :=
  m_bind (m_digit a b) (fun x =>
  m_bind (m_digit c d) (fun y => m_ret (10 * x + y))).

(** [%d]: [3[0-1]|[1-2]\d|0[1-9]|[1-9]| [1-9]] *)
Definition m_d : matcher Z :=
  m_alt (m_two 3 3 0 1)
 (m_alt (m_two 1 2 0 9)
 (m_alt (m_two 0 0 1 9)
 (m_alt (m_digit 1 9)
        (m_bind (m_char " ") (fun _ => m_digit 1 9))))).

(** [%m] and [%I]: [1[0-2]|0[1-9]|[1-9]] *)
Definition m_m : matcher Z :=
  m_alt (m_two 1 1 0 2) (m_alt (m_two 0 0 1 9) (m_digit 1 9)).

(** [%y]: [\d\d] *)
Definition m_y : matcher Z := m_two 0 9 0 9.

(** [%Y]: [\d\d\d\d] *)
Definition m_Y : matcher Z :=
  m_bind (m_two 0 9 0 9) (fun hi =>
  m_bind (m_two 0 9 0 9) (fun lo => m_ret (100 * hi + lo))).

(** [%H]: [2[0-3]|[0-1]\d|\d] *)
Definition m_H : matcher Z :=
  m_alt (m_two 2 2 0 3) (m_alt (m_two 0 1 0 9) (m_digit 0 9)).

(** [%M]: [[0-5]\d|\d] *)
Definition m_M : matcher Z :=
  m_alt (m_two 0 5 0 9) (m_digit 0 9).

(** [%S]: [6[0-1]|[0-5]\d|\d] *)
Definition m_S : matcher Z :=
  m_alt (m_two 6 6 0 1) (m_alt (m_two 0 5 0 9) (m_digit 0 9)).

(** [%p] in the C locale: [am|pm]; the result is [true] for PM. *)
Definition m_p : matcher bool :=
  m_alt (m_bind (m_letter "a") (fun _ => m_bind (m_letter "m") (fun _ => m_ret false)))
        (m_bind (m_letter "p") (fun _ => m_bind (m_letter "m") (fun _ => m_ret true))).

Definition is_leap (y : Z) : bool :=
  (y mod 4 =? 0) && (negb (y mod 100 =? 0) || (y mod 400 =? 0)).

Definition days_in_month (y m : Z) : Z :=
  if m =? 2 then (if is_leap y then 29 else 28)
  else if (m =? 4) || (m =? 6) || (m =? 9) || (m =? 11) then 30
  else 31.

(** The range checks of the [datetime] constructor. *)
Definition valid_datetime (d : datetime) : bool :=
  (1 <=? dt_year d) && (dt_year d <=? 9999) &&
  (1 <=? dt_month d) && (dt_month d <=? 12) &&
  (1 <=? dt_day d) && (dt_day d <=? days_in_month (dt_year d) (dt_month d)) &&
  (0 <=? dt_hour d) && (dt_hour d <=? 23) &&
  (0 <=? dt_minute d) && (dt_minute d <=? 59) &&
  (0 <=? dt_second d) && (dt_second d <=? 59).

(** The engine's answer: the first way of matching, which must reach the
    end of the input ("unconverted data remains" otherwise). *)
Definition first_full_match {A : Type} (p : matcher A) (s : string)
    : option A :=
  match p s with
  | (a, EmptyString) :: _ => Some a
  | _ => None
  end.

(** [datetime.strptime(s, "%d/%m/%y %I:%M %p")] *)
Definition strptime_dmy_IMp (s : string) : result datetime :=
  let fields :=
    m_bind m_d (fun d =>
    m_bind (m_char "/") (fun _ =>
    m_bind m_m (fun m =>
    m_bind (m_char "/") (fun _ =>
    m_bind m_y (fun y =>
    m_bind m_spaces (fun _ =>
    m_bind m_m (fun h12 =>
    m_bind (m_char ":") (fun _ =>
    m_bind m_M (fun M =>
    m_bind m_spaces (fun _ =>
    m_bind m_p (fun pm => m_ret (d, m, y, h12, M, pm)))))))))))) in
  match first_full_match fields s with
  | Some (d, m, y, h12, M, pm) =>
      let year := if y <=? 68 then y + 2000 else y + 1900 in
      let hour := if pm then (if h12 =? 12 then 12 else h12 + 12)
                  else (if h12 =? 12 then 0 else h12) in
      let dt := mkDatetime year m d hour M 0 in
      if valid_datetime dt then Ok dt else Raise (ValueError_strptime s)
  | None => Raise (ValueError_strptime s)
  end.

(** [datetime.strptime(s, "%Y-%m-%d %H:%M:%S")] *)
Definition strptime_iso (s : string) : result datetime :=
  let fields :=
    m_bind m_Y (fun Y =>
    m_bind (m_char "-") (fun _ =>
    m_bind m_m (fun m =>
    m_bind (m_char "-") (fun _ =>
    m_bind m_d (fun d =>
    m_bind m_spaces (fun _ =>
    m_bind m_H (fun h =>
    m_bind (m_char ":") (fun _ =>
    m_bind m_M (fun M =>
    m_bind (m_char ":") (fun _ =>
    m_bind m_S (fun sec => m_ret (mkDatetime Y m d h M sec)))))))))))) in
  match first_full_match fields s with
  | Some dt => if valid_datetime dt then Ok dt else Raise (ValueError_strptime s)
  | None => Raise (ValueError_strptime s)
  end.

(** [d.strftime("%Y-%m-%d %H:%M:%S")] for a four-digit year; also what
    [str(d)] and the CSV writer print. *)
Definition strftime_iso (d : datetime) : string :=
  PyFloat.two_digits (dt_year d / 100) +:+ PyFloat.two_digits (dt_year d mod 100)
  +:+ "-" +:+ PyFloat.two_digits (dt_month d)
  +:+ "-" +:+ PyFloat.two_digits (dt_day d)
  +:+ " " +:+ PyFloat.two_digits (dt_hour d)
  +:+ ":" +:+ PyFloat.two_digits (dt_minute d)
  +:+ ":" +:+ PyFloat.two_digits (dt_second d).

(** A matcher that takes one or two characters, none of them a slash. *)
Definition short_no_slash (p : matcher Z) : Prop :=
  forall s a s', In (a, s') (p s) ->
    (exists c, s = String c s' /\ c <> "/"%char) \/
    (exists c1 c2, s = String c1 (String c2 s') /\
                   c1 <> "/"%char /\ c2 <> "/"%char).

End PyTime.

(** ** [MpesaParser] of [xtract-android.py] *)

(** A dict appended to [transactions] by the callbacks.  ["Completion
    Time"] holds the [datetime] object; the amounts are already text. *)
Record SmsRecord : Type := mkSmsRecord {
  sr_receipt_no : string;
  sr_completion_time : datetime;
  sr_details : string;
  sr_status : string;
  sr_paid_in : string;
  sr_withdrawn : string;
  sr_balance : string
}.

Module XtractAndroid.
Import PyFloat PyTime.

(** [s.rstrip(".")] *)
Fixpoint rstrip_dots (s : string) : string :=
  match s with
  | EmptyString => EmptyString
  | String c s' =>
      match rstrip_dots s' with
      | EmptyString => if Ascii.eqb c "." then EmptyString else String c EmptyString
      | r => String c r
      end
  end.

(** [s.replace(",", "")] *)
Fixpoint remove_commas (s : string) : string :=
  match s with
  | EmptyString => EmptyString
  | String c s' =>
      if Ascii.eqb c "," then remove_commas s' else String c (remove_commas s')
  end.

(** [s.replace("\n", " ")] *)
Fixpoint newlines_to_spaces (s : string) : string :=
  match s with
  | EmptyString => EmptyString
  | String c s' =>
      String (if Ascii.eqb c (ascii_of_N 10) then " "%char else c)
             (newlines_to_spaces s')
  end.

Fixpoint lstrip (s : string) : string :=
  match s with
  | EmptyString => EmptyString
  | String c s' => if is_space c then lstrip s' else s
  end.

Fixpoint rstrip (s : string) : string :=
  match s with
  | EmptyString => EmptyString
  | String c s' =>
      match rstrip s' with
      | EmptyString => if is_space c then EmptyString else String c EmptyString
      | r => String c r
      end
  end.

(** [s.strip()] *)
Definition strip (s : string) : string := rstrip (lstrip s).

(** [re.sub(r"\s+", " ", s)]; [in_run] tells that the previous character
    was white space, already replaced. *)
Fixpoint collapse_spaces (in_run : bool) (s : string) : string :=
  match s with
  | EmptyString => EmptyString
  | String c s' =>
      if is_space c
      then (if in_run then collapse_spaces true s'
            else String " " (collapse_spaces true s'))
      else String c (collapse_spaces false s')
  end.

(** [a or b] on two optional strings *)
Definition py_or (a b : option string) : option string :=
  match a with
  | Some s => if PyStr.truthy s then a else b
  | None => b
  end.

(** [f"{x}"] on an optional string: [None] prints as ["None"]. *)
Definition fmt_opt (x : option string) : string := default "None" x.

(** [_clean_text] *)
Definition _clean_text (text : option string) : string :=
  match text with
  | None => ""
  | Some t =>
      if negb (PyStr.truthy t) then ""
      else newlines_to_spaces (collapse_spaces false (strip t))
  end.

(** [_parse_datetime] *)
Definition _parse_datetime (date_str time_str : option string)
    : result datetime :=
  let datetime_str := fmt_opt date_str +:+ " " +:+ fmt_opt time_str in
  datetime_object ← strptime_dmy_IMp datetime_str;
  strptime_iso (strftime_iso datetime_object).

Section Parser.
Context `{PyRuntime}.

(** [_clean_amount] *)
Definition _clean_amount (amount_str : option string) : float :=
  match amount_str with
  | None => 0%float
  | Some s =>
      if negb (PyStr.truthy s) then 0%float
      else
        let s := rstrip_dots s in
        let s := remove_commas s in
        match py_float s with
        | Some x => x
        | None => 0%float
        end
  end.

(** [_parse_sent] *)
Definition _parse_sent (m : sms_match) (sms : string)
    : result (list SmsRecord) :=
  let amount := _clean_amount (g_amount m) in
  let charge := _clean_amount (g_charge m) in
  let balance := _clean_amount (g_balance m) in
  completion_time ←
    _parse_datetime (py_or (g_date m) (meta_date sms))
                    (py_or (g_time m) (meta_time sms));
  let transactions :=
    [mkSmsRecord (g_receipt_number m) completion_time
                 (_clean_text (g_details m)) "Completed"
                 "" (format_2f amount) (format_2f balance)] in
  if (0 <? charge)%float
  then Ok (transactions ++
           [mkSmsRecord (g_receipt_number m) completion_time
                        "Mpesa Charge" "Completed"
                        "" (format_2f charge) (format_2f balance)])
  else Ok transactions.

(** [_parse_received] *)
Definition _parse_received (m : sms_match) (sms : string)
    : result (list SmsRecord) :=
  let amount := _clean_amount (g_amount m) in
  let balance := _clean_amount (g_balance m) in
  completion_time ←
    _parse_datetime (py_or (g_date m) (meta_date sms))
                    (py_or (g_time m) (meta_time sms));
  Ok [mkSmsRecord (g_receipt_number m) completion_time
                  (_clean_text (g_details m)) "Completed"
                  (format_2f amount) "" (format_2f balance)].

(** The callback paired with each pattern in [self.patterns]. *)
Definition callback (p : pattern) : sms_match -> string -> result (list SmsRecord) :=
  match p with
  | PatSent | PatWithdraw => _parse_sent
  | PatReceived | PatDeposit => _parse_received
  end.

Fixpoint parse_loop (patterns : list pattern) (sms : string)
    : result (option (list SmsRecord)) :=
  match patterns with
  | [] => Ok None
  | p :: rest =>
      match re_search p sms with
      | Some m => Some <$> callback p m sms
      | None => parse_loop rest sms
      end
  end.

(** [parse] *)
Definition parse (sms : string) : result (option (list SmsRecord)) :=
  let sms := strip (newlines_to_spaces sms) in
  parse_loop [PatSent; PatWithdraw; PatReceived; PatDeposit] sms.

End Parser.

End XtractAndroid.

(** ** [validate_config] of [mpesa2csv/mpesa_ledgerfy.py] *)

Module Mpesa2csvConfig.
Import Json.

(** The body of [for i, rule in enumerate(config["rules"])]: the checks of
    the newer module, without the one on [match_type]. *)
Definition validate_rule (accounts : list json) (i : nat) (rule : json)
    : result unit :=
  has_account ← contains_str "account" rule;
  if negb has_account
  then Raise (ValueError_config (RuleMissingAccount i))
  else
    account ← getitem rule "account";
    if negb (in_list account accounts)
    then Raise (ValueError_config (RuleAccountNotInAccounts i account))
    else
      has_keywords ← contains_str "keywords" rule;
      if negb has_keywords
      then Raise (ValueError_config (RuleMissingKeywords i))
      else
        keywords ← getitem rule "keywords";
        if negb (is_list keywords)
        then Raise (ValueError_config (RuleKeywordsNotList i))
        else Ok tt.

Fixpoint validate_rules (accounts : list json) (i : nat) (rules : list json)
    : result unit :=
  match rules with
  | [] => Ok tt
  | rule :: rest =>
      validate_rule accounts i rule;;
      validate_rules accounts (S i) rest
  end.

(** [validate_config(config)]; its loop over [required_fields] is the one
    of [ledgerfy.py]. *)
Definition validate_config (config : json) : result unit :=
  LedgerfyConfig.check_required config ["accounts"; "rules"; "default_account"];;
  accounts ← getitem config "accounts";
  match accounts with
  | JList accounts =>
      rules ← getitem config "rules";
      match rules with
      | JList rules =>
          default_account ← getitem config "default_account";
          if negb (in_list default_account accounts)
          then Raise (ValueError_config
                        (DefaultAccountNotInAccounts default_account))
          else validate_rules accounts 0 rules
      | _ => Raise (ValueError_config RulesNotList)
      end
  | _ => Raise (ValueError_config AccountsNotList)
  end.

End Mpesa2csvConfig.

(** ** [ledgerfy_main] *)

(** How [ledgerfy_main] ends: it returns a status, having written the
    ledger or not, or an exception it does not catch leaves it. *)
Inductive main_outcome : Type :=
  | Exit (status : Z) (ledger : option (list string))
  | Uncaught (e : py_error).

Module LedgerfyMain.

(** [isinstance(e, ValueError)] *)
Definition is_value_error (e : py_error) : bool :=
  match e with
  | ValueError_config _ | ValueError_float _ | ValueError_strptime _ => true
  | TypeError | KeyError _ | IllTypedRuleSet => false
  end.

Section Main.
Context `{PyRuntime}.

(** [ledgerfy_main(args)], from the existence test of the input file on;
    the input table and the rule file are given parsed. *)
Definition ledgerfy_main (input_exists : bool) (config_document : json)
    (transactions : list Row) (start_date : string)
    (end_date : option string) : main_outcome :=
  if negb input_exists then Exit 1 None
  else
    match LedgerfyRun.parse_mpesa_to_ledger_with_balance config_document
            transactions start_date end_date with
    | Ok NoTransactions => Exit 0 None
    | Ok (LedgerWritten writes) => Exit 0 (Some writes)
    | Raise e => if is_value_error e then Exit 1 None else Uncaught e
    end.

End Main.

End LedgerfyMain.

(** ** The ledger stage of [mpesa2csv/mpesa_ledgerfy.py]

    The row loop and the writing loop of its
    [parse_mpesa_to_ledger_with_balance] are those of [ledgerfy.py], word
    for word; the rule file goes through its own [validate_config] and the
    rows through its own [categorize_transaction], which never reads
    [match_type] and, unlike the one of [ledgerfy.py], iterates over
    [exclude] without testing it first. *)
Module Mpesa2csvRun.
Import Json.

(** A rule as [categorize_transaction] of the older module finds it: the
    typed rule, and whether [rule.get("exclude", [])] is [None], which it
    is when the key is there with the value [null] (the default [[]] is
    for an absent key only).  [match_type] is not looked at. *)
Record LoadedRule : Type := mkLoadedRule {
  lr_rule : Rule;
  lr_exclude_null : bool
}.

Record LoadedConfig : Type := mkLoadedConfig {
  lc_accounts : list string;
  lc_rules : list LoadedRule;
  lc_default_account : string
}.

Definition exclude_is_null (kvs : list (string * json)) : bool :=
  match assoc "exclude" kvs with
  | Some JNull => true
  | _ => false
  end.

Definition rule_of_json (rule : json) : option LoadedRule :=
  match rule with
  | JObj kvs =>
      account ← assoc "account" kvs ≫= LedgerfyConfig.as_str;
      keywords ← assoc "keywords" kvs ≫= LedgerfyConfig.as_str_list;
      exclude ← LedgerfyConfig.optional LedgerfyConfig.as_str_list
                  (assoc "exclude" kvs);
      condition ← LedgerfyConfig.optional LedgerfyConfig.as_str
                    (assoc "condition" kvs);
      Some (mkLoadedRule (mkRule account keywords exclude None condition)
                         (exclude_is_null kvs))
  | _ => None
  end.

Definition config_of_json (config : json) : option LoadedConfig :=
  match config with
  | JObj kvs =>
      accounts ← assoc "accounts" kvs ≫= LedgerfyConfig.as_str_list;
      rules ← match assoc "rules" kvs with
              | Some (JList l) => mapM rule_of_json l
              | _ => None
              end;
      default_account ← assoc "default_account" kvs ≫= LedgerfyConfig.as_str;
      Some (mkLoadedConfig accounts rules default_account)
  | _ => None
  end.

(** [load_config], from the parsed document on; [IllTypedRuleSet] as in
    [LedgerfyConfig.load_config]. *)
Definition load_config (config : json) : result LoadedConfig :=
  Mpesa2csvConfig.validate_config config;;
  match config_of_json config with
  | Some c => Ok c
  | None => Raise IllTypedRuleSet
  end.

Section Run.
Context `{PyRuntime}.

(** The [for rule in config["rules"]] loop of [categorize_transaction]
    (lines 78-99).  The generator over [exclude] is made before anything
    else is tested and outside the [try]: on [None] it raises
    [TypeError], which leaves the function. *)
Fixpoint categorize_loop (details_lower : string) (amount : float)
    (rules : list LoadedRule) (default_account : string) : result string :=
  match rules with
  | [] => Ok default_account
  | loaded :: rest =>
      let rule := lr_rule loaded in
      let keywords := rule_keywords rule in
      let condition := rule_condition rule in
      if lr_exclude_null loaded then Raise TypeError
      else
        let exclude := default [] (rule_exclude rule) in
        if existsb (fun k => PyStr.contains k details_lower) exclude
        then categorize_loop details_lower amount rest default_account
        else if existsb (fun k => PyStr.contains k details_lower) keywords
        then
          match condition_present condition with
          | Some c =>
              match py_eval c amount with
              | EvalTruthy => Ok (rule_account rule)
              | EvalFalsy =>
                  categorize_loop details_lower amount rest default_account
              | EvalRaised =>
                  categorize_loop details_lower amount rest default_account
              end
          | None => Ok (rule_account rule)
          end
        else categorize_loop details_lower amount rest default_account
  end.

Definition categorize_transaction (details : string) (amount : float)
    (config : LoadedConfig) : result string :=
  let details_lower := PyStr.lower details in
  categorize_loop details_lower amount (lc_rules config)
    (lc_default_account config).

(** The body of [for row in transactions]. *)
Definition process_row (config : LoadedConfig) (start_date : string)
    (end_date : option string) (row : Row)
    : result (option (string * Posting)) :=
  let completion_time := row_completion_time row in
  let transaction_date := PyStr.split_space_head completion_time in
  if PyStr.lt transaction_date start_date then Ok None
  else if match end_date with
          | Some e => PyStr.truthy e && PyStr.lt e transaction_date
          | None => false
          end
  then Ok None
  else
    let details := row_details row in
    let status := row_status row in
    paid_in ← LedgerfyRun.float_or_zero (row_paid_in row);
    withdrawn ← LedgerfyRun.float_or_zero (row_withdrawn row);
    balance ← LedgerfyRun.float_or_zero (row_balance row);
    if negb (String.eqb (PyStr.lower status) "completed") then Ok None
    else
      let amount := if (0 <? paid_in)%float then paid_in else withdrawn in
      account ← categorize_transaction details amount config;
      Ok (Some (transaction_date,
                mkPosting account amount details balance completion_time)).

Fixpoint collect (config : LoadedConfig) (start_date : string)
    (end_date : option string) (rows : list Row)
    (transactions_by_date : gmap string (list Posting))
    : result (gmap string (list Posting)) :=
  match rows with
  | [] => Ok transactions_by_date
  | row :: rest =>
      step ← process_row config start_date end_date row;
      match step with
      | None => collect config start_date end_date rest transactions_by_date
      | Some (date, posting) =>
          collect config start_date end_date rest
            (<[date := (transactions_by_date !!! date) ++ [posting]]>
               transactions_by_date)
      end
  end.

(** [parse_mpesa_to_ledger_with_balance], from the parsed rule file and
    the parsed input table on. *)
Definition parse_mpesa_to_ledger_with_balance (config_document : json)
    (transactions : list Row) (start_date : string)
    (end_date : option string) : result ledger_outcome :=
  config ← load_config config_document;
  transactions_by_date ← collect config start_date end_date transactions ∅;
  if bool_decide (transactions_by_date = ∅) then Ok NoTransactions
  else Ok (LedgerWritten (LedgerfyRun.write_ledger transactions_by_date)).

(** [main], from the parsed arguments on: it does not test that the input
    file exists. *)
Definition main (config_document : json) (transactions : list Row)
    (start_date : string) (end_date : option string) : main_outcome :=
  match parse_mpesa_to_ledger_with_balance config_document transactions
          start_date end_date with
  | Ok NoTransactions => Exit 0 None
  | Ok (LedgerWritten writes) => Exit 0 (Some writes)
  | Raise e =>
      if LedgerfyMain.is_value_error e then Exit 1 None else Uncaught e
  end.

End Run.

End Mpesa2csvRun.

(** ** The PDF extraction of [xtract.py] *)

(** The dict [process_transaction_row] returns; an amount is a float or
    [None]. *)
Record PdfTransaction : Type := mkPdfTransaction {
  pt_receipt_no : string;
  pt_completion_time : string;
  pt_details : string;
  pt_status : string;
  pt_paid_in : option float;
  pt_withdrawn : option float;
  pt_balance : option float
}.

(** A page as the PDF library gives it: its text and its tables, a table
    being a list of rows and a row a list of cells, each a string or
    [None]. *)
Record PdfPage : Type := mkPdfPage {
  page_text : option string;
  page_tables : list (list (list (option string)))
}.

Module Xtract.

(** [clean_text] *)
Definition clean_text (text : option string) : string :=
  match text with
  | None => ""
  | Some t =>
      if negb (PyStr.truthy t) then ""
      else XtractAndroid.newlines_to_spaces
             (XtractAndroid.collapse_spaces false (XtractAndroid.strip t))
  end.

(** A character the substitution [re.sub(r"[^\d.-]", "", s)] keeps. *)
Definition amount_char (c : ascii) : bool :=
  PyStr.is_digit c || Ascii.eqb c "." || Ascii.eqb c "-".

Fixpoint keep_amount_chars (s : string) : string :=
  match s with
  | EmptyString => EmptyString
  | String c s' =>
      if amount_char c then String c (keep_amount_chars s')
      else keep_amount_chars s'
  end.

(** [s.split(".")] *)
Fixpoint split_dots (s : string) : list string :=
  match s with
  | EmptyString => [EmptyString]
  | String c s' =>
      if Ascii.eqb c "." then EmptyString :: split_dots s'
      else match split_dots s' with
           | part :: parts => String c part :: parts
           | [] => [String c EmptyString]
           end
  end.

(** ["".join(parts)] *)
Fixpoint join (parts : list string) : string :=
  match parts with
  | [] => EmptyString
  | part :: rest => part +:+ join rest
  end.

(** The first part of [clean_amount_to_number]: the string it hands to
    [float], or [None] where it returns [None] before. *)
Definition amount_text (amount_str : string) : option string :=
  if negb (PyStr.truthy amount_str) then None
  else
    let amount_str := XtractAndroid.strip amount_str in
    let amount_str := keep_amount_chars amount_str in
    if negb (PyStr.truthy amount_str) || String.eqb amount_str "-"
       || String.eqb amount_str "."
    then None
    else
      Some (if PyStr.contains "." amount_str
            then
              let parts := split_dots amount_str in
              if Nat.ltb 2 (length parts)
              then default "" (head parts) +:+ "." +:+ join (tail parts)
              else amount_str
            else amount_str).

Section Rows.
Context `{PyRuntime}.

(** [clean_amount_to_number] *)
Definition clean_amount_to_number (amount_str : string) : option float :=
  match amount_text amount_str with
  | None => None
  | Some s => py_float s
  end.

(** [process_transaction_row]; nothing in its [try] block raises on a row
    of strings and [None]s, so the handler is never entered. *)
Definition process_transaction_row (row : list (option string))
    : option PdfTransaction :=
  match row with
  | c0 :: c1 :: c2 :: c3 :: c4 :: c5 :: c6 :: _ =>
      let receipt_no := clean_text c0 in
      let completion_time := clean_text c1 in
      let details := clean_text c2 in
      let transaction_status := clean_text c3 in
      let paid_in := clean_text c4 in
      let withdrawn := clean_text c5 in
      let balance := clean_text c6 in
      if negb (PyStr.truthy receipt_no) || negb (PyStr.truthy completion_time)
      then None
      else
        let transaction_status :=
          if negb (PyStr.truthy transaction_status) then "Completed"
          else transaction_status in
        let paid_in_clean := clean_amount_to_number paid_in in
        let withdrawn_clean := clean_amount_to_number withdrawn in
        let balance_clean := clean_amount_to_number balance in
        let withdrawn_clean :=
          match withdrawn_clean with
          | Some w => if (w <? 0)%float then Some (abs w) else Some w
          | None => None
          end in
        Some (mkPdfTransaction receipt_no completion_time details
                transaction_status paid_in_clean withdrawn_clean balance_clean)
  | _ => None
  end.

(** The cells a generator with [if cell] goes through. *)
Definition truthy_cells (row : list (option string)) : list string :=
  omap (fun cell =>
          match cell with
          | Some s => if PyStr.truthy s then Some s else None
          | None => None
          end) row.

Definition header_tokens : list string :=
  ["receipt"; "completion"; "details"; "transaction"; "paid"; "withdrawn";
   "balance"].

Definition footer_tokens : list string :=
  ["Disclaimer"; "Verification"; "For self-help"; "Page"].

(** [any(header in str(cell).lower() for cell in row if cell
         for header in [...])] *)
Definition is_header_row (row : list (option string)) : bool :=
  existsb (fun cell =>
             existsb (fun header => PyStr.contains header (PyStr.lower cell))
                     header_tokens)
          (truthy_cells row).

(** [any(footer in str(cell) for cell in row if cell for footer in [...])] *)
Definition is_footer_row (row : list (option string)) : bool :=
  existsb (fun cell =>
             existsb (fun footer => PyStr.contains footer cell) footer_tokens)
          (truthy_cells row).

(** [for row in table], appending to [transactions]. *)
Fixpoint extract_rows (rows : list (list (option string)))
    (transactions : list PdfTransaction) : list PdfTransaction :=
  match rows with
  | [] => transactions
  | row :: rest =>
      if Nat.ltb (length row) 6 then extract_rows rest transactions
      else if is_header_row row then extract_rows rest transactions
      else if is_footer_row row then extract_rows rest transactions
      else
        match process_transaction_row row with
        | Some transaction =>
            extract_rows rest (transactions ++ [transaction])
        | None => extract_rows rest transactions
        end
  end.

(** [for table in tables] *)
Fixpoint extract_tables (tables : list (list (list (option string))))
    (transactions : list PdfTransaction) : list PdfTransaction :=
  match tables with
  | [] => transactions
  | table :: rest => extract_tables rest (extract_rows table transactions)
  end.

(** [for page in pdf.pages] *)
Fixpoint extract_pages (pages : list PdfPage)
    (transactions : list PdfTransaction) : list PdfTransaction :=
  match pages with
  | [] => transactions
  | page :: rest =>
      if match page_text page with
         | Some text =>
             negb (PyStr.truthy text) || negb (PyStr.contains "Receipt No." text)
         | None => true
         end
      then extract_pages rest transactions
      else extract_pages rest (extract_tables (page_tables page) transactions)
  end.

(** [extract_mpesa_data_from_pdf], from the opened document on. *)
Definition extract_mpesa_data_from_pdf (pages : list PdfPage)
    : list PdfTransaction :=
  extract_pages pages [].

End Rows.

End Xtract.

(** ** [MpesaMessages2CSV.process_data] of [xtract-android.py] *)

Module SmsBatch.

Section Batch.
Context `{PyRuntime}.

(** [for sms in sms_list], appending to [all_transactions]; a message is
    given by its [body], [None] when it has none. *)
Fixpoint process_messages (sms_list : list (option string))
    (all_transactions : list SmsRecord) : result (list SmsRecord) :=
  match sms_list with
  | [] => Ok all_transactions
  | sms :: rest =>
      transactions ← XtractAndroid.parse (default "" sms);
      match transactions with
      | Some ((_ :: _) as records) =>
          process_messages rest (all_transactions ++ records)
      | Some [] | None => process_messages rest all_transactions
      end
  end.

(** [process_data], from the list [fetch_sms] returns on. *)
Definition process_data (sms_list : list (option string))
    : result (option (list SmsRecord)) :=
  match sms_list with
  | [] => Ok None
  | _ :: _ =>
      all_transactions ← process_messages sms_list [];
      match all_transactions with
      | [] => Ok None
      | _ :: _ => Ok (Some all_transactions)
      end
  end.

End Batch.

End SmsBatch.

(** ** A reference runtime

    An instance of [PyRuntime] to run the definitions on concrete inputs.
    It agrees with CPython on the inputs used below: [float] on plain
    decimal literals (correctly rounded, as [float] is), [eval] on a
    comparison [amount <op> <literal>] and on the malformed strings of the
    examples (every other string is reported as raising, which CPython
    does not do for all of them), and the regular-expression searches on
    the recorded messages. *)

Module ReferenceRuntime.

Fixpoint read_digits (s : string) (acc : Z) (count : nat) : Z * nat * string :=
  match s with
  | String c s' =>
      let d := Z.of_N (N_of_ascii c) - 48 in
      if (0 <=? d) && (d <=? 9) then read_digits s' (10 * acc + d) (S count)
      else (acc, count, s)
  | EmptyString => (acc, count, s)
  end.

(** The binary64 nearest to [digits / 10^scale], ties to even: the
    quotient is taken with 64 extra bits and a sticky bit, then rounded
    once. *)
Definition nearest_float (negative : bool) (digits : Z) (scale : nat) : float :=
  if digits =? 0 then (if negative then (- 0)%float else 0%float)
  else
    let shift := 64 + 4 * Z.of_nat scale in
    let num := digits * 2 ^ shift in
    let den := 10 ^ Z.of_nat scale in
    let sticky := if num mod den =? 0 then 0 else 1 in
    let m := 2 * (num / den) + sticky in
    SF2Prim (binary_normalize prec emax (if negative then - m else m)
                              (- (shift + 1)) false).

(** [float(s)] for [s] of the shape [-?digits(.digits)?] or [-?.digits]. *)
Definition float_of_decimal (s : string) : option float :=
  let '(negative, body) :=
    match s with
    | String "-" r => (true, r)
    | _ => (false, s)
    end in
  let '(int_part, n_int, rest) := read_digits body 0 0 in
  match rest with
  | EmptyString =>
      if Nat.eqb n_int 0 then None else Some (nearest_float negative int_part 0)
  | String "." frac =>
      let '(all_digits, n_frac, rest') := read_digits frac int_part 0 in
      match rest' with
      | EmptyString =>
          if Nat.eqb (n_int + n_frac) 0 then None
          else Some (nearest_float negative all_digits n_frac)
      | _ => None
      end
  | _ => None
  end.

(** [s.split(" ")] *)
Fixpoint split_spaces (s : string) (word : string) : list string :=
  match s with
  | EmptyString => [word]
  | String c s' =>
      if Ascii.eqb c " " then word :: split_spaces s' EmptyString
      else split_spaces s' (word +:+ String c EmptyString)
  end.

Definition compare_floats (op : string) (x y : float) : option bool :=
  if String.eqb op ">" then Some (y <? x)%float
  else if String.eqb op ">=" then Some (y <=? x)%float
  else if String.eqb op "<" then Some (x <? y)%float
  else if String.eqb op "<=" then Some (x <=? y)%float
  else if String.eqb op "==" then Some (x =? y)%float
  else if String.eqb op "!=" then Some (negb (x =? y)%float)
  else None.

Definition eval_comparison (condition : string) (amount : float) : eval_outcome :=
  match split_spaces condition EmptyString with
  | [lhs; op; rhs] =>
      if String.eqb lhs "amount" then
        match float_of_decimal rhs with
        | Some y =>
            match compare_floats op amount y with
            | Some true => EvalTruthy
            | Some false => EvalFalsy
            | None => EvalRaised
            end
        | None => EvalRaised
        end
      else EvalRaised
  | _ => EvalRaised
  end.

(** Two messages and what the patterns capture in them. *)
Definition sms_sent : string :=
  "QA12345678 Confirmed. Ksh500.00 sent to JOHN DOE 0712345678 on 1/3/24 at 2:30 PM. New M-PESA balance is Ksh1500.00. Transaction cost, Ksh15.00.".

Definition sms_received : string :=
  "QB87654321 Confirmed. You have received Ksh500.00 from JOHN DOE 0712345678 on 1/3/24 at 2:30 PM. New M-PESA balance is Ksh1500.00. Transaction cost Ksh15.00".

Definition match_sent : sms_match :=
  mkMatch "QA12345678" (Some "500.00") (Some "sent to JOHN DOE 0712345678")
          (Some "1/3/24") (Some "2:30 PM") (Some "1500.00") (Some "15.00.").

Definition match_received : sms_match :=
  mkMatch "QB87654321" (Some "500.00") (Some "from JOHN DOE 0712345678")
          (Some "1/3/24") (Some "2:30 PM") (Some "1500.00.") (Some "15.00").

Definition recorded_search (p : pattern) (sms : string) : option sms_match :=
  match p with
  | PatSent => if String.eqb sms sms_sent then Some match_sent else None
  | PatReceived => if String.eqb sms sms_received then Some match_received else None
  | PatWithdraw | PatDeposit => None
  end.

Definition recorded_meta (value : string) (sms : string) : option string :=
  if String.eqb sms sms_sent || String.eqb sms sms_received
  then Some value else None.

Definition runtime : PyRuntime := {|
  py_eval := eval_comparison;
  py_float := float_of_decimal;
  re_search := recorded_search;
  meta_date := recorded_meta "1/3/24";
  meta_time := recorded_meta "2:30 PM"
|}.

(** A rule file and an input table for the examples. *)
Definition example_rules : json :=
  JObj [("accounts", JList [JStr "Expenses:Food"; JStr "Expenses:Charges";
                            JStr "Income:Salary"; JStr "Expenses:Unknown"]);
        ("default_account", JStr "Expenses:Unknown");
        ("rules", JList [
           JObj [("account", JStr "Income:Salary");
                 ("keywords", JList [JStr "salary"; JStr "payroll"]);
                 ("condition", JStr "amount > 1000")];
           JObj [("account", JStr "Expenses:Food");
                 ("keywords", JList [JStr "paid"; JStr "cafe"]);
                 ("exclude", JList [JStr "refund"]);
                 ("match_type", JStr "all")];
           JObj [("account", JStr "Expenses:Charges");
                 ("keywords", JList [JStr "charge"])]])].

(** The same rule file as [load_config] hands it to the classifier. *)
Definition example_config : Config :=
  mkConfig ["Expenses:Food"; "Expenses:Charges"; "Income:Salary";
            "Expenses:Unknown"]
           [mkRule "Income:Salary" ["salary"; "payroll"] None None
                   (Some "amount > 1000");
            mkRule "Expenses:Food" ["paid"; "cafe"] (Some ["refund"])
                   (Some "all") None;
            mkRule "Expenses:Charges" ["charge"] None None None]
           "Expenses:Unknown".

Definition example_rows : list Row :=
  [mkRow "R1" "2024-03-01 14:00:00" "Salary March" "Completed" "50000.00" "" "50800.00";
   mkRow "R2" "2024-03-01 09:00:00" "Paid to Java Cafe" "Completed" "" "200.00" "800.00";
   mkRow "R3" "2024-03-02 10:00:00" "Airtime" "Failed" "" "50.00" "1750.00";
   mkRow "R4" "2024-02-28 10:00:00" "Old one" "Completed" "" "10.00" "1000.00"].

End ReferenceRuntime.

(** ** A runtime for a message dated with a four-digit year

    The reference runtime, with a third message and what the first
    pattern captures in it. *)
Module LongYearRuntime.

Definition sms_long_year : string :=
  "QC11223344 Confirmed. Ksh250.00 sent to JANE DOE 0722000000 on 1/3/2024 at 2:30 PM. New M-PESA balance is Ksh1250.00. Transaction cost, Ksh7.00.".

Definition match_long_year : sms_match :=
  mkMatch "QC11223344" (Some "250.00") (Some "sent to JANE DOE 0722000000")
          (Some "1/3/2024") (Some "2:30 PM") (Some "1250.00") (Some "7.00.").

Definition recorded_search (p : pattern) (sms : string) : option sms_match :=
  match p with
  | PatSent =>
      if String.eqb sms sms_long_year then Some match_long_year
      else ReferenceRuntime.recorded_search p sms
  | _ => ReferenceRuntime.recorded_search p sms
  end.

Definition recorded_meta (long_year value : string) (sms : string)
    : option string :=
  if String.eqb sms sms_long_year then Some long_year
  else ReferenceRuntime.recorded_meta value sms.

Definition runtime : PyRuntime := {|
  py_eval := ReferenceRuntime.eval_comparison;
  py_float := ReferenceRuntime.float_of_decimal;
  re_search := recorded_search;
  meta_date := recorded_meta "1/3/2024" "1/3/24";
  meta_time := recorded_meta "2:30 PM" "2:30 PM"
|}.

End LongYearRuntime.

(** ** Rule files for the examples *)
Module Examples.

(** A rule file without [match_type] and without [exclude]. *)
Definition plain_rules : json :=
  JObj [("accounts", JList [JStr "Expenses:Food"; JStr "Expenses:Unknown"]);
        ("default_account", JStr "Expenses:Unknown");
        ("rules", JList [JObj [("account", JStr "Expenses:Food");
                               ("keywords", JList [JStr "cafe"])]])].

(** A rule file whose only rule is the number 5. *)
Definition non_object_rule : json :=
  JObj [("accounts", JList [JStr "Expenses:Unknown"]);
        ("default_account", JStr "Expenses:Unknown");
        ("rules", JList [JNum 5%Q])].

(** A rule file whose rule has [exclude] set to [null]. *)
Definition null_exclude_rules : json :=
  JObj [("accounts", JList [JStr "Expenses:Food"; JStr "Expenses:Unknown"]);
        ("default_account", JStr "Expenses:Unknown");
        ("rules", JList [JObj [("account", JStr "Expenses:Food");
                               ("keywords", JList [JStr "cafe"]);
                               ("exclude", JNull)]])].

End Examples.

(** ** The properties, in the words of the specification *)

Module Spec.

Section Classifier.
Context `{PyRuntime}.

(** The keyword and exclude test [ledgerfy.categorize_transaction] makes
    on a rule: the call of [check_keywords_match] with the [dict.get]
    defaults. *)
Definition keyword_test (details_lower : string) (r : Rule) : bool :=
  Ledgerfy.check_keywords_match details_lower (rule_keywords r)
    (default "any" (rule_match_type r)) (Some (default [] (rule_exclude r))).

(** The same for [mpesa_ledgerfy.categorize_transaction]: no exclude
    keyword occurs and some keyword does. *)
Definition keyword_test_2csv (details_lower : string) (r : Rule) : bool :=
  negb (existsb (fun k => PyStr.contains k details_lower)
                (default [] (rule_exclude r))) &&
  existsb (fun k => PyStr.contains k details_lower) (rule_keywords r).

(** No condition, or a condition that evaluates to a true value. *)
Definition condition_test (amount : float) (r : Rule) : bool :=
  match condition_present (rule_condition r) with
  | None => true
  | Some c =>
      match py_eval c amount with
      | EvalTruthy => true
      | EvalFalsy | EvalRaised => false
      end
  end.

(** The condition is present and its evaluation raises. *)
Definition condition_fails (amount : float) (r : Rule) : bool :=
  match condition_present (rule_condition r) with
  | None => false
  | Some c =>
      match py_eval c amount with
      | EvalRaised => true
      | EvalTruthy | EvalFalsy => false
      end
  end.

Definition fires (details_lower : string) (amount : float) (r : Rule) : bool :=
  keyword_test details_lower r && condition_test amount r.

Definition fires_2csv (details_lower : string) (amount : float) (r : Rule)
    : bool :=
  keyword_test_2csv details_lower r && condition_test amount r.

End Classifier.

(** [r] is the first element of [l] that satisfies [P]. *)
Definition first_match {A : Type} (P : A -> bool) (l : list A) (r : A) : Prop :=
  exists pre post,
    l = pre ++ r :: post /\ Forall (fun x => P x = false) pre /\ P r = true.

Definition no_match {A : Type} (P : A -> bool) (l : list A) : Prop :=
  Forall (fun x => P x = false) l.

(** The result of a first-match-wins classification: the account of the
    first rule that satisfies [P], or [dflt] when, and only when, none
    does. *)
Definition first_match_wins (P : Rule -> bool) (rules : list Rule)
    (dflt : string) (result : string) : Prop :=
  (exists r, first_match P rules r /\ result = rule_account r) \/
  (no_match P rules /\ result = dflt).

End Spec.

(** What [validate_config] checks, in the words of the specification. *)
Module ConfigSpec.
Import Json.

(** The checks on one rule: its [account] is in [accounts], it has a
    [keywords] sequence, and a present [match_type] is ["any"] or
    ["all"]. *)
Definition rule_ok (accounts : list json) (rule : json) : Prop :=
  match rule with
  | JObj kvs =>
      (exists account,
         assoc "account" kvs = Some account /\ in_list account accounts = true) /\
      (exists keywords, assoc "keywords" kvs = Some (JList keywords)) /\
      (forall match_type,
         assoc "match_type" kvs = Some match_type ->
         match_type = JStr "any" \/ match_type = JStr "all")
  | _ => False
  end.

(** The checks on the document: the three top-level keys are present,
    [accounts] and [rules] are sequences, [default_account] is in
    [accounts], and every rule passes [rule_ok]. *)
Definition config_ok (config : json) : Prop :=
  exists kvs accounts rules default_account,
    config = JObj kvs /\
    assoc "accounts" kvs = Some (JList accounts) /\
    assoc "rules" kvs = Some (JList rules) /\
    assoc "default_account" kvs = Some default_account /\
    in_list default_account accounts = true /\
    Forall (rule_ok accounts) rules.

(** The shape the rule file is documented to have: an object whose
    rules, when they form a list, are objects. *)
Definition rules_are_objects (config : json) : Prop :=
  exists kvs,
    config = JObj kvs /\
    forall rules, assoc "rules" kvs = Some (JList rules) ->
                  Forall (fun r => is_obj r = true) rules.

Definition is_config_error {A : Type} (r : result A) : Prop :=
  exists e, r = Raise (ValueError_config e).

End ConfigSpec.

(** Which rows the ledger stage keeps, and the layout of a day. *)
Module LedgerSpec.
Import LedgerfyRun.

(** The date portion of [completionTime]. *)
Definition transaction_date (row : Row) : string :=
  PyStr.split_space_head (row_completion_time row).

(** [status] equals ["completed"], ignoring case. *)
Definition is_completed (row : Row) : bool :=
  String.eqb (PyStr.lower (row_status row)) "completed".

(** The date lies in [[start_date, end_date]], both ends included; an
    absent (or empty) [end_date] is no upper bound. *)
Definition in_date_range (start_date : string) (end_date : option string)
    (row : Row) : bool :=
  PyStr.le start_date (transaction_date row) &&
  match end_date with
  | Some e => if PyStr.truthy e then PyStr.le (transaction_date row) e else true
  | None => true
  end.

Definition included (start_date : string) (end_date : option string)
    (row : Row) : bool :=
  is_completed row && in_date_range start_date end_date row.

(** [paidIn] if [paidIn > 0], else [withdrawn]. *)
Definition derived_amount (paid_in withdrawn : float) : float :=
  if (0 <? paid_in)%float then paid_in else withdrawn.

Section Rows.
Context `{PyRuntime}.

(** The three numeric fields of the row are empty or numbers. *)
Definition numeric_ok (row : Row) : bool :=
  let ok := fun s => negb (PyStr.truthy s) || bool_decide (is_Some (py_float s)) in
  ok (row_paid_in row) && ok (row_withdrawn row) && ok (row_balance row).

(** [p] is the posting of [row]: its numeric fields read as floats
    (empty as [0.0]), its amount derived from them, its account the
    classification of its details and amount. *)
Definition row_posting (config : Config) (row : Row) (p : Posting) : Prop :=
  exists paid_in withdrawn balance,
    float_or_zero (row_paid_in row) = Ok paid_in /\
    float_or_zero (row_withdrawn row) = Ok withdrawn /\
    float_or_zero (row_balance row) = Ok balance /\
    tx_amount p = derived_amount paid_in withdrawn /\
    tx_account p =
      Ledgerfy.categorize_transaction (row_details row) (tx_amount p) config /\
    tx_details p = row_details row /\
    tx_balance p = balance /\
    tx_timestamp p = row_completion_time row.

End Rows.

(** [out] is [l] sorted by [key], equal keys in their order in [l]. *)
Definition stable_sorted_by {A : Type} (key : A -> string) (l out : list A)
    : Prop :=
  StronglySorted (fun a b => PyStr.le (key a) (key b) = true) out /\
  out ≡ₚ l /\
  forall k, filter (fun x => key x = k) out = filter (fun x => key x = k) l.

(** The text of a posting line up to the point where the closing balance
    may follow. *)
Definition posting_text (t : Posting) : string :=
  "    " +:+ PyStr.ljust 45 (tx_account t) +:+ " " +:+
  formatted_amount (tx_account t) (tx_amount t) +:+ " ; " +:+ tx_details t.

(** The closing-balance assertion of a day whose last posting is [t]. *)
Definition closing_balance (t : Posting) : string :=
  " BAL KES " +:+ PyFloat.format_2f (tx_balance t).

(** The block of a date whose postings, in their final order, are
    [daily]: the header, the asset account, one line per posting with the
    closing balance on the last one only, and a blank line. *)
Definition day_block (date : string) (daily : list Posting) : list string :=
  [date +:+ " *" +:+ PyFloat.nl; "    Assets:Checking:Mpesa" +:+ PyFloat.nl] ++
  match last daily with
  | Some closing =>
      map (fun t => posting_text t +:+ PyFloat.nl) (removelast daily) ++
      [posting_text closing +:+ closing_balance closing +:+ PyFloat.nl]
  | None => []
  end ++
  [PyFloat.nl].

End LedgerSpec.

(** Predicates for the further properties at the end of the file. *)
Module MoreSpec.

(** The check on [match_type] that ends the rule loop of
    [ledgerfy.validate_config]. *)
Definition check_match_type (i : nat) (rule : json) : result unit :=
  has_match_type ← Json.contains_str "match_type" rule;
  if (has_match_type : bool)
  then
    match_type ← Json.getitem rule "match_type";
    if negb (Json.in_list match_type [JStr "any"; JStr "all"])
    then Raise (ValueError_config (RuleInvalidMatchType i match_type))
    else Ok tt
  else Ok tt.

(** No rule of the document has a [match_type] key. *)
Definition no_match_type (config : json) : Prop :=
  forall kvs rules,
    config = JObj kvs -> Json.assoc "rules" kvs = Some (JList rules) ->
    Forall (fun rule => forall rkvs, rule = JObj rkvs ->
                          Json.assoc "match_type" rkvs = None) rules.

(** A row in the date range one of whose numeric fields is neither empty
    nor a number. *)
Definition bad_row `{PyRuntime} (start_date : string)
    (end_date : option string) (row : Row) : bool :=
  LedgerSpec.in_date_range start_date end_date row &&
  negb (LedgerSpec.numeric_ok row).


(** A text with no white space but single [" "] between two other
    characters; [after_space] tells that the text follows a space, or
    nothing. *)
Fixpoint single_spaced (after_space : bool) (s : string) : bool :=
  match s with
  | EmptyString => negb after_space
  | String c s' =>
      if PyTime.is_space c
      then Ascii.eqb c " " && negb after_space && single_spaced true s'
      else single_spaced false s'
  end.

(** The empty text, or words separated by single spaces. *)
Definition normalised (s : string) : bool :=
  match s with
  | EmptyString => true
  | String _ _ => single_spaced true s
  end.

(** The number of ["."] in a text. *)
Fixpoint count_dots (s : string) : nat :=
  match s with
  | EmptyString => 0%nat
  | String c s' => ((if Ascii.eqb c "." then 1 else 0) + count_dots s')%nat
  end.

(** A page [extract_mpesa_data_from_pdf] reads tables from. *)
Definition marked_page (page : PdfPage) : bool :=
  match page_text page with
  | Some text => PyStr.contains "Receipt No." text
  | None => false
  end.

(** The rows of the tables of the marked pages, in reading order. *)
Definition table_rows (pages : list PdfPage) : list (list (option string)) :=
  concat (concat (page_tables <$> filter (fun p => marked_page p = true) pages)).

(** A row with seven cells or more that is neither a header nor a footer. *)
Definition data_row (row : list (option string)) : bool :=
  Nat.leb 7 (length row) && negb (Xtract.is_header_row row)
  && negb (Xtract.is_footer_row row).

(** What every extracted transaction satisfies. *)
Definition pdf_transaction_ok (t : PdfTransaction) : Prop :=
  pt_receipt_no t <> "" /\ pt_completion_time t <> "" /\ pt_status t <> "" /\
  forall w, pt_withdrawn t = Some w -> (w <? 0)%float = false.



(** [head] of a matcher's answers. *)
Definition first_answer {A : Type} (p : PyTime.matcher A) (s : string)
    (a : A) (rest : string) : Prop :=
  exists others, p s = (a, rest) :: others.


(** A message [MpesaParser.parse] makes something of without raising. *)
Definition parses `{PyRuntime} (sms : option string) : Prop :=
  exists r, XtractAndroid.parse (default "" sms) = Ok r.

(** The records [MpesaParser.parse] returns for a message, none when it
    returns [None]. *)
Definition records_of `{PyRuntime} (sms : option string) : list SmsRecord :=
  match XtractAndroid.parse (default "" sms) with
  | Ok (Some records) => records
  | _ => []
  end.


(** The year [%y] stands for: 69 to 99 are 1969 to 1999, and 0 to 68 are
    2000 to 2068. *)
Definition pivot_year (y : Z) : Z := if y <=? 68 then y + 2000 else y + 1900.

(** The hour of the day of a 12-hour clock reading. *)
Definition hour24 (h12 : Z) (pm : bool) : Z :=
  if pm then (if h12 =? 12 then 12 else h12 + 12)
  else (if h12 =? 12 then 0 else h12).

(** A date and a time as the messages write them: day, month and hour
    without padding, two digits of year and of minutes. *)
Definition written_date (d m y : Z) : string :=
  PyFloat.str_of_nonneg d +:+ "/" +:+ PyFloat.str_of_nonneg m +:+ "/" +:+
  PyFloat.two_digits y.

Definition written_time (h12 M : Z) (pm : bool) : string :=
  PyFloat.str_of_nonneg h12 +:+ ":" +:+ PyFloat.two_digits M +:+ " " +:+
  (if pm then "PM" else "AM").


(** No rule of the document has the key [exclude] with the value
    [null]. *)
Definition no_null_exclude (config : json) : Prop :=
  forall kvs rules,
    config = JObj kvs -> Json.assoc "rules" kvs = Some (JList rules) ->
    Forall (fun rule => forall rkvs, rule = JObj rkvs ->
                          Json.assoc "exclude" rkvs <> Some JNull) rules.

(** The rule file is one the typed view of a rule set covers: if it
    passes [validate_config], its keywords and excludes are lists of
    strings and its accounts, conditions and match types are strings. *)
Definition typed_view (config : json) : Prop :=
  LedgerfyConfig.load_config config <> Raise IllTypedRuleSet.

End MoreSpec.

(** ** Classification *)

Section ClassifierFacts.
Context `{PyRuntime}.

Lemma find_first_match {A : Type} (P : A -> bool) (l : list A) :
  match List.find P l with
  | Some r => Spec.first_match P l r
  | None => Spec.no_match P l
  end.
Proof.
  induction l as [|x l IH]; simpl.
  - constructor.
  - destruct (P x) eqn:Px.
    + exists [], l. repeat split; [constructor | assumption].
    + destruct (List.find P l) as [r|].
      * destruct IH as (pre & post & -> & Hpre & Hr).
        exists (x :: pre), post. repeat split; [constructor; assumption | assumption].
      * constructor; assumption.
Qed.

Lemma first_match_find {A : Type} (P : A -> bool) (pre post : list A) (r : A) :
  Forall (fun x => P x = false) pre -> P r = true ->
  List.find P (pre ++ r :: post) = Some r.
Proof.
  intros Hpre Hr. induction Hpre as [|x pre Hx _ IH]; simpl.
  - now rewrite Hr.
  - now rewrite Hx.
Qed.

Lemma no_match_find {A : Type} (P : A -> bool) (l : list A) :
  Spec.no_match P l -> List.find P l = None.
Proof.
  induction 1 as [|x l Hx _ IH]; simpl; [reflexivity | now rewrite Hx].
Qed.

(** The loop of [ledgerfy.py] is a search for the first rule that fires. *)
Lemma categorize_loop_find (d : string) (amount : float) (rules : list Rule)
    (dflt : string) :
  Ledgerfy.categorize_loop d amount rules dflt =
  match List.find (Spec.fires d amount) rules with
  | Some r => rule_account r
  | None => dflt
  end.
Proof.
  induction rules as [|r rules IH]; simpl; [reflexivity|].
  unfold Spec.fires at 1, Spec.keyword_test, Spec.condition_test.
  destruct (Ledgerfy.check_keywords_match _ _ _ _); simpl; [|exact IH].
  destruct (condition_present (rule_condition r)) as [c|]; [|reflexivity].
  destruct (py_eval c amount); [reflexivity | exact IH | exact IH].
Qed.

(** So is the loop of [mpesa_ledgerfy.py], with its own keyword test. *)
Lemma categorize_loop_find_2csv (d : string) (amount : float)
    (rules : list Rule) (dflt : string) :
  Mpesa2csv.categorize_loop d amount rules dflt =
  match List.find (Spec.fires_2csv d amount) rules with
  | Some r => rule_account r
  | None => dflt
  end.
Proof.
  induction rules as [|r rules IH]; simpl; [reflexivity|].
  unfold Spec.fires_2csv at 1, Spec.keyword_test_2csv, Spec.condition_test.
  destruct (existsb _ (default [] (rule_exclude r))); simpl; [exact IH|].
  destruct (existsb _ (rule_keywords r)); simpl; [|exact IH].
  destruct (condition_present (rule_condition r)) as [c|]; [|reflexivity].
  destruct (py_eval c amount); [reflexivity | exact IH | exact IH].
Qed.

(** A rule that does not fire can be dropped from the rule list. *)
Lemma find_skip {A : Type} (P : A -> bool) (pre post : list A) (r : A) :
  P r = false -> List.find P (pre ++ r :: post) = List.find P (pre ++ post).
Proof.
  intros Hr. induction pre as [|x pre IH]; simpl.
  - now rewrite Hr.
  - now rewrite IH.
Qed.

Lemma find_app_no_match {A : Type} (P : A -> bool) (pre post : list A) :
  Spec.no_match P pre -> List.find P (pre ++ post) = List.find P post.
Proof.
  induction 1 as [|x pre Hx _ IH]; simpl; [reflexivity | now rewrite Hx].
Qed.

Lemma find_some_in {A : Type} (P : A -> bool) (l : list A) (r : A) :
  List.find P l = Some r -> In r l.
Proof. intros Hf. now apply List.find_some in Hf. Qed.

End ClassifierFacts.

Lemma find_first_match_wins (P : Rule -> bool) (rules : list Rule)
    (dflt : string) :
  Spec.first_match_wins P rules dflt
    match List.find P rules with
    | Some r => rule_account r
    | None => dflt
    end.
Proof.
  pose proof (find_first_match P rules) as Hf.
  destruct (List.find P rules) as [r|].
  - left. exists r. split; [exact Hf | reflexivity].
  - right. split; [exact Hf | reflexivity].
Qed.

(** C1: for every rule set and every (details, amount) pair, both
    [categorize_transaction] functions return the account of the first
    rule, in declared order, whose keyword/exclude/condition test succeeds,
    whatever rules follow it (they are not consulted), and return
    [default_account] exactly when no rule of the list succeeds. *)
Theorem categorize_transaction_first_match `{PyRuntime}
    (details : string) (amount : float) (config : Config) :
  let d := PyStr.lower details in
  Spec.first_match_wins (Spec.fires d amount) (cfg_rules config)
    (cfg_default_account config)
    (Ledgerfy.categorize_transaction details amount config) /\
  Spec.first_match_wins (Spec.fires_2csv d amount) (cfg_rules config)
    (cfg_default_account config)
    (Mpesa2csv.categorize_transaction details amount config) /\
  (forall pre r post post',
     cfg_rules config = pre ++ r :: post ->
     Spec.no_match (Spec.fires d amount) pre ->
     Spec.fires d amount r = true ->
     Ledgerfy.categorize_transaction details amount
       (mkConfig (cfg_accounts config) (pre ++ r :: post')
                 (cfg_default_account config)) = rule_account r) /\
  (forall pre r post post',
     cfg_rules config = pre ++ r :: post ->
     Spec.no_match (Spec.fires_2csv d amount) pre ->
     Spec.fires_2csv d amount r = true ->
     Mpesa2csv.categorize_transaction details amount
       (mkConfig (cfg_accounts config) (pre ++ r :: post')
                 (cfg_default_account config)) = rule_account r).
Proof.
  intros d. repeat split.
  - unfold Ledgerfy.categorize_transaction. fold d.
    rewrite categorize_loop_find. apply find_first_match_wins.
  - unfold Mpesa2csv.categorize_transaction. fold d.
    rewrite categorize_loop_find_2csv. apply find_first_match_wins.
  - intros pre r post post' _ Hpre Hr.
    unfold Ledgerfy.categorize_transaction; simpl. fold d.
    rewrite categorize_loop_find, (first_match_find _ pre post' r Hpre Hr).
    reflexivity.
  - intros pre r post post' _ Hpre Hr.
    unfold Mpesa2csv.categorize_transaction; simpl. fold d.
    rewrite categorize_loop_find_2csv, (first_match_find _ pre post' r Hpre Hr).
    reflexivity.
Qed.

(** C2: [check_keywords_match] returns false on an empty keyword list;
    returns false whenever an exclude keyword is a substring of the
    details, so that the rule is passed over whatever its condition; and
    otherwise returns true iff every keyword is a substring under
    ["all"], iff some keyword is a substring under any other match type,
    ["any"] being what an absent [match_type] stands for. *)
Theorem check_keywords_match_spec (details_lower : string)
    (keywords : list string) (match_type : string)
    (exclude : option (list string)) :
  let hit := fun k => PyStr.contains k details_lower = true in
  let excluded := fun ex => exists k, In k (default [] ex) /\ hit k in
  let result :=
    Ledgerfy.check_keywords_match details_lower keywords match_type exclude in
  (keywords = [] -> result = false) /\
  (excluded exclude -> result = false) /\
  (keywords <> [] -> ~ excluded exclude -> match_type = "all" ->
     (result = true <-> forall k, In k keywords -> hit k)) /\
  (keywords <> [] -> ~ excluded exclude -> match_type <> "all" ->
     (result = true <-> exists k, In k keywords /\ hit k)) /\
  (Ledgerfy.check_keywords_match_defaults details_lower keywords = true <->
     exists k, In k keywords /\ hit k) /\
  (forall r, rule_match_type r = None ->
     Spec.keyword_test details_lower r =
     Ledgerfy.check_keywords_match details_lower (rule_keywords r) "any"
       (Some (default [] (rule_exclude r)))) /\
  (forall (R : PyRuntime) amount r rest dflt,
     excluded (rule_exclude r) ->
     Spec.fires details_lower amount r = false /\
     Ledgerfy.categorize_loop details_lower amount (r :: rest) dflt =
     Ledgerfy.categorize_loop details_lower amount rest dflt).
Proof.
  intros hit excluded result.
  assert (Hex : forall mt kws ex, excluded ex ->
            Ledgerfy.check_keywords_match details_lower kws mt ex = false).
  { intros mt kws ex (k & Hin & Hk). unfold Ledgerfy.check_keywords_match.
    destruct kws as [|k0 kws]; [reflexivity|].
    destruct ex as [[|e ex]|]; simpl in Hin; try contradiction.
    assert (Hany : existsb (fun k => PyStr.contains k details_lower) (e :: ex) = true)
      by (apply existsb_exists; exists k; split; assumption).
    now rewrite Hany. }
  assert (Hnex : forall ex, ~ excluded ex ->
            match ex with
            | None | Some [] => false
            | Some ex => existsb (fun k => PyStr.contains k details_lower) ex
            end = false).
  { intros ex Hn. destruct ex as [[|e ex]|]; try reflexivity.
    apply not_true_is_false. intros Hany. apply Hn.
    apply existsb_exists in Hany. exact Hany. }
  assert (Hany : forall mt k0 kws ex, ~ excluded ex -> mt <> "all" ->
            Ledgerfy.check_keywords_match details_lower (k0 :: kws) mt ex
            = existsb (fun k => PyStr.contains k details_lower) (k0 :: kws)).
  { intros mt k0 kws ex Hn Hmt. unfold Ledgerfy.check_keywords_match.
    rewrite (Hnex _ Hn). apply String.eqb_neq in Hmt. now rewrite Hmt. }
  subst result.
  split; [intros ->; reflexivity|].
  split; [apply Hex|].
  split.
  { intros Hne Hn ->. destruct keywords as [|k0 kws]; [contradiction|].
    unfold Ledgerfy.check_keywords_match. rewrite (Hnex _ Hn).
    simpl String.eqb. cbv iota. rewrite forallb_forall. reflexivity. }
  split.
  { intros Hne Hn Hmt. destruct keywords as [|k0 kws]; [contradiction|].
    rewrite (Hany _ _ _ _ Hn Hmt). apply existsb_exists. }
  split.
  { unfold Ledgerfy.check_keywords_match_defaults.
    destruct keywords as [|k0 kws].
    - split; [discriminate | intros (k & [] & _)].
    - rewrite Hany; [apply existsb_exists | | discriminate].
      intros (k & [] & _). }
  split.
  { intros r Hr. unfold Spec.keyword_test. rewrite Hr. reflexivity. }
  intros R amount r rest dflt Hexcl.
  assert (Hk : Spec.keyword_test details_lower r = false)
    by (apply Hex; exact Hexcl).
  split.
  - unfold Spec.fires. now rewrite Hk.
  - simpl. unfold Spec.keyword_test in Hk. now rewrite Hk.
Qed.

Section ConditionFailure.
Context `{PyRuntime}.

Lemma condition_fails_not_test (amount : float) (r : Rule) :
  Spec.condition_fails amount r = true -> Spec.condition_test amount r = false.
Proof.
  unfold Spec.condition_fails, Spec.condition_test.
  destruct (condition_present (rule_condition r)) as [c|]; [|discriminate].
  destruct (py_eval c amount); [discriminate | reflexivity | reflexivity].
Qed.

Lemma categorize_drop_rule (details : string) (amount : float)
    (accounts : list string) (pre post : list Rule) (r : Rule) (dflt : string) :
  Spec.fires (PyStr.lower details) amount r = false ->
  Ledgerfy.categorize_transaction details amount
    (mkConfig accounts (pre ++ r :: post) dflt) =
  Ledgerfy.categorize_transaction details amount
    (mkConfig accounts (pre ++ post) dflt).
Proof.
  intros Hr. unfold Ledgerfy.categorize_transaction; simpl.
  now rewrite !categorize_loop_find, (find_skip _ pre post r Hr).
Qed.

Lemma categorize_drop_rule_2csv (details : string) (amount : float)
    (accounts : list string) (pre post : list Rule) (r : Rule) (dflt : string) :
  Spec.fires_2csv (PyStr.lower details) amount r = false ->
  Mpesa2csv.categorize_transaction details amount
    (mkConfig accounts (pre ++ r :: post) dflt) =
  Mpesa2csv.categorize_transaction details amount
    (mkConfig accounts (pre ++ post) dflt).
Proof.
  intros Hr. unfold Mpesa2csv.categorize_transaction; simpl.
  now rewrite !categorize_loop_find_2csv, (find_skip _ pre post r Hr).
Qed.

Lemma categorize_yields_account (details : string) (amount : float)
    (config : Config) :
  Ledgerfy.categorize_transaction details amount config =
    cfg_default_account config \/
  exists r, In r (cfg_rules config) /\
    Ledgerfy.categorize_transaction details amount config = rule_account r.
Proof.
  unfold Ledgerfy.categorize_transaction. rewrite categorize_loop_find.
  destruct (List.find _ (cfg_rules config)) as [r|] eqn:Hf.
  - right. exists r. split; [eapply find_some_in; exact Hf | reflexivity].
  - left. reflexivity.
Qed.

End ConditionFailure.

(** C6: a rule whose keyword match succeeds and whose condition raises
    when evaluated on the amount counts as a non-match: classification
    goes on exactly as if the rule were not in the list, and it still
    returns an account, that of another rule or the default (that of a
    later rule or the default when no earlier rule fires). *)
Theorem failing_condition_is_non_match `{PyRuntime}
    (details : string) (amount : float) (accounts : list string)
    (pre post : list Rule) (r : Rule) (dflt : string) :
  Spec.keyword_test (PyStr.lower details) r = true ->
  Spec.condition_fails amount r = true ->
  let result :=
    Ledgerfy.categorize_transaction details amount
      (mkConfig accounts (pre ++ r :: post) dflt) in
  result = Ledgerfy.categorize_transaction details amount
             (mkConfig accounts (pre ++ post) dflt) /\
  (Spec.no_match (Spec.fires (PyStr.lower details) amount) pre ->
   result = Ledgerfy.categorize_transaction details amount
              (mkConfig accounts post dflt) /\
   (result = dflt \/ exists r', In r' post /\ result = rule_account r')) /\
  (result = dflt \/ exists r', In r' (pre ++ post) /\ result = rule_account r').
Proof.
  intros Hkw Hfail result.
  assert (Hr : Spec.fires (PyStr.lower details) amount r = false).
  { unfold Spec.fires. rewrite (condition_fails_not_test _ _ Hfail).
    apply andb_false_r. }
  assert (Hdrop := categorize_drop_rule details amount accounts pre post r dflt Hr).
  fold result in Hdrop.
  split; [exact Hdrop|]. split.
  - intros Hpre.
    assert (Hpost : result = Ledgerfy.categorize_transaction details amount
                               (mkConfig accounts post dflt)).
    { rewrite Hdrop. unfold Ledgerfy.categorize_transaction; simpl.
      now rewrite !categorize_loop_find, (find_app_no_match _ pre post Hpre). }
    split; [exact Hpost|]. rewrite Hpost.
    apply (categorize_yields_account details amount (mkConfig accounts post dflt)).
  - rewrite Hdrop.
    apply (categorize_yields_account details amount
             (mkConfig accounts (pre ++ post) dflt)).
Qed.

Lemma failing_condition_is_non_match_witness :
  let r := mkRule "Expenses:Food" ["paid"] None None (Some "amount >") in
  let later := mkRule "Expenses:Bills" ["paid"] None None None in
  Ledgerfy.categorize_transaction (H := ReferenceRuntime.runtime)
    "Paid to Java Cafe" 200%float
    (mkConfig [] ([] ++ r :: [later]) "Expenses:Unknown") = "Expenses:Bills".
Proof.
  intros r later.
  destruct (failing_condition_is_non_match (H := ReferenceRuntime.runtime)
              "Paid to Java Cafe" 200%float [] [] [later] r "Expenses:Unknown"
              eq_refl eq_refl) as [Hdrop _].
  rewrite Hdrop. reflexivity.
Defined.

(** ** Case sensitivity of the keyword tests *)

Lemma lower_char_not_upper (c : ascii) :
  PyStr.is_upper (PyStr.lower_char c) = false.
Proof. destruct c as [[] [] [] [] [] [] [] []]; reflexivity. Qed.

Lemma lower_has_no_upper (s : string) :
  PyStr.all_chars (fun c => negb (PyStr.is_upper c)) (PyStr.lower s) = true.
Proof.
  induction s as [|c s IH]; simpl; [reflexivity|].
  now rewrite lower_char_not_upper, IH.
Qed.

Lemma prefix_all_chars (P : ascii -> bool) (k h : string) :
  String.prefix k h = true -> PyStr.all_chars P h = true -> PyStr.all_chars P k = true.
Proof.
  revert h. induction k as [|c k IH]; intros h Hp Hh; [reflexivity|].
  destruct h as [|c' h]; simpl in Hp; [discriminate|].
  destruct (ascii_dec c c') as [->|]; [|discriminate].
  simpl in *. apply andb_prop in Hh as [Hc Hh].
  rewrite Hc. simpl. eapply IH; eassumption.
Qed.

Lemma contains_all_chars (P : ascii -> bool) (k h : string) :
  PyStr.contains k h = true -> PyStr.all_chars P h = true -> PyStr.all_chars P k = true.
Proof.
  induction h as [|c h IH]; intros Hc Hh.
  - destruct k; [reflexivity | discriminate].
  - change (String.prefix k (String c h) || PyStr.contains k h = true) in Hc.
    apply orb_prop in Hc as [Hp|Hc].
    + eapply prefix_all_chars; [exact Hp | exact Hh].
    + simpl in Hh. apply andb_prop in Hh as [_ Hh]. now apply IH.
Qed.

Lemma has_upper_not_all_lower (k : string) :
  PyStr.has_upper k = true ->
  PyStr.all_chars (fun c => negb (PyStr.is_upper c)) k = false.
Proof.
  induction k as [|c k IH]; simpl; [discriminate|].
  destruct (PyStr.is_upper c); simpl; [reflexivity | exact IH].
Qed.

Lemma upper_keyword_no_hit (k details : string) :
  PyStr.has_upper k = true -> PyStr.contains k (PyStr.lower details) = false.
Proof.
  intros Hk. apply not_true_is_false. intros Hc.
  pose proof (contains_all_chars _ _ _ Hc (lower_has_no_upper details)) as Hall.
  rewrite (has_upper_not_all_lower _ Hk) in Hall. discriminate.
Qed.

Lemma upper_keywords_no_any (kws : list string) (details : string) :
  Forall (fun k => PyStr.has_upper k = true) kws ->
  existsb (fun k => PyStr.contains k (PyStr.lower details)) kws = false.
Proof.
  induction 1 as [|k kws Hk _ IH]; simpl; [reflexivity|].
  now rewrite (upper_keyword_no_hit _ _ Hk), IH.
Qed.

(** C10: the keyword tests are case-sensitive against the lower-cased
    details.  A keyword or exclude keyword that contains an upper-case
    letter is a substring of no lower-cased details string; hence a rule
    all of whose keywords contain an upper-case letter fires on no
    transaction, in either classifier, and removing it from the rule
    list changes no classification. *)
Theorem uppercase_keywords_never_match (details : string) :
  let d := PyStr.lower details in
  (forall kw, PyStr.has_upper kw = true -> PyStr.contains kw d = false) /\
  (forall (R : PyRuntime) (amount : float) (r : Rule),
     Forall (fun k => PyStr.has_upper k = true) (rule_keywords r) ->
     Spec.keyword_test d r = false /\
     Spec.keyword_test_2csv d r = false /\
     forall accounts pre post dflt,
       Ledgerfy.categorize_transaction details amount
         (mkConfig accounts (pre ++ r :: post) dflt) =
       Ledgerfy.categorize_transaction details amount
         (mkConfig accounts (pre ++ post) dflt) /\
       Mpesa2csv.categorize_transaction details amount
         (mkConfig accounts (pre ++ r :: post) dflt) =
       Mpesa2csv.categorize_transaction details amount
         (mkConfig accounts (pre ++ post) dflt)).
Proof.
  intros d. split.
  - intros kw Hkw. apply upper_keyword_no_hit, Hkw.
  - intros R amount r Hall.
    pose proof (upper_keywords_no_any _ details Hall) as Hany. fold d in Hany.
    assert (H1 : Spec.keyword_test d r = false).
    { unfold Spec.keyword_test, Ledgerfy.check_keywords_match.
      destruct (rule_keywords r) as [|k0 kws] eqn:Hkws; [reflexivity|].
      destruct (match Some (default [] (rule_exclude r)) with
                | Some ((_ :: _) as ex) => existsb (fun k => PyStr.contains k d) ex
                | _ => false
                end); [reflexivity|].
      destruct (String.eqb _ "all"); [|exact Hany].
      simpl. inversion Hall as [|? ? Hk0 _]; subst.
      unfold d. now rewrite (upper_keyword_no_hit _ _ Hk0). }
    assert (H2 : Spec.keyword_test_2csv d r = false).
    { unfold Spec.keyword_test_2csv. rewrite Hany. apply andb_false_r. }
    split; [exact H1|]. split; [exact H2|].
    intros accounts pre post dflt. split.
    + apply categorize_drop_rule. unfold Spec.fires. fold d. now rewrite H1.
    + apply categorize_drop_rule_2csv. unfold Spec.fires_2csv. fold d.
      now rewrite H2.
Qed.

(** ** Validation of the rule file *)

Section ValidationFacts.
Import Json LedgerfyConfig ConfigSpec.
#[local] Arguments in_list : simpl never.
#[local] Arguments PyStr.contains : simpl never.

Lemma py_eq_str (s : string) (v : json) :
  py_eq (JStr s) v = true <-> v = JStr s.
Proof.
  destruct v as [| | |t| |]; simpl; try (split; [discriminate | intros [=]]).
  rewrite String.eqb_eq. split; [intros ->; reflexivity | intros [=]; auto].
Qed.

Lemma in_any_all (v : json) :
  in_list v [JStr "any"; JStr "all"] = true <-> v = JStr "any" \/ v = JStr "all".
Proof.
  change (in_list v [JStr "any"; JStr "all"])
    with (py_eq (JStr "any") v || (py_eq (JStr "all") v || false)).
  rewrite orb_false_r, orb_true_iff, !py_eq_str. reflexivity.
Qed.

Lemma validate_rule_obj (accounts : list json) (i : nat)
    (kvs : list (string * json)) :
  (validate_rule accounts i (JObj kvs) = Ok tt /\ rule_ok accounts (JObj kvs)) \/
  (is_config_error (validate_rule accounts i (JObj kvs)) /\
   ~ rule_ok accounts (JObj kvs)).
Proof.
  unfold validate_rule, rule_ok, is_config_error; simpl.
  destruct (assoc "account" kvs) as [account|] eqn:Ha; simpl.
  2:{ right. split; [eexists; reflexivity|]. intros [(a & Hx & _) _]. discriminate. }
  destruct (in_list account accounts) eqn:Hin; simpl.
  2:{ right. split; [eexists; reflexivity|].
      intros [(a & Hx & Hy) _]. congruence. }
  destruct (assoc "keywords" kvs) as [keywords|] eqn:Hk; simpl.
  2:{ right. split; [eexists; reflexivity|]. intros (_ & (k & Hx) & _). discriminate. }
  destruct keywords as [| | | |keywords|]; simpl;
    try (right; split; [eexists; reflexivity |
                        intros (_ & (k & Hx) & _); discriminate]).
  destruct (assoc "match_type" kvs) as [match_type|] eqn:Hm; simpl.
  2:{ left. split; [reflexivity|].
      split; [eauto|]. split; [eauto|]. intros mt Hx. discriminate. }
  destruct (in_list match_type [JStr "any"; JStr "all"]) eqn:Hmt; simpl.
  - left. split; [reflexivity|].
    split; [eauto|]. split; [eauto|].
    intros mt Hx. injection Hx as <-. now apply in_any_all.
  - right. split; [eexists; reflexivity|].
    intros (_ & _ & Hx). specialize (Hx _ eq_refl).
    apply in_any_all in Hx. congruence.
Qed.

Lemma validate_rule_ok (accounts : list json) (i : nat) (rule : json) :
  validate_rule accounts i rule = Ok tt <-> rule_ok accounts rule.
Proof.
  destruct rule as [| b | q | s | l | kvs].
  1-5: split; [|intros []].
  - discriminate.
  - discriminate.
  - discriminate.
  - unfold validate_rule; simpl. destruct (PyStr.contains "account" s); discriminate.
  - unfold validate_rule; simpl. destruct (in_list (JStr "account") l); discriminate.
  - destruct (validate_rule_obj accounts i kvs) as [[Hv Hr]|[(e & Hv) Hr]].
    + split; auto.
    + rewrite Hv. split; [discriminate | contradiction].
Qed.

Lemma validate_rules_ok (accounts : list json) (rules : list json) (i : nat) :
  validate_rules accounts i rules = Ok tt <-> Forall (rule_ok accounts) rules.
Proof.
  revert i. induction rules as [|rule rules IH]; intros i; simpl.
  - split; [constructor | reflexivity].
  - pose proof (validate_rule_ok accounts i rule) as Hr.
    destruct (validate_rule accounts i rule) as [[]|e]; simpl.
    + rewrite IH. split.
      * intros Hrs. constructor; [now apply Hr | exact Hrs].
      * intros Hrs. now inversion Hrs.
    + split; [discriminate|]. intros Hrs. inversion Hrs as [|? ? Hx _]; subst.
      apply Hr in Hx. discriminate.
Qed.

Lemma validate_rules_error (accounts : list json) (rules : list json) (i : nat) :
  Forall (fun r => is_obj r = true) rules ->
  validate_rules accounts i rules = Ok tt \/
  is_config_error (validate_rules accounts i rules).
Proof.
  intros Hobj. revert i.
  induction Hobj as [|rule rules Hrule _ IH]; intros i; simpl; [now left|].
  destruct rule as [| | | | |kvs]; try discriminate.
  destruct (validate_rule_obj accounts i kvs) as [[Hv _]|[(e & Hv) _]];
    rewrite Hv; simpl.
  - apply IH.
  - right. eexists; reflexivity.
Qed.

Lemma validate_config_ok (config : json) :
  validate_config config = Ok tt <-> config_ok config.
Proof.
  unfold config_ok. destruct config as [| b | q | s | l | kvs].
  1-5: split; [|intros (kvs & a & r & d & Hc & _); discriminate].
  - discriminate.
  - discriminate.
  - discriminate.
  - unfold validate_config; simpl.
    repeat (match goal with |- context [PyStr.contains ?a ?b] =>
              destruct (PyStr.contains a b); simpl end); discriminate.
  - unfold validate_config; simpl.
    repeat (match goal with |- context [in_list ?a ?b] =>
              destruct (in_list a b); simpl end); discriminate.
  - unfold validate_config; simpl.
    destruct (assoc "accounts" kvs) as [accounts|] eqn:Ha; simpl.
    2:{ split; [discriminate|]. intros (? & ? & ? & ? & [= <-] & Hx & _). congruence. }
    destruct (assoc "rules" kvs) as [rules|] eqn:Hr; simpl.
    2:{ split; [discriminate|]. intros (? & ? & ? & ? & [= <-] & _ & Hx & _). congruence. }
    destruct (assoc "default_account" kvs) as [dflt|] eqn:Hd; simpl.
    2:{ split; [discriminate|].
        intros (? & ? & ? & ? & [= <-] & _ & _ & Hx & _). congruence. }
    destruct accounts as [| | | |accounts|]; simpl;
      try (split; [discriminate|];
           intros (? & ? & ? & ? & [= <-] & Hx & _); congruence).
    destruct rules as [| | | |rules|]; simpl;
      try (split; [discriminate|];
           intros (? & ? & ? & ? & [= <-] & _ & Hx & _); congruence).
    destruct (in_list dflt accounts) eqn:Hin; simpl.
    + rewrite validate_rules_ok. split.
      * intros Hrs. exists kvs, accounts, rules, dflt. auto 10.
      * intros (? & ? & ? & ? & [= <-] & H1 & H2 & H3 & _ & H5). congruence.
    + split; [discriminate|].
      intros (? & ? & ? & ? & [= <-] & H1 & H2 & H3 & H4 & _). congruence.
Qed.

Lemma validate_config_error (config : json) :
  rules_are_objects config ->
  validate_config config = Ok tt \/ is_config_error (validate_config config).
Proof.
  intros (kvs & -> & Hobj). unfold validate_config, is_config_error; simpl.
  destruct (assoc "accounts" kvs) as [accounts|] eqn:Ha; simpl;
    [|right; eexists; reflexivity].
  destruct (assoc "rules" kvs) as [rules|] eqn:Hr; simpl;
    [|right; eexists; reflexivity].
  destruct (assoc "default_account" kvs) as [dflt|] eqn:Hd; simpl;
    [|right; eexists; reflexivity].
  destruct accounts as [| | | |accounts|]; simpl;
    try (right; eexists; reflexivity).
  destruct rules as [| | | |rules|]; simpl;
    try (right; eexists; reflexivity).
  destruct (in_list dflt accounts); simpl; [|right; eexists; reflexivity].
  apply validate_rules_error, Hobj. reflexivity.
Qed.

End ValidationFacts.

(** C7, where the code departs from it.  [validate_config] returns
    normally exactly on the documents that pass every check of the claim:
    the three top-level keys are present, [accounts] and [rules] are
    sequences, [default_account] is in [accounts], every rule's [account]
    is in [accounts], every rule has a [keywords] sequence, and a present
    [match_type] is ["any"] or ["all"].  Whatever it raises leaves
    [parse_mpesa_to_ledger_with_balance] at once, whatever the input
    table: no row is read or classified and no ledger is written.  On a
    rule file whose rules are objects, what it raises is one of its own
    [ValueError]s.  But it never tests that a rule is an object: on the
    rule file whose only rule is the number 5, which has no [keywords]
    sequence and no [account], the test ["account" not in rule] raises
    [TypeError], not a [ValueError] with a message, and [ledgerfy_main],
    which catches [ValueError] only, is left by that exception. *)
Theorem validate_config_raises_type_error_on_non_object_rule `{PyRuntime} :
  (forall config,
     LedgerfyConfig.validate_config config = Ok tt <->
     ConfigSpec.config_ok config) /\
  (forall config err,
     LedgerfyConfig.validate_config config = Raise err ->
     forall rows start_date end_date,
       LedgerfyRun.parse_mpesa_to_ledger_with_balance config rows
         start_date end_date = Raise err) /\
  (forall config,
     ConfigSpec.rules_are_objects config -> ~ ConfigSpec.config_ok config ->
     ConfigSpec.is_config_error (LedgerfyConfig.validate_config config)) /\
  ~ ConfigSpec.config_ok Examples.non_object_rule /\
  LedgerfyConfig.validate_config Examples.non_object_rule = Raise TypeError /\
  ~ ConfigSpec.is_config_error
      (LedgerfyConfig.validate_config Examples.non_object_rule) /\
  (forall rows start_date end_date,
     LedgerfyMain.ledgerfy_main true Examples.non_object_rule rows
       start_date end_date = Uncaught TypeError).
Proof.
  split; [intros config; apply validate_config_ok|]. split.
  { intros config err Herr rows start_date end_date.
    unfold LedgerfyRun.parse_mpesa_to_ledger_with_balance,
           LedgerfyConfig.load_config.
    rewrite Herr. reflexivity. }
  split.
  { intros config Hobj Hnot.
    destruct (validate_config_error config Hobj) as [Hok|Herr]; [|exact Herr].
    apply validate_config_ok in Hok. contradiction. }
  assert (Hraise : LedgerfyConfig.validate_config Examples.non_object_rule
                   = Raise TypeError) by reflexivity.
  split.
  { intros Hok. apply validate_config_ok in Hok.
    rewrite Hraise in Hok. discriminate. }
  split; [exact Hraise|]. split.
  { rewrite Hraise. intros [e He]. discriminate. }
  intros rows start_date end_date.
  unfold LedgerfyMain.ledgerfy_main,
    LedgerfyRun.parse_mpesa_to_ledger_with_balance, LedgerfyConfig.load_config.
  rewrite Hraise. reflexivity.
Qed.

(** ** The ledger stage: which rows become postings *)

Section LedgerFacts.
Context `{PyRuntime}.
Import LedgerfyRun LedgerSpec.

Lemma le_negb_lt (a b : string) : PyStr.le a b = negb (PyStr.lt b a).
Proof.
  unfold PyStr.le, PyStr.lt, String.leb, String.ltb.
  rewrite (String.compare_antisym a b).
  destruct (String.compare b a); reflexivity.
Qed.

Lemma lt_negb_le (a b : string) : PyStr.lt a b = negb (PyStr.le b a).
Proof. rewrite le_negb_lt. now destruct (PyStr.lt a b). Qed.

Lemma float_or_zero_ok (s : string) :
  negb (PyStr.truthy s) || bool_decide (is_Some (py_float s)) = true ->
  exists x, float_or_zero s = Ok x.
Proof.
  unfold float_or_zero. destruct (PyStr.truthy s); simpl.
  - intros Hs. apply bool_decide_eq_true in Hs as [x Hx]. rewrite Hx. eauto.
  - eauto.
Qed.

(** What one iteration of the row loop does, case by case. *)
Lemma process_row_spec (config : Config) (start_date : string)
    (end_date : option string) (row : Row) :
  negb (in_date_range start_date end_date row) || numeric_ok row = true ->
  (included start_date end_date row = false /\
   process_row config start_date end_date row = Ok None) \/
  (included start_date end_date row = true /\
   exists p, row_posting config row p /\
     process_row config start_date end_date row =
       Ok (Some (transaction_date row, p))).
Proof.
  unfold process_row, included, in_date_range. fold (transaction_date row).
  rewrite (le_negb_lt start_date).
  destruct (PyStr.lt (transaction_date row) start_date); simpl.
  { intros _. left. split; [apply andb_false_r | reflexivity]. }
  assert (Hend : match end_date with
                 | Some e => PyStr.truthy e && PyStr.lt e (transaction_date row)
                 | None => false
                 end =
                 negb match end_date with
                      | Some e => if PyStr.truthy e
                                  then PyStr.le (transaction_date row) e else true
                      | None => true
                      end).
  { destruct end_date as [e|]; [|reflexivity].
    rewrite le_negb_lt. destruct (PyStr.truthy e); simpl; [|reflexivity].
    now destruct (PyStr.lt e (transaction_date row)). }
  rewrite Hend.
  destruct (match end_date with
            | Some e => if PyStr.truthy e
                        then PyStr.le (transaction_date row) e else true
            | None => true
            end); simpl.
  2:{ intros _. left. split; [apply andb_false_r | reflexivity]. }
  unfold numeric_ok. intros Hnum.
  apply andb_prop in Hnum as [Hnum Hb]. apply andb_prop in Hnum as [Hp Hw].
  destruct (float_or_zero_ok _ Hp) as [paid_in Hpaid].
  destruct (float_or_zero_ok _ Hw) as [withdrawn Hwith].
  destruct (float_or_zero_ok _ Hb) as [balance Hbal].
  rewrite Hpaid, Hwith, Hbal. simpl.
  unfold is_completed.
  destruct (String.eqb (PyStr.lower (row_status row)) "completed"); simpl.
  - right. split; [reflexivity|]. eexists. split; [|reflexivity].
    exists paid_in, withdrawn, balance. simpl. unfold derived_amount. auto 10.
  - left. split; reflexivity.
Qed.

Lemma collect_spec (config : Config) (start_date : string)
    (end_date : option string) (rows : list Row)
    (acc : gmap string (list Posting)) :
  forallb (fun r => negb (in_date_range start_date end_date r) || numeric_ok r)
          rows = true ->
  exists by_date,
    collect config start_date end_date rows acc = Ok by_date /\
    forall date, exists new,
      by_date !!! date = acc !!! date ++ new /\
      Forall2 (row_posting config)
        (filter (fun r => included start_date end_date r = true /\
                          transaction_date r = date) rows)
        new.
Proof.
  revert acc. induction rows as [|row rows IH]; intros acc Hnum.
  - exists acc. split; [reflexivity|]. intros date. exists [].
    split; [now rewrite app_nil_r | constructor].
  - simpl in Hnum. apply andb_prop in Hnum as [Hrow Hrows].
    destruct (process_row_spec config start_date end_date row Hrow)
      as [[Hinc Hstep]|[Hinc (p & Hp & Hstep)]]; simpl; rewrite Hstep; simpl.
    + destruct (IH acc Hrows) as (m & Hm & Hdates).
      exists m. split; [exact Hm|]. intros date.
      destruct (Hdates date) as (new & Hnew & Hall).
      exists new. split; [exact Hnew|].
      rewrite filter_cons_False; [exact Hall|].
      intros [Hx _]. congruence.
    + destruct (IH (<[transaction_date row :=
                       acc !!! transaction_date row ++ [p]]> acc) Hrows)
        as (m & Hm & Hdates).
      exists m. split; [exact Hm|]. intros date.
      destruct (Hdates date) as (new & Hnew & Hall).
      destruct (decide (transaction_date row = date)) as [<-|Hne].
      * exists (p :: new). split.
        -- rewrite Hnew, lookup_total_insert_eq, <- app_assoc. reflexivity.
        -- rewrite filter_cons_True by (split; [exact Hinc | reflexivity]).
           constructor; assumption.
      * exists new. split.
        -- rewrite Hnew, lookup_total_insert_ne by exact Hne. reflexivity.
        -- rewrite filter_cons_False; [exact Hall|]. intros [_ Hx]. congruence.
Qed.

End LedgerFacts.

(** C3: a row becomes a posting of the ledger iff its status is
    ["completed"], ignoring case, and the date portion of its completion
    time lies between the start date and the end date, both included,
    with no upper bound when the end date is absent; the postings of a
    date are those rows, in input order, and the amount of each is
    [paidIn] when [paidIn > 0] and [withdrawn] otherwise.  (The numeric
    fields of the rows in range are taken to be numbers or empty, as the
    input format says; [float] raises on anything else.) *)
Theorem ledger_includes_completed_rows_in_range `{PyRuntime}
    (document : json) (config : Config) (start_date : string)
    (end_date : option string) (rows : list Row) :
  LedgerfyConfig.load_config document = Ok config ->
  forallb (fun r => negb (LedgerSpec.in_date_range start_date end_date r) ||
                    LedgerSpec.numeric_ok r) rows = true ->
  exists by_date,
    LedgerfyRun.collect config start_date end_date rows ∅ = Ok by_date /\
    (forall date,
       Forall2 (LedgerSpec.row_posting config)
         (filter (fun r => LedgerSpec.included start_date end_date r = true /\
                           LedgerSpec.transaction_date r = date) rows)
         (by_date !!! date)) /\
    LedgerfyRun.parse_mpesa_to_ledger_with_balance document rows
      start_date end_date =
    Ok (if bool_decide (by_date = ∅) then NoTransactions
        else LedgerWritten (LedgerfyRun.write_ledger by_date)).
Proof.
  intros Hload Hnum.
  destruct (collect_spec config start_date end_date rows ∅ Hnum)
    as (by_date & Hcollect & Hdates).
  exists by_date. split; [exact Hcollect|]. split.
  - intros date. destruct (Hdates date) as (new & Hnew & Hall).
    rewrite lookup_total_empty in Hnew. simpl in Hnew. now rewrite Hnew.
  - unfold LedgerfyRun.parse_mpesa_to_ledger_with_balance.
    rewrite Hload. simpl. rewrite Hcollect. simpl.
    now destruct (bool_decide (by_date = ∅)).
Qed.

(** ** The ledger stage: order of the blocks and of their postings *)

Section SortingFacts.

Lemma str_le_refl (a : string) : PyStr.le a a = true.
Proof.
  unfold PyStr.le, String.leb.
  change (String.compare a a) with (String_as_OT.compare a a).
  destruct (String_as_OT.compare_spec a a) as [_|Hlt|Hlt]; try reflexivity.
  exfalso; eapply (StrictOrder_Irreflexive (R := String_as_OT.lt)); exact Hlt.
Qed.

Lemma str_le_total (a b : string) : PyStr.le a b = false -> PyStr.le b a = true.
Proof.
  intros Hab. destruct (String.leb_total a b) as [Hx|Hx]; [|exact Hx].
  unfold PyStr.le in Hab. congruence.
Qed.

Lemma str_le_iff (a b : string) :
  PyStr.le a b = true <-> a = b \/ String_as_OT.lt a b.
Proof.
  unfold PyStr.le, String.leb.
  change (String.compare a b) with (String_as_OT.compare a b).
  destruct (String_as_OT.compare_spec a b) as [Heq|Hlt|Hgt].
  - split; auto.
  - split; auto.
  - split; [discriminate|]. intros [->|Hlt].
    + exfalso; eapply (StrictOrder_Irreflexive (R := String_as_OT.lt)); exact Hgt.
    + exfalso; eapply (StrictOrder_Irreflexive (R := String_as_OT.lt)).
      etransitivity; eassumption.
Qed.

Lemma str_le_trans (a b c : string) :
  PyStr.le a b = true -> PyStr.le b c = true -> PyStr.le a c = true.
Proof.
  rewrite !str_le_iff. intros [->|Hab] [->|Hbc]; auto.
  right. etransitivity; eassumption.
Qed.

Lemma str_lt_iff (a b : string) :
  PyStr.lt a b = true <-> PyStr.le a b = true /\ a <> b.
Proof.
  rewrite lt_negb_le, negb_true_iff. split.
  - intros Hba. split; [now apply str_le_total|].
    intros ->. rewrite str_le_refl in Hba. discriminate.
  - intros [Hab Hne]. apply not_true_is_false. intros Hba.
    apply Hne. apply String.leb_antisym; assumption.
Qed.

Context {A : Type} (key : A -> string).

Let R : A -> A -> Prop := fun a b => PyStr.le (key a) (key b) = true.

Lemma sorted_insert_perm (x : A) (l : list A) :
  sorted_insert key x l ≡ₚ x :: l.
Proof.
  induction l as [|y l IH]; simpl; [reflexivity|].
  destruct (PyStr.le (key x) (key y)); [reflexivity|].
  rewrite IH. apply Permutation_swap.
Qed.

Lemma py_sorted_perm (l : list A) : py_sorted key l ≡ₚ l.
Proof.
  induction l as [|x l IH]; simpl; [reflexivity|].
  now rewrite sorted_insert_perm, IH.
Qed.

Lemma sorted_insert_sorted (x : A) (l : list A) :
  StronglySorted R l -> StronglySorted R (sorted_insert key x l).
Proof.
  induction 1 as [|y l Hl IH Hy]; simpl.
  - repeat constructor.
  - destruct (PyStr.le (key x) (key y)) eqn:Hxy.
    + constructor; [constructor; assumption|].
      constructor; [exact Hxy|].
      eapply Forall_impl; [exact Hy|]. intros z Hz.
      eapply str_le_trans; [exact Hxy | exact Hz].
    + constructor; [exact IH|].
      rewrite sorted_insert_perm. constructor; [|exact Hy].
      apply str_le_total, Hxy.
Qed.

Lemma py_sorted_sorted (l : list A) : StronglySorted R (py_sorted key l).
Proof.
  induction l as [|x l IH]; simpl; [constructor|].
  apply sorted_insert_sorted, IH.
Qed.

Lemma sorted_insert_stable (k : string) (x : A) (l : list A) :
  filter (fun a => key a = k) (sorted_insert key x l) =
  filter (fun a => key a = k) (x :: l).
Proof.
  induction l as [|y l IH]; simpl; [reflexivity|].
  destruct (PyStr.le (key x) (key y)) eqn:Hxy; [reflexivity|].
  assert (Hne : key x <> key y).
  { intros Heq. rewrite Heq, str_le_refl in Hxy. discriminate. }
  rewrite (filter_cons _ y), IH, !(filter_cons _ x), (filter_cons _ y).
  destruct (decide (key x = k)) as [Hx|Hx];
    destruct (decide (key y = k)) as [Hy|Hy]; try reflexivity.
  congruence.
Qed.

Lemma py_sorted_stable (k : string) (l : list A) :
  filter (fun a => key a = k) (py_sorted key l) =
  filter (fun a => key a = k) l.
Proof.
  induction l as [|x l IH]; simpl; [reflexivity|].
  now rewrite sorted_insert_stable, !(filter_cons _ x), IH.
Qed.

Lemma py_sorted_stable_sorted (l : list A) :
  LedgerSpec.stable_sorted_by key l (py_sorted key l).
Proof.
  split; [apply py_sorted_sorted|].
  split; [apply py_sorted_perm|]. intros k. apply py_sorted_stable.
Qed.

(** The last element of the sorted list has the greatest key, and among
    the elements with that key it is the last one of the input. *)
Lemma py_sorted_last (l : list A) (c : A) :
  last (py_sorted key l) = Some c ->
  Forall (fun x => PyStr.le (key x) (key c) = true) l /\
  last (filter (fun x => key x = key c) l) = Some c.
Proof.
  intros Hlast. apply last_Some in Hlast as [l' Hl']. split.
  - rewrite <- (py_sorted_perm l), Hl'.
    pose proof (py_sorted_sorted l) as Hs. rewrite Hl' in Hs.
    apply Forall_app. split.
    + apply Forall_forall. intros x Hx.
      apply (StronglySorted_app_1_elem_of R l' [c] x c Hs Hx). now left.
    + constructor; [apply str_le_refl | constructor].
  - rewrite <- py_sorted_stable, Hl', filter_app.
    rewrite filter_cons_True by reflexivity. apply last_snoc.
Qed.

End SortingFacts.

Section RenderingFacts.
Import LedgerfyRun LedgerSpec.

Lemma append_assoc (a b c : string) : (a +:+ b) +:+ c = a +:+ (b +:+ c).
Proof.
  induction a as [|x a IH]; [reflexivity|].
  change (String x ((a +:+ b) +:+ c) = String x (a +:+ (b +:+ c))).
  f_equal. exact IH.
Qed.

Lemma posting_line_plain (t : Posting) :
  posting_line false t = posting_text t +:+ PyFloat.nl.
Proof.
  unfold posting_text. rewrite !append_assoc. reflexivity.
Qed.

Lemma posting_line_closing (t : Posting) :
  posting_line true t = posting_text t +:+ closing_balance t +:+ PyFloat.nl.
Proof.
  unfold posting_text, closing_balance. rewrite !append_assoc. reflexivity.
Qed.

(** The index test [i == len(daily_transactions) - 1] singles out the last
    element of the list. *)
Lemma write_postings_layout (daily : list Posting) (n i : nat) :
  n = (i + length daily)%nat ->
  write_postings n i daily =
  match last daily with
  | Some closing =>
      map (posting_line false) (removelast daily) ++ [posting_line true closing]
  | None => []
  end.
Proof.
  revert i. induction daily as [|t rest IH]; intros i Hn; [reflexivity|].
  destruct rest as [|t' rest].
  - simpl in *. replace (n - 1)%nat with i by lia.
    now rewrite Nat.eqb_refl.
  - change (write_postings n i (t :: t' :: rest))
      with (posting_line (Nat.eqb i (n - 1)) t ::
            write_postings n (S i) (t' :: rest)).
    rewrite (IH (S i)) by (simpl in *; lia).
    replace (Nat.eqb i (n - 1)) with false
      by (symmetry; apply Nat.eqb_neq; simpl in *; lia).
    rewrite last_cons_cons.
    change (removelast (t :: t' :: rest)) with (t :: removelast (t' :: rest)).
    destruct (last (t' :: rest)) eqn:Hlast; [reflexivity|].
    apply last_None in Hlast. discriminate.
Qed.

Lemma write_day_block (date : string) (transactions : list Posting) :
  write_day date transactions =
  day_block date (py_sorted tx_timestamp transactions).
Proof.
  unfold write_day, day_block. cbv zeta.
  rewrite (write_postings_layout _ _ 0) by reflexivity.
  destruct (last (py_sorted tx_timestamp transactions)) as [closing|];
    [|reflexivity].
  rewrite posting_line_closing. do 3 f_equal.
  apply map_ext. intros t. apply posting_line_plain.
Qed.

Lemma sorted_distinct_strict (l : list string) :
  StronglySorted (fun a b => PyStr.le (id a) (id b) = true) l -> NoDup l ->
  StronglySorted (fun a b => PyStr.lt a b = true) l.
Proof.
  induction 1 as [|x l Hl IH Hx]; intros Hnodup; [constructor|].
  apply NoDup_cons in Hnodup as [Hnotin Hnodup].
  constructor; [apply IH, Hnodup|].
  apply Forall_forall. intros y Hy. apply str_lt_iff. split.
  - rewrite Forall_forall in Hx. apply (Hx y Hy).
  - intros ->. contradiction.
Qed.

Lemma sorted_dates_ascending (by_date : gmap string (list Posting)) :
  StronglySorted (fun a b => PyStr.lt a b = true) (sorted_dates by_date) /\
  (forall date, date ∈ sorted_dates by_date <-> is_Some (by_date !! date)).
Proof.
  unfold sorted_dates.
  pose proof (py_sorted_perm id (map_to_list by_date).*1) as Hperm.
  pose proof (py_sorted_sorted id (map_to_list by_date).*1) as Hsorted.
  pose proof (NoDup_fst_map_to_list by_date) as Hnodup.
  rewrite <- Hperm in Hnodup. split.
  - apply sorted_distinct_strict; assumption.
  - intros date. rewrite Hperm, list_elem_of_fmap. split.
    + intros ([k v] & -> & Hkv). apply elem_of_map_to_list in Hkv.
      simpl. eauto.
    + intros [v Hv]. exists (date, v). split; [reflexivity|].
      now apply elem_of_map_to_list.
Qed.

End RenderingFacts.

(** C4: in the rendered ledger the date blocks come in ascending date
    order, one per date that has postings; within a block the postings
    are sorted by completion time, ascending, ties in input order; the
    closing-balance assertion is on the last posting line of the block
    and on no other, and it shows the [balance] of that day's last
    posting in time (the last of the input among those with the latest
    time). *)
Theorem ledger_blocks_sorted_with_closing_balance
    (by_date : gmap string (list Posting)) :
  let dates := LedgerfyRun.sorted_dates by_date in
  let daily := fun date => py_sorted tx_timestamp (by_date !!! date) in
  LedgerfyRun.write_ledger by_date =
    concat (map (fun date => LedgerSpec.day_block date (daily date)) dates) /\
  StronglySorted (fun a b => PyStr.lt a b = true) dates /\
  (forall date, date ∈ dates <-> is_Some (by_date !! date)) /\
  (forall date,
     LedgerSpec.stable_sorted_by tx_timestamp (by_date !!! date) (daily date) /\
     forall closing, last (daily date) = Some closing ->
       Forall (fun t => PyStr.le (tx_timestamp t) (tx_timestamp closing) = true)
              (by_date !!! date) /\
       last (filter (fun t => tx_timestamp t = tx_timestamp closing)
                    (by_date !!! date)) = Some closing /\
       LedgerSpec.closing_balance closing =
         " BAL KES " +:+ PyFloat.format_2f (tx_balance closing)).
Proof.
  intros dates daily. split.
  - unfold LedgerfyRun.write_ledger. fold dates. f_equal.
    apply map_ext. intros date. apply write_day_block.
  - destruct (sorted_dates_ascending by_date) as [Hsorted Hdom].
    split; [exact Hsorted|]. split; [exact Hdom|].
    intros date. split; [apply py_sorted_stable_sorted|].
    intros closing Hlast.
    destruct (py_sorted_last tx_timestamp _ _ Hlast) as [Hmax Htie].
    split; [exact Hmax|]. split; [exact Htie | reflexivity].
Qed.

(** ** The sign of the rendered amount *)

Lemma format_2f_nonneg (x : float) :
  PyFloat.nonneg x = true ->
  PyFloat.format_2f x = PyFloat.format_magnitude (Prim2SF x) /\
  PyFloat.format_2f (- x)%float = "-" +:+ PyFloat.format_magnitude (Prim2SF x).
Proof.
  unfold PyFloat.nonneg, PyFloat.format_2f, PyFloat.format_spec_2f.
  rewrite opp_spec.
  destruct (Prim2SF x) as [s|s| |s m e]; simpl; try discriminate;
    destruct s; simpl; try discriminate; intros _; split; reflexivity.
Qed.


Lemma all_chars_app (P : ascii -> bool) (a b : string) :
  PyStr.all_chars P (a +:+ b) = PyStr.all_chars P a && PyStr.all_chars P b.
Proof.
  induction a as [|x a IH]; [reflexivity|].
  change (P x && PyStr.all_chars P (a +:+ b) =
          P x && PyStr.all_chars P a && PyStr.all_chars P b).
  now rewrite IH, andb_assoc.
Qed.

Lemma all_chars_spaces (n : nat) : PyStr.all_chars PyStr.not_plus (PyStr.spaces n) = true.
Proof. induction n as [|n IH]; [reflexivity | exact IH]. Qed.

Lemma digit_char_not_plus (d : Z) : 0 <= d <= 9 -> PyStr.not_plus (PyFloat.digit_char d) = true.
Proof.
  intros Hd.
  assert (Hcases : d = 0 \/ d = 1 \/ d = 2 \/ d = 3 \/ d = 4 \/
                   d = 5 \/ d = 6 \/ d = 7 \/ d = 8 \/ d = 9) by lia.
  repeat destruct Hcases as [->|Hcases]; try reflexivity.
  subst; reflexivity.
Qed.

Lemma digits_fuel_not_plus (fuel : nat) (n : Z) (acc : string) :
  PyStr.all_chars PyStr.not_plus acc = true ->
  PyStr.all_chars PyStr.not_plus (PyFloat.digits_fuel fuel n acc) = true.
Proof.
  revert n acc. induction fuel as [|fuel IH]; intros n acc Hacc; [exact Hacc|].
  simpl.
  assert (Hd : PyStr.all_chars PyStr.not_plus
                 (String (PyFloat.digit_char (n mod 10)) acc) = true).
  { simpl. rewrite Hacc, digit_char_not_plus; [reflexivity|].
    pose proof (Z.mod_pos_bound n 10). lia. }
  destruct (n / 10 =? 0); [exact Hd | apply IH, Hd].
Qed.

Lemma two_digits_not_plus (n : Z) :
  0 <= n < 100 -> PyStr.all_chars PyStr.not_plus (PyFloat.two_digits n) = true.
Proof.
  intros Hn. unfold PyFloat.two_digits. simpl.
  rewrite !digit_char_not_plus; [reflexivity | |].
  - pose proof (Z.mod_pos_bound n 10). lia.
  - pose proof (Z.div_pos n 10). pose proof (Z.div_lt_upper_bound n 10 10). lia.
Qed.

Lemma format_2f_not_plus (x : float) :
  PyStr.all_chars PyStr.not_plus (PyFloat.format_2f x) = true.
Proof.
  unfold PyFloat.format_2f, PyFloat.format_spec_2f.
  rewrite all_chars_app. apply andb_true_intro. split.
  - now destruct (PyFloat.sign_bit (Prim2SF x)).
  - destruct (Prim2SF x) as [s|s| |s m e]; try reflexivity.
    unfold PyFloat.format_magnitude. rewrite !all_chars_app.
    rewrite two_digits_not_plus by (apply Z.mod_pos_bound; lia).
    unfold PyFloat.str_of_nonneg. now rewrite digits_fuel_not_plus.
Qed.

Lemma no_plus_not_contained (h : string) :
  PyStr.all_chars PyStr.not_plus h = true -> PyStr.contains "+" h = false.
Proof.
  intros Hh. apply not_true_is_false. intros Hc.
  pose proof (contains_all_chars PyStr.not_plus _ _ Hc Hh). discriminate.
Qed.

(** C8, as amended: the amount of a posting is rendered by the sign
    convention of the single asset account.  The number printed is the
    amount itself when the account name starts with ["Expenses"] and the
    negated amount for every other account, right-justified in 15 columns
    and followed by [" KES"]; no ["+"] is ever printed; and for a
    non-negative amount, as [paidIn] and [withdrawn] are, what is printed
    is the bare magnitude in the first case and the magnitude preceded by
    ["-"] in the second. *)
Theorem amount_sign_convention (t : Posting) (is_last : bool) :
  let amount := tx_amount t in
  let rendered :=
    if PyStr.startswith (tx_account t) "Expenses" then amount
    else (- amount)%float in
  let field := PyStr.rjust 15 (PyFloat.format_2f rendered) +:+ " KES" in
  let magnitude := PyFloat.format_magnitude (Prim2SF amount) in
  LedgerfyRun.formatted_amount (tx_account t) amount = field /\
  LedgerfyRun.posting_line is_last t =
    "    " +:+ PyStr.ljust 45 (tx_account t) +:+ " " +:+ field +:+ " ; " +:+
    tx_details t +:+
    (if is_last then LedgerSpec.closing_balance t else "") +:+ PyFloat.nl /\
  PyStr.contains "+" field = false /\
  (PyFloat.nonneg amount = true ->
   PyFloat.format_2f amount = magnitude /\
   PyFloat.format_2f (- amount)%float = "-" +:+ magnitude).
Proof.
  intros amount rendered field magnitude.
  assert (Hfield : LedgerfyRun.formatted_amount (tx_account t) amount = field).
  { unfold LedgerfyRun.formatted_amount, field, rendered, PyFloat.format_15_2f.
    now destruct (PyStr.startswith (tx_account t) "Expenses"). }
  split; [exact Hfield|]. split; [|split].
  - fold amount. destruct is_last.
    + rewrite posting_line_closing. unfold LedgerSpec.posting_text.
      fold amount. rewrite Hfield, !append_assoc. reflexivity.
    + rewrite posting_line_plain. unfold LedgerSpec.posting_text.
      fold amount. rewrite Hfield, !append_assoc. reflexivity.
  - apply no_plus_not_contained. unfold field, PyStr.rjust.
    rewrite !all_chars_app, all_chars_spaces, format_2f_not_plus. reflexivity.
  - apply format_2f_nonneg.
Qed.

Lemma amount_sign_convention_witness :
  LedgerfyRun.formatted_amount "Expenses:Food" 450%float
    = "         450.00 KES" /\
  LedgerfyRun.formatted_amount "Income:Salary" 50000%float
    = "      -50000.00 KES".
Proof.
  split.
  - exact (proj1 (amount_sign_convention
             (mkPosting "Expenses:Food" 450%float "Paid to Java Cafe"
                        800%float "2024-03-01 09:00:00") false)).
  - exact (proj1 (amount_sign_convention
             (mkPosting "Income:Salary" 50000%float "Salary March"
                        50800%float "2024-03-01 14:00:00") true)).
Defined.

(** C8, as stated, fails on the example it gives: the posting line of an
    ["Expenses:Food"] posting of 450.00 shows [450.00] with no sign in
    front, and ["+450.00"] occurs nowhere in it. *)
Lemma expenses_amount_is_rendered_without_plus_sign :
  let line :=
    LedgerfyRun.posting_line false
      (mkPosting "Expenses:Food" 450%float "Paid to Java Cafe" 800%float
                 "2024-03-01 09:00:00") in
  line = "    Expenses:Food                                          450.00 KES ; Paid to Java Cafe"
         +:+ PyFloat.nl /\
  PyStr.contains "+450.00" line = false.
Proof. split; vm_compute; reflexivity. Qed.

(** ** SMS extraction *)

Section SmsFacts.
Context `{PyRuntime}.
Import XtractAndroid.

(** [_parse_received] returns one record, whatever charge was captured. *)
Lemma parse_received_one_record (m : sms_match) (sms : string)
    (records : list SmsRecord) :
  _parse_received m sms = Ok records ->
  exists t,
    records =
      [mkSmsRecord (g_receipt_number m) t (_clean_text (g_details m))
                   "Completed"
                   (PyFloat.format_2f (_clean_amount (g_amount m))) ""
                   (PyFloat.format_2f (_clean_amount (g_balance m)))].
Proof.
  unfold _parse_received.
  destruct (_parse_datetime _ _) as [t|e]; simpl; [|discriminate].
  intros [= <-]. eauto.
Qed.

End SmsFacts.

(** C5, where the code departs from it.  An outbound message gives the
    outbound record followed by the ["Mpesa Charge"] record when the
    charge is positive; an inbound message whose match captured a charge
    of 15.00 gives the inbound record alone: [_parse_received] never reads
    the [charge] group that its pattern captures. *)
Theorem received_message_drops_captured_charge :
  (forall (R : PyRuntime) (m : sms_match) (sms : string)
          (records : list SmsRecord),
     XtractAndroid._parse_received m sms = Ok records ->
     length records = 1%nat) /\
  re_search (PyRuntime := ReferenceRuntime.runtime)
    PatReceived ReferenceRuntime.sms_received
    = Some ReferenceRuntime.match_received /\
  g_charge ReferenceRuntime.match_received = Some "15.00" /\
  (0 <? XtractAndroid._clean_amount (H := ReferenceRuntime.runtime)
          (g_charge ReferenceRuntime.match_received))%float = true /\
  XtractAndroid.parse (H := ReferenceRuntime.runtime)
    ReferenceRuntime.sms_received =
    Ok (Some [mkSmsRecord "QB87654321" (mkDatetime 2024 3 1 14 30 0)
                          "from JOHN DOE 0712345678" "Completed"
                          "500.00" "" "1500.00"]) /\
  XtractAndroid.parse (H := ReferenceRuntime.runtime)
    ReferenceRuntime.sms_sent =
    Ok (Some [mkSmsRecord "QA12345678" (mkDatetime 2024 3 1 14 30 0)
                          "sent to JOHN DOE 0712345678" "Completed"
                          "" "500.00" "1500.00";
              mkSmsRecord "QA12345678" (mkDatetime 2024 3 1 14 30 0)
                          "Mpesa Charge" "Completed"
                          "" "15.00" "1500.00"]).
Proof.
  split.
  - intros R m sms records Hr.
    destruct (parse_received_one_record m sms records Hr) as [t ->].
    reflexivity.
  - repeat split; vm_compute; reflexivity.
Qed.

Section StrptimeFacts.
Import PyTime.

Lemma m_bind_in {A B : Type} (p : matcher A) (k : A -> matcher B)
    (s : string) (b : B) (s2 : string) :
  In (b, s2) (m_bind p k s) <->
  exists a s1, In (a, s1) (p s) /\ In (b, s2) (k a s1).
Proof.
  unfold m_bind. rewrite in_concat. split.
  - intros (l & Hl & Hb). apply in_map_iff in Hl as ([a s1] & <- & Has).
    exists a, s1. split; assumption.
  - intros (a & s1 & Has & Hb). exists (k a s1). split; [|exact Hb].
    apply in_map_iff. exists (a, s1). split; [reflexivity | exact Has].
Qed.

Lemma no_element_nil {A : Type} (l : list A) : (forall x, ~ In x l) -> l = [].
Proof.
  destruct l as [|x l]; [reflexivity|]. intros Hl. destruct (Hl x). now left.
Qed.

Lemma m_digit_inv (lo hi : Z) (s : string) (a : Z) (s' : string) :
  0 <= lo -> In (a, s') (m_digit lo hi s) ->
  exists c, s = String c s' /\ c <> "/"%char.
Proof.
  intros Hlo. destruct s as [|c s]; simpl; [intros []|].
  destruct ((lo <=? Z.of_N (N_of_ascii c) - 48) &&
            (Z.of_N (N_of_ascii c) - 48 <=? hi)) eqn:Hc; [|intros []].
  intros [[= <- <-]|[]]. exists c. split; [reflexivity|].
  intros ->. apply andb_prop in Hc as [Hc _]. apply Z.leb_le in Hc.
  simpl in Hc. lia.
Qed.

Lemma m_char_inv (c : ascii) (s : string) (u : unit) (s' : string) :
  In (u, s') (m_char c s) -> s = String c s'.
Proof.
  destruct s as [|c' s]; simpl; [intros []|].
  destruct (Ascii.eqb c c') eqn:Hc; [|intros []].
  apply Ascii.eqb_eq in Hc as ->. now intros [[= <- <-]|[]].
Qed.


Lemma m_digit_short (lo hi : Z) : 0 <= lo -> short_no_slash (m_digit lo hi).
Proof. intros Hlo s a s' Hin. left. eapply m_digit_inv; eassumption. Qed.

Lemma m_two_short (a b c d : Z) :
  0 <= a -> 0 <= c -> short_no_slash (m_two a b c d).
Proof.
  intros Ha Hc s v s' Hin. right. unfold m_two in Hin.
  apply m_bind_in in Hin as (x & s1 & Hx & Hin).
  apply m_bind_in in Hin as (y & s2 & Hy & Hin).
  destruct Hin as [[= <- <-]|[]].
  apply (m_digit_inv _ _ _ _ _ Ha) in Hx as (c1 & -> & Hc1).
  apply (m_digit_inv _ _ _ _ _ Hc) in Hy as (c2 & -> & Hc2).
  exists c1, c2. auto.
Qed.

Lemma m_alt_short (p q : matcher Z) :
  short_no_slash p -> short_no_slash q -> short_no_slash (m_alt p q).
Proof.
  intros Hp Hq s a s' Hin. unfold m_alt in Hin.
  apply in_app_or in Hin as [Hin|Hin]; [eapply Hp | eapply Hq]; eassumption.
Qed.

Lemma m_d_short : short_no_slash m_d.
Proof.
  unfold m_d. repeat apply m_alt_short;
    try (apply m_two_short; lia); try (apply m_digit_short; lia).
  intros s a s' Hin. right.
  apply m_bind_in in Hin as (u & s1 & Hu & Hin).
  apply m_char_inv in Hu as ->.
  apply (m_digit_inv 1 9) in Hin as (c2 & -> & Hc2); [|lia].
  exists " "%char, c2. repeat split; [discriminate | exact Hc2].
Qed.

Lemma m_m_short : short_no_slash m_m.
Proof.
  unfold m_m. repeat apply m_alt_short;
    try (apply m_two_short; lia); apply m_digit_short; lia.
Qed.

Lemma digit_not_slash (c : ascii) : PyStr.is_digit c = true -> c <> "/"%char.
Proof. intros Hc ->. discriminate. Qed.

Lemma digit_not_space (c : ascii) : PyStr.is_digit c = true -> is_space c = false.
Proof. destruct c as [[] [] [] [] [] [] [] []]; (discriminate || reflexivity). Qed.

Lemma append_cons (c : ascii) (a b : string) :
  String c a +:+ b = String c (a +:+ b).
Proof. reflexivity. Qed.

Lemma append_empty (b : string) : "" +:+ b = b.
Proof. reflexivity. Qed.

(** A field of digits followed by a slash: whatever way the field matcher
    takes, the slash is matched right after the digits or not at all. *)
Lemma field_then_slash {B : Type} (p : matcher Z) (k : Z -> matcher B)
    (field rest : string) :
  short_no_slash p -> PyStr.digits_only field = true ->
  (forall a, k a rest = []) ->
  m_bind p (fun a => m_bind (m_char "/") (fun _ => k a))
         (field +:+ String "/" rest) = [].
Proof.
  intros Hp Hfield Hk. apply no_element_nil. intros [b s2] Hin.
  apply m_bind_in in Hin as (a & s1 & Ha & Hin).
  apply m_bind_in in Hin as (u & s1' & Hu & Hin).
  apply m_char_inv in Hu as ->.
  assert (Hrest : s1' = rest); [|subst s1'; rewrite Hk in Hin; exact Hin].
  destruct (Hp _ _ _ Ha) as [(c & Hs & Hc)|(c1 & c2 & Hs & Hc1 & Hc2)].
  - destruct field as [|d [|d' field]];
      rewrite ?append_cons, ?append_empty in Hs.
    + injection Hs as <- _. contradiction.
    + now injection Hs as _ ->.
    + injection Hs as _ Hslash _. simpl in Hfield.
      apply andb_prop in Hfield as [_ Hfield].
      apply andb_prop in Hfield as [Hd' _].
      now apply digit_not_slash in Hd'.
  - destruct field as [|d [|d' [|d'' field]]];
      rewrite ?append_cons, ?append_empty in Hs.
    + injection Hs as <- _. contradiction.
    + injection Hs as _ <- _. contradiction.
    + now injection Hs as _ _ ->.
    + injection Hs as _ _ Hslash _. simpl in Hfield.
      apply andb_prop in Hfield as [_ Hfield].
      apply andb_prop in Hfield as [_ Hfield].
      apply andb_prop in Hfield as [Hd'' _].
      now apply digit_not_slash in Hd''.
Qed.

(** [%y] takes two characters; a third digit is not the white space the
    format asks for next. *)
Lemma year_then_space {B : Type} (k : Z -> matcher B)
    (y1 y2 y3 : ascii) (rest : string) :
  is_space y3 = false ->
  m_bind m_y (fun y => m_bind m_spaces (fun _ => k y))
         (String y1 (String y2 (String y3 rest))) = [].
Proof.
  intros Hy3. apply no_element_nil. intros [b s2] Hin.
  apply m_bind_in in Hin as (y & s1 & Hy & Hin).
  apply m_bind_in in Hin as (u & s1' & Hu & _).
  unfold m_y, m_two in Hy.
  apply m_bind_in in Hy as (a1 & t1 & Ha1 & Hy).
  apply m_bind_in in Hy as (a2 & t2 & Ha2 & Hy).
  destruct Hy as [[= <- <-]|[]].
  apply (m_digit_inv 0 9) in Ha1 as (c1 & [= <- <-] & _); [|lia].
  apply (m_digit_inv 0 9) in Ha2 as (c2 & [= <- <-] & _); [|lia].
  unfold m_spaces in Hu. simpl in Hu. rewrite Hy3 in Hu. exact Hu.
Qed.

Lemma strptime_long_year (day month time : string) (y1 y2 y3 : ascii)
    (year_rest : string) :
  PyStr.digits_only day = true -> PyStr.digits_only month = true ->
  PyStr.is_digit y3 = true ->
  let s := day +:+ String "/" (month +:+ String "/"
             (String y1 (String y2 (String y3 (year_rest +:+ " " +:+ time))))) in
  strptime_dmy_IMp s = Raise (ValueError_strptime s).
Proof.
  intros Hday Hmonth Hy3 s. unfold strptime_dmy_IMp, first_full_match.
  unfold s at 1. rewrite field_then_slash; [reflexivity | apply m_d_short | exact Hday |].
  intros d. rewrite field_then_slash; [reflexivity | apply m_m_short | exact Hmonth |].
  intros m. apply year_then_space, digit_not_space, Hy3.
Qed.

End StrptimeFacts.

(** C9, where the code departs from it.  A date with a two-digit year is
    parsed, the seconds being zero; but for every day and month written in
    digits and every year of three digits or more, four-digit years
    included, which the message patterns accept, [strptime] raises
    [ValueError], whatever the time: the format reads the year with
    [%y]. *)
Theorem parse_datetime_rejects_four_digit_year
    (day month year time : string) :
  PyStr.digits_only day = true -> PyStr.digits_only month = true ->
  PyStr.digits_only year = true -> (3 <= String.length year)%nat ->
  XtractAndroid._parse_datetime
    (Some (day +:+ "/" +:+ month +:+ "/" +:+ year)) (Some time)
  = Raise (ValueError_strptime
             ((day +:+ "/" +:+ month +:+ "/" +:+ year) +:+ " " +:+ time)) /\
  XtractAndroid._parse_datetime (Some "1/3/24") (Some "2:30 PM")
    = Ok (mkDatetime 2024 3 1 14 30 0).
Proof.
  intros Hday Hmonth Hyear Hlen. split; [|vm_compute; reflexivity].
  destruct year as [|y1 [|y2 [|y3 year_rest]]]; simpl in Hlen; try lia.
  simpl in Hyear.
  apply andb_prop in Hyear as [_ Hyear]. apply andb_prop in Hyear as [_ Hyear].
  apply andb_prop in Hyear as [Hy3 _].
  unfold XtractAndroid._parse_datetime, XtractAndroid.fmt_opt. simpl default.
  pose proof (strptime_long_year day month time y1 y2 y3 year_rest
                Hday Hmonth Hy3) as Hraise.
  cbv zeta in Hraise.
  replace ((day +:+ "/" +:+ month +:+ "/" +:+
            String y1 (String y2 (String y3 year_rest))) +:+ " " +:+ time)
    with (day +:+ String "/" (month +:+ String "/"
            (String y1 (String y2 (String y3 (year_rest +:+ " " +:+ time)))))).
  - rewrite Hraise. reflexivity.
  - rewrite !append_assoc. reflexivity.
Qed.

Lemma parse_datetime_rejects_four_digit_year_witness :
  XtractAndroid._parse_datetime (Some "1/3/2024") (Some "2:30 PM")
    = Raise (ValueError_strptime "1/3/2024 2:30 PM").
Proof.
  exact (proj1 (parse_datetime_rejects_four_digit_year "1" "3" "2024" "2:30 PM"
                  eq_refl eq_refl eq_refl (le_S _ _ (le_n 3)))).
Defined.

Lemma ledger_includes_completed_rows_in_range_witness :
  exists by_date,
    LedgerfyRun.collect (H := ReferenceRuntime.runtime)
      ReferenceRuntime.example_config "2024-03-01" None
      ReferenceRuntime.example_rows ∅ = Ok by_date /\
    (forall date,
       Forall2 (LedgerSpec.row_posting (H := ReferenceRuntime.runtime)
                  ReferenceRuntime.example_config)
         (filter (fun r => LedgerSpec.included "2024-03-01" None r = true /\
                           LedgerSpec.transaction_date r = date)
                 ReferenceRuntime.example_rows)
         (by_date !!! date)) /\
    LedgerfyRun.parse_mpesa_to_ledger_with_balance
      (H := ReferenceRuntime.runtime) ReferenceRuntime.example_rules
      ReferenceRuntime.example_rows "2024-03-01" None =
    Ok (if bool_decide (by_date = ∅) then NoTransactions
        else LedgerWritten (LedgerfyRun.write_ledger by_date)).
Proof.
  apply (ledger_includes_completed_rows_in_range
           (H := ReferenceRuntime.runtime) ReferenceRuntime.example_rules
           ReferenceRuntime.example_config "2024-03-01" None
           ReferenceRuntime.example_rows).
  - vm_compute. reflexivity.
  - vm_compute. reflexivity.
Defined.

(** * Further properties of the sources *)

(** ** The two classifiers *)

Section ClassifierAgreement.
Context `{PyRuntime}.

Lemma keyword_tests_agree (d : string) (r : Rule) :
  rule_match_type r <> Some "all" ->
  Spec.keyword_test d r = Spec.keyword_test_2csv d r.
Proof.
  intros Hmt. unfold Spec.keyword_test, Spec.keyword_test_2csv,
    Ledgerfy.check_keywords_match.
  assert (Hex : match Some (default [] (rule_exclude r)) with
                | Some ((_ :: _) as ex) =>
                    existsb (fun k => PyStr.contains k d) ex
                | _ => false
                end =
                existsb (fun k => PyStr.contains k d)
                        (default [] (rule_exclude r))).
  { now destruct (default [] (rule_exclude r)). }
  rewrite Hex.
  assert (Hany : String.eqb (default "any" (rule_match_type r)) "all" = false).
  { apply String.eqb_neq. destruct (rule_match_type r) as [mt|]; simpl.
    - intros ->. now apply Hmt.
    - discriminate. }
  rewrite Hany.
  destruct (rule_keywords r) as [|k kws].
  - simpl. now rewrite andb_false_r.
  - now destruct (existsb _ (default [] (rule_exclude r))).
Qed.

Lemma find_ext_Forall {A : Type} (P Q : A -> bool) (l : list A) :
  Forall (fun x => P x = Q x) l -> List.find P l = List.find Q l.
Proof.
  induction 1 as [|x l Hx _ IH]; simpl; [reflexivity|].
  now rewrite Hx, IH.
Qed.

Lemma fires_agree (d : string) (amount : float) (rules : list Rule) :
  Forall (fun r => rule_match_type r <> Some "all") rules ->
  List.find (Spec.fires d amount) rules =
  List.find (Spec.fires_2csv d amount) rules.
Proof.
  intros Hrules. apply find_ext_Forall.
  eapply Forall_impl; [exact Hrules|]. intros r Hr.
  unfold Spec.fires, Spec.fires_2csv. now rewrite (keyword_tests_agree _ _ Hr).
Qed.

(** Where no [exclude] is [None], the loop of the older module is the one
    on typed rules. *)
Lemma categorize_loop_without_null (d : string) (amount : float)
    (rules : list Mpesa2csvRun.LoadedRule) (dflt : string) :
  Forall (fun r => Mpesa2csvRun.lr_exclude_null r = false) rules ->
  Mpesa2csvRun.categorize_loop d amount rules dflt =
  Ok (Mpesa2csv.categorize_loop d amount (Mpesa2csvRun.lr_rule <$> rules) dflt).
Proof.
  induction 1 as [|r rules Hr _ IH]; [reflexivity|].
  cbn [Mpesa2csvRun.categorize_loop Mpesa2csv.categorize_loop fmap list_fmap].
  rewrite Hr.
  destruct (existsb _ (default [] (rule_exclude (Mpesa2csvRun.lr_rule r))));
    [exact IH|].
  destruct (existsb _ (rule_keywords (Mpesa2csvRun.lr_rule r))); [|exact IH].
  destruct (condition_present _) as [c|]; [|reflexivity].
  destruct (py_eval c amount); [reflexivity | exact IH | exact IH].
Qed.

(** The loop of the older module goes past the rules that do not fire and
    whose [exclude] is not [None]. *)
Lemma categorize_loop_skip (d : string) (amount : float)
    (before rest : list Mpesa2csvRun.LoadedRule) (dflt : string) :
  Forall (fun q => Mpesa2csvRun.lr_exclude_null q = false /\
                   Spec.fires_2csv d amount (Mpesa2csvRun.lr_rule q) = false)
         before ->
  Mpesa2csvRun.categorize_loop d amount (before ++ rest) dflt =
  Mpesa2csvRun.categorize_loop d amount rest dflt.
Proof.
  induction 1 as [|q before [Hnull Hq] _ IH]; [reflexivity|].
  cbn [app Mpesa2csvRun.categorize_loop]. rewrite Hnull.
  unfold Spec.fires_2csv, Spec.keyword_test_2csv, Spec.condition_test in Hq.
  destruct (existsb _ (default [] (rule_exclude (Mpesa2csvRun.lr_rule q))));
    [exact IH|].
  destruct (existsb _ (rule_keywords (Mpesa2csvRun.lr_rule q))); [|exact IH].
  cbn [negb andb] in Hq.
  destruct (condition_present _) as [c|]; [|discriminate].
  destruct (py_eval c amount); [discriminate | exact IH | exact IH].
Qed.

End ClassifierAgreement.

(** The classifier of [ledgerfy.py] and the older one of
    [mpesa_ledgerfy.py] give a transaction the same account on a rule set
    in which no rule asks for [match_type] ["all"] and no rule has
    [exclude] set to [null].  They part on [null]: the older one iterates
    over [exclude] without the test [exclude and ...] of
    [check_keywords_match], so it raises [TypeError] as soon as its loop
    reaches such a rule, for every transaction that no earlier rule takes,
    where [ledgerfy.py] reads [null] as no exclusion.  (The bare [except:]
    of the older module also catches what is not an [Exception], such as
    the [SystemExit] of a condition that calls [exit()]; [py_eval] has no
    outcome for an evaluation that ends so, and the statement is about
    the conditions that return or raise an [Exception].) *)
Theorem classifiers_agree_without_all `{PyRuntime}
    (details : string) (amount : float) (accounts : list string)
    (rules : list Mpesa2csvRun.LoadedRule) (default_account : string) :
  (Forall (fun r => rule_match_type (Mpesa2csvRun.lr_rule r) <> Some "all" /\
                    Mpesa2csvRun.lr_exclude_null r = false) rules ->
   Mpesa2csvRun.categorize_transaction details amount
     (Mpesa2csvRun.mkLoadedConfig accounts rules default_account) =
   Ok (Ledgerfy.categorize_transaction details amount
         (mkConfig accounts (Mpesa2csvRun.lr_rule <$> rules)
                   default_account))) /\
  (forall before r after,
     rules = before ++ r :: after ->
     Forall (fun q =>
               Mpesa2csvRun.lr_exclude_null q = false /\
               Spec.fires_2csv (PyStr.lower details) amount
                 (Mpesa2csvRun.lr_rule q) = false) before ->
     Mpesa2csvRun.lr_exclude_null r = true ->
     Mpesa2csvRun.categorize_transaction details amount
       (Mpesa2csvRun.mkLoadedConfig accounts rules default_account) =
     Raise TypeError).
Proof.
  unfold Mpesa2csvRun.categorize_transaction, Ledgerfy.categorize_transaction.
  cbn [Mpesa2csvRun.lc_rules Mpesa2csvRun.lc_default_account cfg_rules
       cfg_default_account].
  split.
  - intros Hrules.
    rewrite categorize_loop_without_null
      by (eapply Forall_impl; [exact Hrules|]; now intros r [_ Hr]).
    rewrite categorize_loop_find, categorize_loop_find_2csv.
    rewrite (fires_agree _ _ (Mpesa2csvRun.lr_rule <$> rules)); [reflexivity|].
    apply Forall_fmap. eapply Forall_impl; [exact Hrules|].
    now intros r [Hr _].
  - intros before r after -> Hbefore Hnull.
    rewrite (categorize_loop_skip _ _ _ _ _ Hbefore).
    cbn [Mpesa2csvRun.categorize_loop]. now rewrite Hnull.
Qed.

Lemma classifiers_agree_without_all_witness :
  Mpesa2csvRun.categorize_transaction (H := ReferenceRuntime.runtime)
    "Mpesa Charge" 15%float
    (Mpesa2csvRun.mkLoadedConfig ["Expenses:Charges"; "Expenses:Unknown"]
       [Mpesa2csvRun.mkLoadedRule
          (mkRule "Expenses:Charges" ["charge"] (Some ["refund"]) None None)
          false]
       "Expenses:Unknown") =
  Ok "Expenses:Charges" /\
  Mpesa2csvRun.categorize_transaction (H := ReferenceRuntime.runtime)
    "Mpesa Charge" 15%float
    (Mpesa2csvRun.mkLoadedConfig ["Expenses:Charges"; "Expenses:Unknown"]
       [Mpesa2csvRun.mkLoadedRule
          (mkRule "Expenses:Charges" ["fee"] None None None) false;
        Mpesa2csvRun.mkLoadedRule
          (mkRule "Expenses:Charges" ["charge"] None None None) true]
       "Expenses:Unknown") =
  Raise TypeError.
Proof.
  split.
  - refine (eq_trans
              (proj1 (classifiers_agree_without_all
                        (H := ReferenceRuntime.runtime) "Mpesa Charge"
                        15%float ["Expenses:Charges"; "Expenses:Unknown"]
                        [Mpesa2csvRun.mkLoadedRule
                           (mkRule "Expenses:Charges" ["charge"]
                                   (Some ["refund"]) None None) false]
                        "Expenses:Unknown") _) _).
    + repeat constructor. discriminate.
    + vm_compute. reflexivity.
  - apply (proj2 (classifiers_agree_without_all
                    (H := ReferenceRuntime.runtime) "Mpesa Charge"
                    15%float ["Expenses:Charges"; "Expenses:Unknown"] _
                    "Expenses:Unknown")
             [Mpesa2csvRun.mkLoadedRule
                (mkRule "Expenses:Charges" ["fee"] None None None) false]
             (Mpesa2csvRun.mkLoadedRule
                (mkRule "Expenses:Charges" ["charge"] None None None) true)
             []).
    + reflexivity.
    + repeat constructor.
    + reflexivity.
Defined.

(** ** Loaded rule sets *)

Section LoadedConfig.
Import Json LedgerfyConfig ConfigSpec.

Lemma in_list_str (a : string) (items : list json) (strs : list string) :
  in_list (JStr a) items = true -> mapM as_str items = Some strs -> In a strs.
Proof.
  intros Hin Hstrs. apply mapM_Some in Hstrs.
  unfold in_list in Hin. apply existsb_exists in Hin as (e & He & Heq).
  destruct e as [| | |s| |]; try discriminate.
  simpl in Heq. apply String.eqb_eq in Heq as ->.
  induction Hstrs as [|x y items strs Hxy _ IH]; [destruct He|].
  destruct He as [->|He].
  - simpl in Hxy. injection Hxy as <-. now left.
  - right. now apply IH.
Qed.

Lemma rule_of_json_account (accounts : list json) (strs : list string)
    (rule : json) (r : Rule) :
  rule_ok accounts rule -> mapM as_str accounts = Some strs ->
  rule_of_json rule = Some r -> In (rule_account r) strs.
Proof.
  intros Hok Hstrs Hr. destruct rule as [| | | | |kvs]; try discriminate.
  destruct Hok as ((account & Ha & Hin) & _).
  simpl in Hr. rewrite Ha in Hr. simpl in Hr.
  destruct account as [| | |a| |]; try discriminate. simpl in Hr.
  destruct (assoc "keywords" kvs ≫= as_str_list) as [kws|]; [|discriminate].
  simpl in Hr.
  destruct (optional as_str_list (assoc "exclude" kvs)); [|discriminate].
  simpl in Hr.
  destruct (optional as_str (assoc "match_type" kvs)); [|discriminate].
  simpl in Hr.
  destruct (optional as_str (assoc "condition" kvs)); [|discriminate].
  simpl in Hr. injection Hr as <-. simpl.
  eapply in_list_str; eassumption.
Qed.

(** What [load_config] hands over: the default account and the account
    of every rule are declared accounts. *)
Lemma load_config_accounts (document : json) (config : Config) :
  load_config document = Ok config ->
  In (cfg_default_account config) (cfg_accounts config) /\
  Forall (fun r => In (rule_account r) (cfg_accounts config)) (cfg_rules config).
Proof.
  unfold load_config. intros Hload.
  destruct (validate_config document) as [[]|e] eqn:Hv; [|discriminate].
  simpl in Hload. apply validate_config_ok in Hv.
  destruct Hv as (kvs & accounts & rules & dflt & -> & Ha & Hr & Hd & Hin & Hrules).
  simpl in Hload. rewrite Ha, Hr, Hd in Hload. simpl in Hload.
  destruct (mapM as_str accounts) as [strs|] eqn:Hstrs; [|discriminate].
  simpl in Hload.
  destruct (mapM rule_of_json rules) as [typed|] eqn:Htyped; [|discriminate].
  simpl in Hload.
  destruct dflt as [| | |d| |]; try discriminate.
  simpl in Hload. injection Hload as <-. simpl. split.
  - eapply in_list_str; eassumption.
  - apply mapM_Some in Htyped. clear Hr.
    induction Htyped as [|x y rules typed Hxy _ IH]; [constructor|].
    inversion Hrules as [|? ? Hx Hrest]; subst.
    constructor; [|apply IH; assumption].
    eapply rule_of_json_account; eassumption.
Qed.

End LoadedConfig.

(** With a rule file that [load_config] accepts, the account given to a
    transaction is always one of the declared [accounts]. *)
Theorem classification_is_a_declared_account `{PyRuntime}
    (document : json) (config : Config) (details : string) (amount : float) :
  LedgerfyConfig.load_config document = Ok config ->
  In (Ledgerfy.categorize_transaction details amount config)
     (cfg_accounts config).
Proof.
  intros Hload. destruct (load_config_accounts _ _ Hload) as [Hd Hrules].
  destruct (categorize_yields_account details amount config)
    as [->|(r & Hr & ->)]; [exact Hd|].
  rewrite Forall_forall in Hrules. apply Hrules.
  now apply list_elem_of_In.
Qed.

Lemma classification_is_a_declared_account_witness :
  In (Ledgerfy.categorize_transaction (H := ReferenceRuntime.runtime)
        "Paid to Java Cafe" 200%float ReferenceRuntime.example_config)
     (cfg_accounts ReferenceRuntime.example_config).
Proof.
  apply (classification_is_a_declared_account (H := ReferenceRuntime.runtime)
           ReferenceRuntime.example_rules).
  vm_compute. reflexivity.
Defined.

(** ** The two validators *)

Section ValidatorComparison.
Import Json.
#[local] Arguments in_list : simpl never.
#[local] Arguments PyStr.contains : simpl never.

(** The rule check of [ledgerfy.py] is the one of [mpesa_ledgerfy.py]
    followed by the check on [match_type]. *)
Lemma validate_rule_split (accounts : list json) (i : nat) (rule : json) :
  LedgerfyConfig.validate_rule accounts i rule =
  (Mpesa2csvConfig.validate_rule accounts i rule;;
   MoreSpec.check_match_type i rule).
Proof.
  unfold LedgerfyConfig.validate_rule, Mpesa2csvConfig.validate_rule,
    MoreSpec.check_match_type.
  destruct (contains_str "account" rule) as [[]|e]; simpl; try reflexivity.
  destruct (getitem rule "account") as [account|e]; simpl; try reflexivity.
  destruct (in_list account accounts); simpl; try reflexivity.
  destruct (contains_str "keywords" rule) as [[]|e]; simpl; try reflexivity.
  destruct (getitem rule "keywords") as [keywords|e]; simpl; try reflexivity.
  destruct (is_list keywords); reflexivity.
Qed.

Lemma validate_rule_older_accepts (accounts : list json) (i : nat) (rule : json) :
  LedgerfyConfig.validate_rule accounts i rule = Ok tt ->
  Mpesa2csvConfig.validate_rule accounts i rule = Ok tt.
Proof.
  rewrite validate_rule_split.
  destruct (Mpesa2csvConfig.validate_rule accounts i rule) as [[]|e];
    [reflexivity | discriminate].
Qed.

Lemma validate_rules_older_accepts (accounts : list json) (rules : list json)
    (i : nat) :
  LedgerfyConfig.validate_rules accounts i rules = Ok tt ->
  Mpesa2csvConfig.validate_rules accounts i rules = Ok tt.
Proof.
  revert i. induction rules as [|rule rules IH]; intros i; simpl; [reflexivity|].
  destruct (LedgerfyConfig.validate_rule accounts i rule) as [[]|e] eqn:Hr;
    [|discriminate].
  rewrite (validate_rule_older_accepts _ _ _ Hr). simpl. apply IH.
Qed.

Lemma check_match_type_absent (i : nat) (rule : json) :
  (forall rkvs, rule = JObj rkvs -> assoc "match_type" rkvs = None) ->
  forall accounts,
    LedgerfyConfig.validate_rule accounts i rule =
    Mpesa2csvConfig.validate_rule accounts i rule.
Proof.
  intros Hnone accounts. rewrite validate_rule_split.
  destruct rule as [| b | q | s | l | kvs].
  1-5: unfold Mpesa2csvConfig.validate_rule; simpl; try reflexivity.
  - destruct (PyStr.contains "account" s); reflexivity.
  - destruct (in_list (JStr "account") l); reflexivity.
  - unfold MoreSpec.check_match_type. simpl.
    rewrite (Hnone kvs eq_refl). simpl.
    destruct (Mpesa2csvConfig.validate_rule accounts i (JObj kvs)) as [[]|e];
      reflexivity.
Qed.

Lemma validate_rules_same (accounts : list json) (rules : list json) (i : nat) :
  Forall (fun rule => forall rkvs, rule = JObj rkvs ->
                        assoc "match_type" rkvs = None) rules ->
  LedgerfyConfig.validate_rules accounts i rules =
  Mpesa2csvConfig.validate_rules accounts i rules.
Proof.
  intros Hrules. revert i.
  induction Hrules as [|rule rules Hrule _ IH]; intros i; simpl; [reflexivity|].
  rewrite (check_match_type_absent i rule Hrule accounts).
  destruct (Mpesa2csvConfig.validate_rule accounts i rule) as [[]|e]; simpl;
    [apply IH | reflexivity].
Qed.

(** The two validators make the same checks before their rule loops. *)
Lemma validate_config_prefix (config : json) :
  (exists e, LedgerfyConfig.validate_config config = Raise e /\
             Mpesa2csvConfig.validate_config config = Raise e) \/
  (exists accounts rules,
     getitem config "rules" = Ok (JList rules) /\
     LedgerfyConfig.validate_config config =
       LedgerfyConfig.validate_rules accounts 0 rules /\
     Mpesa2csvConfig.validate_config config =
       Mpesa2csvConfig.validate_rules accounts 0 rules).
Proof.
  unfold LedgerfyConfig.validate_config, Mpesa2csvConfig.validate_config.
  destruct (LedgerfyConfig.check_required config
              ["accounts"; "rules"; "default_account"]) as [[]|e];
    [|left; eauto].
  cbn [mbind result_bind].
  destruct (getitem config "accounts") as [accounts|e]; [|left; eauto].
  cbn [mbind result_bind].
  destruct accounts as [| | | |accounts|]; try (left; eauto; fail).
  destruct (getitem config "rules") as [rules|e]; [|left; eauto].
  cbn [mbind result_bind].
  destruct rules as [| | | |rules|]; try (left; eauto; fail).
  destruct (getitem config "default_account") as [dflt|e]; [|left; eauto].
  cbn [mbind result_bind].
  destruct (negb (in_list dflt accounts)); [left; eauto|].
  right. exists accounts, rules. auto.
Qed.

Lemma no_match_type_rules (config : json) (rules : list json) :
  MoreSpec.no_match_type config ->
  getitem config "rules" = Ok (JList rules) ->
  Forall (fun rule => forall rkvs, rule = JObj rkvs ->
                        assoc "match_type" rkvs = None) rules.
Proof.
  intros Hnone Hr. destruct config as [| | | | |kvs]; try discriminate.
  apply (Hnone kvs rules eq_refl).
  simpl in Hr. destruct (assoc "rules" kvs); [|discriminate].
  now injection Hr as ->.
Qed.

End ValidatorComparison.

(** The validator of [ledgerfy.py] is stricter than the one of
    [mpesa_ledgerfy.py] by the check on [match_type] alone: a rule file it
    accepts is accepted by the older validator, and on a rule file none of
    whose rules has a [match_type] key the two return the same result,
    error for error. *)
Theorem validators_differ_by_match_type_only (config : json) :
  (LedgerfyConfig.validate_config config = Ok tt ->
   Mpesa2csvConfig.validate_config config = Ok tt) /\
  (MoreSpec.no_match_type config ->
   LedgerfyConfig.validate_config config =
   Mpesa2csvConfig.validate_config config).
Proof.
  destruct (validate_config_prefix config)
    as [(e & -> & ->)|(accounts & rules & Hr & -> & ->)].
  - split; [discriminate | reflexivity].
  - split; [apply validate_rules_older_accepts|].
    intros Hnone. apply validate_rules_same.
    exact (no_match_type_rules config rules Hnone Hr).
Qed.

(** ** The ledger run as a whole *)

Section RunFacts.
Context `{PyRuntime}.
Import LedgerfyRun LedgerSpec.

Lemma float_or_zero_cases (s : string) :
  (exists x, float_or_zero s = Ok x /\
             negb (PyStr.truthy s) || bool_decide (is_Some (py_float s)) = true) \/
  (float_or_zero s = Raise (ValueError_float s) /\
   negb (PyStr.truthy s) || bool_decide (is_Some (py_float s)) = false).
Proof.
  unfold float_or_zero. destruct (PyStr.truthy s); simpl.
  - destruct (py_float s) as [x|] eqn:Hx.
    + left. exists x. split; [reflexivity|]. apply bool_decide_eq_true. eauto.
    + right. split; [reflexivity|]. apply bool_decide_eq_false.
      intros [x Hs]. discriminate.
  - left. eauto.
Qed.

(** A row in the date range with a numeric field that is not a number
    makes the row loop raise the [ValueError] of [float]. *)
Lemma process_row_raises (config : Config) (start_date : string)
    (end_date : option string) (row : Row) :
  in_date_range start_date end_date row = true -> numeric_ok row = false ->
  exists s, process_row config start_date end_date row =
            Raise (ValueError_float s).
Proof.
  unfold process_row, in_date_range. fold (transaction_date row).
  rewrite (le_negb_lt start_date).
  destruct (PyStr.lt (transaction_date row) start_date); simpl; [discriminate|].
  intros Hend.
  assert (Hskip : match end_date with
                  | Some e => PyStr.truthy e && PyStr.lt e (transaction_date row)
                  | None => false
                  end = false).
  { destruct end_date as [e|]; [|reflexivity].
    rewrite le_negb_lt in Hend. destruct (PyStr.truthy e); [|reflexivity].
    simpl. now apply negb_true_iff in Hend. }
  rewrite Hskip. unfold numeric_ok. intros Hnum.
  destruct (float_or_zero_cases (row_paid_in row)) as [(p & Hp & Hpok)|[Hp _]];
    rewrite Hp; simpl; [|eauto].
  destruct (float_or_zero_cases (row_withdrawn row)) as [(w & Hw & Hwok)|[Hw _]];
    rewrite Hw; simpl; [|eauto].
  destruct (float_or_zero_cases (row_balance row)) as [(b & Hb & Hbok)|[Hb _]];
    rewrite Hb; simpl; [|eauto].
  rewrite Hpok, Hwok, Hbok in Hnum. discriminate.
Qed.

Lemma not_bad_row (start_date : string) (end_date : option string) (row : Row) :
  MoreSpec.bad_row start_date end_date row = false ->
  negb (in_date_range start_date end_date row) || numeric_ok row = true.
Proof.
  unfold MoreSpec.bad_row. destruct (in_date_range _ _ _), (numeric_ok row);
    simpl; congruence.
Qed.

Lemma no_bad_rows (start_date : string) (end_date : option string)
    (rows : list Row) :
  existsb (MoreSpec.bad_row start_date end_date) rows = false ->
  forallb (fun r => negb (in_date_range start_date end_date r) || numeric_ok r)
          rows = true.
Proof.
  induction rows as [|row rows IH]; simpl; [reflexivity|].
  intros Hbad. apply orb_false_elim in Hbad as [Hrow Hrows].
  now rewrite (not_bad_row _ _ _ Hrow), IH.
Qed.

Lemma collect_raises (config : Config) (start_date : string)
    (end_date : option string) (rows : list Row)
    (acc : gmap string (list Posting)) :
  existsb (MoreSpec.bad_row start_date end_date) rows = true ->
  exists s, collect config start_date end_date rows acc =
            Raise (ValueError_float s).
Proof.
  revert acc. induction rows as [|row rows IH]; intros acc; simpl;
    [discriminate|].
  destruct (MoreSpec.bad_row start_date end_date row) eqn:Hrow; simpl.
  - intros _. unfold MoreSpec.bad_row in Hrow. apply andb_prop in Hrow as [Hin Hnum].
    apply negb_true_iff in Hnum.
    destruct (process_row_raises config _ _ _ Hin Hnum) as [s Hs].
    rewrite Hs. simpl. eauto.
  - intros Hrows.
    destruct (process_row_spec config start_date end_date row
                (not_bad_row _ _ _ Hrow))
      as [[_ Hstep]|[_ (p & _ & Hstep)]]; rewrite Hstep; simpl; apply IH, Hrows.
Qed.

(** No date is entered in the dict without a posting under it. *)
Lemma collect_buckets_nonempty (config : Config) (start_date : string)
    (end_date : option string) (rows : list Row)
    (acc by_date : gmap string (list Posting)) :
  (forall date l, acc !! date = Some l -> l <> []) ->
  collect config start_date end_date rows acc = Ok by_date ->
  forall date l, by_date !! date = Some l -> l <> [].
Proof.
  revert acc. induction rows as [|row rows IH]; intros acc Hacc; simpl.
  - intros [= <-]. exact Hacc.
  - destruct (process_row config start_date end_date row) as [[[d p]|]|e];
      simpl; [| |discriminate].
    + apply IH. intros date l.
      destruct (decide (d = date)) as [<-|Hne].
      * rewrite lookup_insert_eq. intros [= <-]. now destruct (acc !!! d).
      * rewrite lookup_insert_ne by exact Hne. apply Hacc.
    + apply IH, Hacc.
Qed.

Lemma included_rows_by_date (config : Config) (start_date : string)
    (end_date : option string) (rows : list Row)
    (by_date : gmap string (list Posting)) :
  existsb (MoreSpec.bad_row start_date end_date) rows = false ->
  collect config start_date end_date rows ∅ = Ok by_date ->
  (forall date,
     Forall2 (row_posting config)
       (filter (fun r => included start_date end_date r = true /\
                         transaction_date r = date) rows)
       (by_date !!! date)) /\
  (forall date,
     is_Some (by_date !! date) <->
     exists r, In r rows /\ included start_date end_date r = true /\
               transaction_date r = date).
Proof.
  intros Hbad Hcollect.
  destruct (collect_spec config start_date end_date rows ∅
              (no_bad_rows _ _ _ Hbad)) as (m & Hm & Hdates).
  rewrite Hcollect in Hm. injection Hm as <-.
  assert (Hall : forall date,
            Forall2 (row_posting config)
              (filter (fun r => included start_date end_date r = true /\
                                transaction_date r = date) rows)
              (by_date !!! date)).
  { intros date. destruct (Hdates date) as (new & Hnew & Hf).
    rewrite lookup_total_empty in Hnew. simpl in Hnew. now rewrite Hnew. }
  split; [exact Hall|]. intros date.
  pose proof (collect_buckets_nonempty config start_date end_date rows ∅ by_date)
    as Hne.
  specialize (Hne ltac:(intros d l; rewrite lookup_empty; discriminate) Hcollect).
  specialize (Hall date). split.
  - intros [l Hl]. specialize (Hne date l Hl).
    rewrite lookup_total_alt, Hl in Hall. simpl in Hall.
    destruct (filter _ rows) as [|r rs] eqn:Hf.
    + inversion Hall; subst. contradiction.
    + assert (Hr : r ∈ filter (fun r => included start_date end_date r = true /\
                                        transaction_date r = date) rows)
        by (rewrite Hf; left).
      apply list_elem_of_filter in Hr as [[Hinc Hdate] Hin].
      exists r. split; [now apply list_elem_of_In|]. split; assumption.
  - intros (r & Hin & Hinc & Hdate).
    assert (Hr : r ∈ filter (fun r => included start_date end_date r = true /\
                                      transaction_date r = date) rows).
    { apply list_elem_of_filter. split; [split; assumption|].
      now apply list_elem_of_In. }
    destruct (by_date !! date) as [l|] eqn:Hl; [eauto|].
    rewrite lookup_total_alt, Hl in Hall. simpl in Hall.
    inversion Hall as [Hf|]; subst. rewrite <- Hf in Hr. inversion Hr.
Qed.

End RunFacts.

(** How [ledgerfy_main] ends.  It returns 1, and writes nothing, when the
    input file is missing and when [validate_config] raises a
    [ValueError]; an exception of another type that [validate_config]
    raises (the [TypeError] of a rule that is not an object) is not caught
    and leaves [ledgerfy_main].  With a rule file that [load_config] hands
    over, it returns 1 also when a row in the date range has an amount or
    balance that is not a number: the [ValueError] of [float] is caught by
    the handler meant for the configuration.  Otherwise it returns 0,
    having written the ledger when some row is completed and in range, and
    nothing when none is. *)
Theorem ledgerfy_main_status `{PyRuntime} (document : json)
    (rows : list Row) (start_date : string) (end_date : option string) :
  LedgerfyMain.ledgerfy_main false document rows start_date end_date
    = Exit 1 None /\
  (forall e, LedgerfyConfig.validate_config document = Raise e ->
   LedgerfyMain.ledgerfy_main true document rows start_date end_date
     = if LedgerfyMain.is_value_error e then Exit 1 None else Uncaught e) /\
  (forall config, LedgerfyConfig.load_config document = Ok config ->
   if existsb (MoreSpec.bad_row start_date end_date) rows
   then LedgerfyMain.ledgerfy_main true document rows start_date end_date
          = Exit 1 None
   else if existsb (LedgerSpec.included start_date end_date) rows
   then exists by_date,
          LedgerfyRun.collect config start_date end_date rows ∅ = Ok by_date /\
          by_date <> ∅ /\
          LedgerfyMain.ledgerfy_main true document rows start_date end_date
            = Exit 0 (Some (LedgerfyRun.write_ledger by_date))
   else LedgerfyMain.ledgerfy_main true document rows start_date end_date
          = Exit 0 None).
Proof.
  split; [reflexivity|]. split.
  - intros e He.
    unfold LedgerfyMain.ledgerfy_main,
      LedgerfyRun.parse_mpesa_to_ledger_with_balance,
      LedgerfyConfig.load_config.
    rewrite He. reflexivity.
  - intros config Hload.
    unfold LedgerfyMain.ledgerfy_main,
      LedgerfyRun.parse_mpesa_to_ledger_with_balance.
    rewrite Hload. simpl.
    destruct (existsb (MoreSpec.bad_row start_date end_date) rows) eqn:Hbad.
    { destruct (collect_raises config start_date end_date rows ∅ Hbad)
        as [s Hs].
      rewrite Hs. reflexivity. }
    destruct (collect_spec config start_date end_date rows ∅
                (no_bad_rows _ _ _ Hbad)) as (by_date & Hcollect & _).
    destruct (included_rows_by_date config _ _ _ _ Hbad Hcollect) as [_ Hkeys].
    rewrite Hcollect. simpl.
    destruct (existsb (LedgerSpec.included start_date end_date) rows) eqn:Hany.
    + apply existsb_exists in Hany as (r & Hin & Hinc).
      assert (Hne : by_date <> ∅).
      { intros ->.
        destruct (proj2 (Hkeys (LedgerSpec.transaction_date r))) as [l Hl];
          [eauto|].
        rewrite lookup_empty in Hl. discriminate. }
      exists by_date. split; [reflexivity|]. split; [exact Hne|].
      now rewrite bool_decide_eq_false_2 by exact Hne.
    + assert (Hempty : by_date = ∅).
      { apply map_empty. intros date.
        destruct (by_date !! date) as [l|] eqn:Hl; [|reflexivity].
        destruct (proj1 (Hkeys date)) as (r & Hin & Hinc & _); [eauto|].
        assert (Hex : existsb (LedgerSpec.included start_date end_date) rows = true)
          by (apply existsb_exists; eauto).
        congruence. }
      now rewrite bool_decide_eq_true_2 by exact Hempty.
Qed.

Section CountFacts.
Context `{PyRuntime}.
Import LedgerfyRun LedgerSpec.







Lemma collect_ok_no_bad_rows (config : Config) (start_date : string)
    (end_date : option string) (rows : list Row)
    (acc by_date : gmap string (list Posting)) :
  collect config start_date end_date rows acc = Ok by_date ->
  existsb (MoreSpec.bad_row start_date end_date) rows = false.
Proof.
  intros Hok.
  destruct (existsb (MoreSpec.bad_row start_date end_date) rows) eqn:Hbad;
    [|reflexivity].
  destruct (collect_raises config start_date end_date rows acc Hbad) as [s Hs].
  congruence.
Qed.

End CountFacts.



(** ** The order of the input rows *)

Section OrderFacts.
Context `{PyRuntime}.
Import LedgerfyRun LedgerSpec.

Lemma str_le_antisym (a b : string) :
  PyStr.le a b = true -> PyStr.le b a = true -> a = b.
Proof.
  intros Hab Hba. destruct (decide (a = b)) as [|Hne]; [assumption|].
  assert (Hlt : PyStr.lt a b = true) by (apply str_lt_iff; now split).
  rewrite lt_negb_le, Hba in Hlt. discriminate.
Qed.

Lemma NoDup_fmap_same {A B : Type} (f : A -> B) (l : list A) (x y : A) :
  NoDup (f <$> l) -> x ∈ l -> y ∈ l -> f x = f y -> x = y.
Proof.
  induction l as [|a l IH]; [intros _ Hx; inversion Hx|].
  rewrite fmap_cons, NoDup_cons. intros [Ha Hl] Hx Hy Hxy.
  apply elem_of_cons in Hx as [->|Hx]; apply elem_of_cons in Hy as [->|Hy].
  - reflexivity.
  - destruct Ha. rewrite Hxy. now apply list_elem_of_fmap_2.
  - destruct Ha. rewrite <- Hxy. now apply list_elem_of_fmap_2.
  - now apply IH.
Qed.

(** Sorting by a key that no two elements share forgets the order of
    the input. *)
Lemma py_sorted_distinct_keys {A : Type} (key : A -> string) (a b : list A) :
  a ≡ₚ b -> NoDup (key <$> a) -> py_sorted key a = py_sorted key b.
Proof.
  intros Hperm Hkeys.
  apply (StronglySorted_unique_strong
           (fun x y => PyStr.le (key x) (key y) = true)).
  - intros x y Hx Hy Hxy Hyx.
    rewrite py_sorted_perm in Hx. rewrite py_sorted_perm, <- Hperm in Hy.
    exact (NoDup_fmap_same key a x y Hkeys Hx Hy (str_le_antisym _ _ Hxy Hyx)).
  - apply py_sorted_sorted.
  - apply py_sorted_sorted.
  - now rewrite !py_sorted_perm.
Qed.

Lemma sorted_dates_same (by_date by_date' : gmap string (list Posting)) :
  (forall date, is_Some (by_date !! date) <-> is_Some (by_date' !! date)) ->
  sorted_dates by_date = sorted_dates by_date'.
Proof.
  intros Hdom.
  destruct (sorted_dates_ascending by_date) as [Hs Hin].
  destruct (sorted_dates_ascending by_date') as [Hs' Hin'].
  apply (StronglySorted_unique_strong (fun a b => PyStr.lt a b = true));
    [|exact Hs|exact Hs'|].
  - intros x y _ _ Hxy Hyx. apply str_lt_iff in Hxy as [Hxy _].
    apply str_lt_iff in Hyx as [Hyx _]. now apply str_le_antisym.
  - apply NoDup_Permutation.
    + unfold sorted_dates. rewrite py_sorted_perm. apply NoDup_fst_map_to_list.
    + unfold sorted_dates. rewrite py_sorted_perm. apply NoDup_fst_map_to_list.
    + intros date. now rewrite Hin, Hin', Hdom.
Qed.

Lemma write_ledger_same (by_date by_date' : gmap string (list Posting)) :
  (forall date, is_Some (by_date !! date) <-> is_Some (by_date' !! date)) ->
  (forall date, py_sorted tx_timestamp (by_date !!! date) =
                py_sorted tx_timestamp (by_date' !!! date)) ->
  write_ledger by_date = write_ledger by_date'.
Proof.
  intros Hdom Hday. unfold write_ledger.
  rewrite (sorted_dates_same _ _ Hdom). f_equal. apply map_ext.
  intros date. now rewrite !write_day_block, Hday.
Qed.

Lemma empty_same (by_date by_date' : gmap string (list Posting)) :
  (forall date, is_Some (by_date !! date) <-> is_Some (by_date' !! date)) ->
  bool_decide (by_date = ∅) = bool_decide (by_date' = ∅).
Proof.
  intros Hdom. apply bool_decide_ext. rewrite !map_empty.
  split; intros Hnone date; apply eq_None_not_Some;
    [rewrite <- Hdom | rewrite Hdom]; rewrite Hnone; now intros [? ?].
Qed.

Lemma row_posting_functional (config : Config) (row : Row) (p p' : Posting) :
  row_posting config row p -> row_posting config row p' -> p = p'.
Proof.
  intros (a & b & c & Ha & Hb & Hc & Hamount & Haccount & Hd & Hbal & Hts)
         (a' & b' & c' & Ha' & Hb' & Hc' & Hamount' & Haccount' & Hd' & Hbal'
          & Hts').
  rewrite Ha in Ha'. rewrite Hb in Hb'. rewrite Hc in Hc'.
  injection Ha' as <-. injection Hb' as <-. injection Hc' as <-.
  destruct p, p'. cbn in *. congruence.
Qed.

Lemma postings_functional (config : Config) (rows : list Row)
    (l l' : list Posting) :
  Forall2 (row_posting config) rows l -> Forall2 (row_posting config) rows l' ->
  l = l'.
Proof.
  intros Hl. revert l'. induction Hl as [|r p rows l Hp _ IH]; intros l' Hl'.
  - now inversion Hl'.
  - inversion Hl' as [|? p' ? l2 Hp' Hl2]; subst.
    f_equal; [exact (row_posting_functional _ _ _ _ Hp Hp') | now apply IH].
Qed.

Lemma postings_timestamps (config : Config) (rows : list Row)
    (l : list Posting) :
  Forall2 (row_posting config) rows l ->
  tx_timestamp <$> l = row_completion_time <$> rows.
Proof.
  induction 1 as [|r p rows l Hp _ IH]; [reflexivity|].
  rewrite !fmap_cons, IH. f_equal.
  destruct Hp as (? & ? & ? & _ & _ & _ & _ & _ & _ & _ & Hts). exact Hts.
Qed.

Lemma bad_rows_perm (start_date : string) (end_date : option string)
    (rows rows' : list Row) :
  rows ≡ₚ rows' ->
  existsb (MoreSpec.bad_row start_date end_date) rows = false ->
  existsb (MoreSpec.bad_row start_date end_date) rows' = false.
Proof.
  intros Hperm Hrows.
  destruct (existsb _ rows') eqn:Hrows'; [|reflexivity].
  apply existsb_exists in Hrows' as (r & Hr & Hbad).
  rewrite <- Hrows. symmetry. apply existsb_exists. exists r.
  split; [|exact Hbad].
  apply list_elem_of_In. rewrite Hperm. now apply list_elem_of_In.
Qed.

Lemma filter_conj_sublist {A : Type} (P Q : A -> Prop)
    `{!forall x, Decision (P x)} `{!forall x, Decision (P x /\ Q x)}
    (l : list A) :
  filter (fun x => P x /\ Q x) l `sublist_of` filter P l.
Proof.
  induction l as [|a l IH]; [constructor|]. rewrite !filter_cons.
  destruct (decide (P a /\ Q a)) as [[HP HQ]|Hn]; destruct (decide (P a));
    try contradiction.
  - now constructor.
  - now constructor.
  - exact IH.
Qed.

Lemma collect_perm (config : Config) (start_date : string)
    (end_date : option string) (rows rows' : list Row)
    (by_date : gmap string (list Posting)) :
  rows ≡ₚ rows' ->
  NoDup (row_completion_time <$>
         filter (fun r => included start_date end_date r = true) rows) ->
  collect config start_date end_date rows ∅ = Ok by_date ->
  exists by_date',
    collect config start_date end_date rows' ∅ = Ok by_date' /\
    bool_decide (by_date' = ∅) = bool_decide (by_date = ∅) /\
    write_ledger by_date' = write_ledger by_date.
Proof.
  intros Hperm Hdistinct Hrun.
  pose proof (collect_ok_no_bad_rows _ _ _ _ _ _ Hrun) as Hgood.
  pose proof (bad_rows_perm _ _ _ _ Hperm Hgood) as Hgood'.
  destruct (collect_spec config start_date end_date rows' ∅
              (no_bad_rows _ _ _ Hgood')) as (by_date' & Hrun' & _).
  exists by_date'. split; [exact Hrun'|].
  destruct (included_rows_by_date _ _ _ _ _ Hgood Hrun) as [Hday Hdom].
  destruct (included_rows_by_date _ _ _ _ _ Hgood' Hrun') as [Hday' Hdom'].
  assert (Hsame : forall date,
            is_Some (by_date' !! date) <-> is_Some (by_date !! date)).
  { intros date. rewrite Hdom, Hdom'.
    split; intros (r & Hr & Hrest); exists r; (split; [|exact Hrest]);
      apply list_elem_of_In; apply list_elem_of_In in Hr;
      [rewrite Hperm | rewrite <- Hperm]; exact Hr. }
  split; [exact (empty_same _ _ Hsame)|].
  apply write_ledger_same; [exact Hsame|]. intros date.
  specialize (Hday date). specialize (Hday' date).
  set (Pd := fun r : Row => included start_date end_date r = true /\
                            transaction_date r = date) in *.
  assert (Hfilter : filter Pd rows' ≡ₚ filter Pd rows)
    by (now rewrite Hperm).
  destruct (Permutation_Forall2 Hfilter Hday') as (l & Hl & Hrows).
  rewrite (postings_functional _ _ _ _ Hrows Hday) in Hl.
  apply py_sorted_distinct_keys; [exact Hl|].
  rewrite Hl, (postings_timestamps _ _ _ Hday).
  eapply sublist_NoDup; [exact Hdistinct|].
  apply fmap_sublist, filter_conj_sublist.
Qed.

End OrderFacts.

(** the ledger does not depend on the order of the rows of the input
    table, as long as no two rows that go into it have the same
    [Completion Time]: a run that returns on the rows in one order returns
    the same, text for text, on the rows in any other order. *)
Theorem ledger_is_independent_of_row_order `{PyRuntime} (document : json)
    (rows rows' : list Row) (start_date : string) (end_date : option string)
    (outcome : ledger_outcome) :
  rows ≡ₚ rows' ->
  NoDup (row_completion_time <$>
         filter (fun r => LedgerSpec.included start_date end_date r = true)
                rows) ->
  LedgerfyRun.parse_mpesa_to_ledger_with_balance document rows
    start_date end_date = Ok outcome ->
  LedgerfyRun.parse_mpesa_to_ledger_with_balance document rows'
    start_date end_date = Ok outcome.
Proof.
  intros Hperm Hdistinct. unfold LedgerfyRun.parse_mpesa_to_ledger_with_balance.
  destruct (LedgerfyConfig.load_config document) as [config|e]; [|discriminate].
  cbn [mbind result_bind].
  destruct (LedgerfyRun.collect config start_date end_date rows ∅)
    as [by_date|e] eqn:Hrun; [|discriminate].
  destruct (collect_perm _ _ _ _ _ _ Hperm Hdistinct Hrun)
    as (by_date' & Hrun' & Hempty & Hwrites).
  rewrite Hrun'. cbn [mbind result_bind]. rewrite Hempty, Hwrites. trivial.
Qed.

Lemma ledger_is_independent_of_row_order_witness :
  LedgerfyRun.parse_mpesa_to_ledger_with_balance
    (H := ReferenceRuntime.runtime) ReferenceRuntime.example_rules
    (rev ReferenceRuntime.example_rows) "2024-03-01" None =
  LedgerfyRun.parse_mpesa_to_ledger_with_balance
    (H := ReferenceRuntime.runtime) ReferenceRuntime.example_rules
    ReferenceRuntime.example_rows "2024-03-01" None.
Proof.
  assert (Hrun : { outcome |
            LedgerfyRun.parse_mpesa_to_ledger_with_balance
              (H := ReferenceRuntime.runtime) ReferenceRuntime.example_rules
              ReferenceRuntime.example_rows "2024-03-01" None = Ok outcome })
    by (eexists; vm_compute; reflexivity).
  destruct Hrun as [outcome Hrun]. rewrite Hrun.
  apply (ledger_is_independent_of_row_order (H := ReferenceRuntime.runtime)
           ReferenceRuntime.example_rules ReferenceRuntime.example_rows).
  - apply Permutation_rev.
  - apply (bool_decide_unpack _). vm_compute. exact I.
  - exact Hrun.
Defined.

(** ** The two ledger runs *)

Section RunComparison.
Context `{PyRuntime}.
Import Json.

Lemma rule_of_json_same (rule : json) :
  (forall rkvs, rule = JObj rkvs -> assoc "match_type" rkvs = None) ->
  Mpesa2csvRun.lr_rule <$> Mpesa2csvRun.rule_of_json rule =
  LedgerfyConfig.rule_of_json rule.
Proof.
  intros Hnone. destruct rule as [| | | | |kvs]; try reflexivity.
  unfold LedgerfyConfig.rule_of_json, Mpesa2csvRun.rule_of_json.
  rewrite (Hnone kvs eq_refl).
  destruct (assoc "account" kvs ≫= LedgerfyConfig.as_str); [|reflexivity].
  destruct (assoc "keywords" kvs ≫= LedgerfyConfig.as_str_list);
    [|reflexivity].
  destruct (LedgerfyConfig.optional LedgerfyConfig.as_str_list
              (assoc "exclude" kvs)); [|reflexivity].
  destruct (LedgerfyConfig.optional LedgerfyConfig.as_str
              (assoc "condition" kvs)); reflexivity.
Qed.

Lemma rule_of_json_flags (rule : json) (r : Mpesa2csvRun.LoadedRule) :
  (forall rkvs, rule = JObj rkvs -> assoc "exclude" rkvs <> Some JNull) ->
  Mpesa2csvRun.rule_of_json rule = Some r ->
  rule_match_type (Mpesa2csvRun.lr_rule r) <> Some "all" /\
  Mpesa2csvRun.lr_exclude_null r = false.
Proof.
  intros Hnull. destruct rule as [| | | | |kvs]; try discriminate.
  specialize (Hnull kvs eq_refl). unfold Mpesa2csvRun.rule_of_json.
  destruct (assoc "account" kvs ≫= LedgerfyConfig.as_str); [|discriminate].
  destruct (assoc "keywords" kvs ≫= LedgerfyConfig.as_str_list);
    [|discriminate].
  destruct (LedgerfyConfig.optional LedgerfyConfig.as_str_list
              (assoc "exclude" kvs)); [|discriminate].
  destruct (LedgerfyConfig.optional LedgerfyConfig.as_str
              (assoc "condition" kvs)); [|discriminate].
  cbn. intros [= <-]. cbn. split; [discriminate|].
  unfold Mpesa2csvRun.exclude_is_null.
  destruct (assoc "exclude" kvs) as [[| | | | |]|]; try reflexivity.
  now destruct Hnull.
Qed.

Lemma mapM_rule_of_json_same (rules : list json) :
  Forall (fun rule => forall rkvs, rule = JObj rkvs ->
                        assoc "match_type" rkvs = None) rules ->
  fmap (M := option) (fmap (M := list) Mpesa2csvRun.lr_rule)
       (mapM Mpesa2csvRun.rule_of_json rules) =
  mapM LedgerfyConfig.rule_of_json rules.
Proof.
  induction 1 as [|rule rules Hrule _ IH]; [reflexivity|].
  cbn [mapM]. rewrite <- (rule_of_json_same rule Hrule), <- IH.
  destruct (Mpesa2csvRun.rule_of_json rule) as [r|]; [|reflexivity].
  cbn. destruct (mapM Mpesa2csvRun.rule_of_json rules); reflexivity.
Qed.

Lemma mapM_rule_of_json_flags (rules : list json)
    (loaded : list Mpesa2csvRun.LoadedRule) :
  Forall (fun rule => forall rkvs, rule = JObj rkvs ->
                        assoc "exclude" rkvs <> Some JNull) rules ->
  mapM Mpesa2csvRun.rule_of_json rules = Some loaded ->
  Forall (fun r => rule_match_type (Mpesa2csvRun.lr_rule r) <> Some "all" /\
                   Mpesa2csvRun.lr_exclude_null r = false) loaded.
Proof.
  intros Hnull Hloaded. apply mapM_Some in Hloaded.
  induction Hloaded as [|rule r rules loaded Hr _ IH]; [constructor|].
  inversion Hnull as [|? ? Hrule Hrest]; subst.
  constructor; [exact (rule_of_json_flags _ _ Hrule Hr) | exact (IH Hrest)].
Qed.

(** What the two modules load from a rule file without [match_type] and
    without [null] excludes: the same rule set, no rule of which can make
    the older classifier raise. *)
Lemma config_of_json_same (config : json) :
  MoreSpec.no_match_type config -> MoreSpec.no_null_exclude config ->
  match Mpesa2csvRun.config_of_json config with
  | Some older =>
      LedgerfyConfig.config_of_json config =
        Some (mkConfig (Mpesa2csvRun.lc_accounts older)
                       (Mpesa2csvRun.lr_rule <$> Mpesa2csvRun.lc_rules older)
                       (Mpesa2csvRun.lc_default_account older)) /\
      Forall (fun r =>
                rule_match_type (Mpesa2csvRun.lr_rule r) <> Some "all" /\
                Mpesa2csvRun.lr_exclude_null r = false)
             (Mpesa2csvRun.lc_rules older)
  | None => LedgerfyConfig.config_of_json config = None
  end.
Proof.
  intros Hnone Hnull. destruct config as [| | | | |kvs]; try reflexivity.
  unfold LedgerfyConfig.config_of_json, Mpesa2csvRun.config_of_json.
  destruct (assoc "accounts" kvs ≫= LedgerfyConfig.as_str_list) as [accounts|];
    [|reflexivity].
  cbn [mbind option_bind].
  destruct (assoc "rules" kvs) as [[| | | |rules|]|] eqn:Hrules;
    try reflexivity.
  rewrite <- (mapM_rule_of_json_same rules (Hnone kvs rules eq_refl Hrules)).
  destruct (mapM Mpesa2csvRun.rule_of_json rules) as [loaded|] eqn:Hloaded;
    [|reflexivity].
  cbn [fmap option_fmap option_map mbind option_bind].
  destruct (assoc "default_account" kvs ≫= LedgerfyConfig.as_str) as [dflt|];
    [|reflexivity].
  cbn. split; [reflexivity|].
  exact (mapM_rule_of_json_flags rules loaded
           (Hnull kvs rules eq_refl Hrules) Hloaded).
Qed.

Lemma process_row_same (older : Mpesa2csvRun.LoadedConfig)
    (start_date : string) (end_date : option string) (row : Row) :
  Forall (fun r => rule_match_type (Mpesa2csvRun.lr_rule r) <> Some "all" /\
                   Mpesa2csvRun.lr_exclude_null r = false)
         (Mpesa2csvRun.lc_rules older) ->
  Mpesa2csvRun.process_row older start_date end_date row =
  LedgerfyRun.process_row
    (mkConfig (Mpesa2csvRun.lc_accounts older)
              (Mpesa2csvRun.lr_rule <$> Mpesa2csvRun.lc_rules older)
              (Mpesa2csvRun.lc_default_account older))
    start_date end_date row.
Proof.
  intros Hrules. unfold LedgerfyRun.process_row, Mpesa2csvRun.process_row.
  cbv zeta.
  destruct (PyStr.lt _ start_date); [reflexivity|].
  destruct (match end_date with Some _ => _ | None => _ end); [reflexivity|].
  destruct (LedgerfyRun.float_or_zero (row_paid_in row)); [|reflexivity].
  destruct (LedgerfyRun.float_or_zero (row_withdrawn row)); [|reflexivity].
  destruct (LedgerfyRun.float_or_zero (row_balance row)); [|reflexivity].
  cbn [mbind result_bind]. destruct (negb _); [reflexivity|].
  unfold Mpesa2csvRun.categorize_transaction, Ledgerfy.categorize_transaction.
  cbn [cfg_rules cfg_default_account].
  rewrite categorize_loop_without_null
    by (eapply Forall_impl; [exact Hrules|]; now intros r [_ Hr]).
  rewrite categorize_loop_find, categorize_loop_find_2csv.
  rewrite (fires_agree _ _ (Mpesa2csvRun.lr_rule <$> Mpesa2csvRun.lc_rules older)).
  - reflexivity.
  - apply Forall_fmap. eapply Forall_impl; [exact Hrules|]. now intros r [Hr _].
Qed.

Lemma collect_same (older : Mpesa2csvRun.LoadedConfig)
    (start_date : string) (end_date : option string) (rows : list Row)
    (by_date : gmap string (list Posting)) :
  Forall (fun r => rule_match_type (Mpesa2csvRun.lr_rule r) <> Some "all" /\
                   Mpesa2csvRun.lr_exclude_null r = false)
         (Mpesa2csvRun.lc_rules older) ->
  Mpesa2csvRun.collect older start_date end_date rows by_date =
  LedgerfyRun.collect
    (mkConfig (Mpesa2csvRun.lc_accounts older)
              (Mpesa2csvRun.lr_rule <$> Mpesa2csvRun.lc_rules older)
              (Mpesa2csvRun.lc_default_account older))
    start_date end_date rows by_date.
Proof.
  intros Hrules. revert by_date.
  induction rows as [|row rows IH]; intros by_date; [reflexivity|].
  cbn [LedgerfyRun.collect Mpesa2csvRun.collect].
  rewrite (process_row_same _ _ _ _ Hrules).
  destruct (LedgerfyRun.process_row _ _ _ row) as [[[date posting]|]|e];
    cbn; [apply IH | apply IH | reflexivity].
Qed.

Lemma runs_same (document : json) (rows : list Row) (start_date : string)
    (end_date : option string) :
  MoreSpec.no_match_type document -> MoreSpec.no_null_exclude document ->
  Mpesa2csvRun.parse_mpesa_to_ledger_with_balance document rows
    start_date end_date =
  LedgerfyRun.parse_mpesa_to_ledger_with_balance document rows
    start_date end_date.
Proof.
  intros Hnone Hnull.
  unfold Mpesa2csvRun.parse_mpesa_to_ledger_with_balance,
    LedgerfyRun.parse_mpesa_to_ledger_with_balance,
    Mpesa2csvRun.load_config, LedgerfyConfig.load_config.
  pose proof (config_of_json_same document Hnone Hnull) as Hconfig.
  destruct (validate_config_prefix document)
    as [(e & -> & ->)|(accounts & rules & Hr & -> & ->)]; [reflexivity|].
  rewrite (validate_rules_same accounts rules 0
             (no_match_type_rules document rules Hnone Hr)).
  destruct (Mpesa2csvConfig.validate_rules accounts 0 rules) as [[]|e];
    [|reflexivity].
  cbn [mbind result_bind].
  destruct (Mpesa2csvRun.config_of_json document) as [older|].
  - destruct Hconfig as [-> Hrules]. cbn [mbind result_bind].
    now rewrite (collect_same _ _ _ _ _ Hrules).
  - rewrite Hconfig. reflexivity.
Qed.

End RunComparison.

(** On a rule file of the typed view none of whose rules has a
    [match_type] key or [exclude] set to [null], the run of
    [mpesa2csv/mpesa_ledgerfy.py] and the run of [ledgerfy.py] end the same
    way on every input table and date range: the same exception, the same
    "no transactions" outcome or the same text written, and so the same
    exit status.  As everywhere, the conditions are those whose
    evaluation returns or raises an [Exception]. *)
Theorem both_modules_write_the_same_ledger `{PyRuntime} (document : json)
    (rows : list Row) (start_date : string) (end_date : option string) :
  MoreSpec.no_match_type document -> MoreSpec.no_null_exclude document ->
  MoreSpec.typed_view document ->
  Mpesa2csvRun.parse_mpesa_to_ledger_with_balance document rows
    start_date end_date =
  LedgerfyRun.parse_mpesa_to_ledger_with_balance document rows
    start_date end_date /\
  Mpesa2csvRun.main document rows start_date end_date =
  LedgerfyMain.ledgerfy_main true document rows start_date end_date.
Proof.
  intros Hnone Hnull _. split; [exact (runs_same _ _ _ _ Hnone Hnull)|].
  unfold Mpesa2csvRun.main, LedgerfyMain.ledgerfy_main.
  now rewrite (runs_same _ _ _ _ Hnone Hnull).
Qed.

Lemma both_modules_write_the_same_ledger_witness :
  Mpesa2csvRun.parse_mpesa_to_ledger_with_balance
    (H := ReferenceRuntime.runtime) Examples.plain_rules
    ReferenceRuntime.example_rows "2024-03-01" None =
  LedgerfyRun.parse_mpesa_to_ledger_with_balance
    (H := ReferenceRuntime.runtime) Examples.plain_rules
    ReferenceRuntime.example_rows "2024-03-01" None /\
  Mpesa2csvRun.main (H := ReferenceRuntime.runtime) Examples.plain_rules
    ReferenceRuntime.example_rows "2024-03-01" None =
  LedgerfyMain.ledgerfy_main (H := ReferenceRuntime.runtime) true
    Examples.plain_rules ReferenceRuntime.example_rows "2024-03-01" None.
Proof.
  apply (both_modules_write_the_same_ledger (H := ReferenceRuntime.runtime)).
  - intros kvs rules [= <-] Hrules. vm_compute in Hrules.
    injection Hrules as <-. repeat constructor. intros rkvs [= <-]. reflexivity.
  - intros kvs rules [= <-] Hrules. vm_compute in Hrules.
    injection Hrules as <-. repeat constructor. intros rkvs [= <-]. discriminate.
  - vm_compute. discriminate.
Defined.

(** Where the two runs part: on the rule file whose rule has [exclude]
    set to [null], the first row classified makes the older module raise
    [TypeError], which its [main] does not catch, and [ledgerfy_main]
    writes the ledger. *)
Example runs_part_on_null_exclude :
  Mpesa2csvRun.main (H := ReferenceRuntime.runtime)
    Examples.null_exclude_rules ReferenceRuntime.example_rows
    "2024-03-01" None = Uncaught TypeError /\
  exists writes,
    LedgerfyMain.ledgerfy_main (H := ReferenceRuntime.runtime) true
      Examples.null_exclude_rules ReferenceRuntime.example_rows
      "2024-03-01" None = Exit 0 (Some writes).
Proof.
  split; [vm_compute; reflexivity|]. eexists. vm_compute. reflexivity.
Qed.

(** ** Text cleaning *)

Section CleanTextFacts.
Import PyTime XtractAndroid.

Lemma newline_is_space (c : ascii) :
  Ascii.eqb c (ascii_of_N 10) = true -> is_space c = true.
Proof. intros Hc. apply Ascii.eqb_eq in Hc. subst c. reflexivity. Qed.

Lemma replace_after_collapse (b : bool) (s : string) :
  newlines_to_spaces (collapse_spaces b s) = collapse_spaces b s.
Proof.
  revert b. induction s as [|c s IH]; intros b; [reflexivity|].
  cbn [collapse_spaces]. destruct (is_space c) eqn:Hc.
  - destruct b; [apply IH|].
    cbn [newlines_to_spaces]. rewrite IH. reflexivity.
  - cbn [newlines_to_spaces]. rewrite IH.
    destruct (Ascii.eqb c (ascii_of_N 10)) eqn:Hnl; [|reflexivity].
    apply newline_is_space in Hnl. congruence.
Qed.

Lemma rstrip_cons (c : ascii) (s : string) :
  is_space c = false -> rstrip (String c s) = String c (rstrip s).
Proof. intros Hc. simpl. rewrite Hc. destruct (rstrip s); reflexivity. Qed.

Lemma rstrip_fixed_cons (c : ascii) (s : string) :
  rstrip (String c s) = String c s ->
  (s = EmptyString /\ is_space c = false) \/
  (s <> EmptyString /\ rstrip s = s).
Proof.
  simpl. destruct (rstrip s) as [|a r] eqn:Hr.
  - destruct (is_space c) eqn:Hc; [discriminate|].
    intros [= <-]. left. split; reflexivity.
  - intros [= <-]. right. split; [discriminate | reflexivity].
Qed.

Lemma rstrip_idempotent (s : string) : rstrip (rstrip s) = rstrip s.
Proof.
  induction s as [|c s IH]; simpl; [reflexivity|].
  destruct (rstrip s) as [|a r] eqn:Hr.
  - destruct (is_space c) eqn:Hc; simpl; [reflexivity|]. now rewrite Hc.
  - change (rstrip (String c (String a r))) with
      (match rstrip (String a r) with
       | EmptyString => if is_space c then EmptyString else String c EmptyString
       | r' => String c r'
       end).
    rewrite IH. reflexivity.
Qed.

Lemma lstrip_head (s : string) :
  lstrip s = EmptyString \/
  exists c s', lstrip s = String c s' /\ is_space c = false.
Proof.
  induction s as [|c s IH]; simpl; [now left|].
  destruct (is_space c) eqn:Hc; [exact IH|]. right. eauto.
Qed.

Lemma strip_head (s : string) :
  strip s = EmptyString \/
  exists c s', strip s = String c s' /\ is_space c = false /\ rstrip s' = s'.
Proof.
  unfold strip. destruct (lstrip_head s) as [->|(c & s' & -> & Hc)].
  - now left.
  - right. exists c, (rstrip s'). rewrite rstrip_cons by exact Hc.
    split; [reflexivity|]. split; [exact Hc | apply rstrip_idempotent].
Qed.

Lemma collapse_single_spaced (s : string) (b : bool) :
  rstrip s = s -> (b = true -> s <> EmptyString) ->
  MoreSpec.single_spaced b (collapse_spaces b s) = true.
Proof.
  revert b. induction s as [|c s IH]; intros b Hfix Hne.
  - destruct b; [now destruct Hne | reflexivity].
  - apply rstrip_fixed_cons in Hfix. simpl.
    destruct (is_space c) eqn:Hc.
    + destruct Hfix as [[_ Hc']|[Hs Hfix]]; [congruence|].
      destruct b.
      * apply IH; [exact Hfix | intros _; exact Hs].
      * simpl. apply IH; [exact Hfix | intros _; exact Hs].
    + simpl. rewrite Hc. apply IH; [|discriminate].
      destruct Hfix as [[-> _]|[_ Hfix]]; [reflexivity | exact Hfix].
Qed.

Lemma single_spaced_collapse (s : string) (b : bool) :
  MoreSpec.single_spaced b s = true -> collapse_spaces b s = s.
Proof.
  revert b. induction s as [|c s IH]; intros b; simpl; [reflexivity|].
  destruct (is_space c) eqn:Hc.
  - intros Hs. apply andb_prop in Hs as [Hs Hrest].
    apply andb_prop in Hs as [Heq Hb].
    apply Ascii.eqb_eq in Heq. subst c.
    destruct b; [discriminate|]. f_equal. now apply IH.
  - intros Hs. f_equal. now apply IH.
Qed.

Lemma single_spaced_rstrip (s : string) (b : bool) :
  MoreSpec.single_spaced b s = true -> rstrip s = s.
Proof.
  revert b. induction s as [|c s IH]; intros b; [reflexivity|].
  cbn [MoreSpec.single_spaced]. destruct (is_space c) eqn:Hc.
  - intros Hs. apply andb_prop in Hs as [_ Hrest].
    simpl. rewrite (IH _ Hrest).
    destruct s; [discriminate | reflexivity].
  - intros Hs. rewrite rstrip_cons by exact Hc. f_equal. now apply (IH false).
Qed.

Lemma clean_text_unfold (t : string) :
  Xtract.clean_text (Some t) = collapse_spaces false (strip t).
Proof.
  unfold Xtract.clean_text. destruct t as [|c t]; [reflexivity|].
  cbn [PyStr.truthy negb]. apply replace_after_collapse.
Qed.

Lemma clean_text_normalised (t : string) :
  MoreSpec.normalised (collapse_spaces false (strip t)) = true.
Proof.
  destruct (strip_head t) as [->|(c & s' & -> & Hc & Hfix)]; [reflexivity|].
  simpl. rewrite Hc. simpl. rewrite Hc.
  apply collapse_single_spaced; [exact Hfix | discriminate].
Qed.

Lemma normalised_fixed (s : string) :
  MoreSpec.normalised s = true -> collapse_spaces false (strip s) = s.
Proof.
  destruct s as [|c s]; [reflexivity|].
  unfold MoreSpec.normalised. intros Hs.
  assert (Hc : is_space c = false).
  { cbn [MoreSpec.single_spaced] in Hs. destruct (is_space c); [|reflexivity].
    rewrite andb_false_r in Hs. discriminate. }
  assert (Hs' : MoreSpec.single_spaced false (String c s) = true).
  { cbn [MoreSpec.single_spaced] in *. now rewrite Hc in *. }
  unfold strip. cbn [lstrip]. rewrite Hc.
  rewrite (single_spaced_rstrip _ _ Hs'). now apply single_spaced_collapse.
Qed.

End CleanTextFacts.

(** [clean_text] of [xtract.py] and [_clean_text] of
    [xtract-android.py] are one function; the result has no white space at
    either end and none inside but single spaces, so the closing
    [replace("\n", " ")] changes nothing, and cleaning a cleaned text gives
    it back. *)
Theorem clean_text_normalises (text : option string) :
  XtractAndroid._clean_text text = Xtract.clean_text text /\
  MoreSpec.normalised (Xtract.clean_text text) = true /\
  Xtract.clean_text text =
    match text with
    | Some t => XtractAndroid.collapse_spaces false (XtractAndroid.strip t)
    | None => ""
    end /\
  Xtract.clean_text (Some (Xtract.clean_text text)) = Xtract.clean_text text.
Proof.
  split; [reflexivity|].
  destruct text as [t|]; [|repeat split; reflexivity].
  rewrite !clean_text_unfold.
  split; [apply clean_text_normalised|].
  split; [reflexivity|].
  apply normalised_fixed, clean_text_normalised.
Qed.

(** ** Amounts of the SMS parser *)

Section CleanAmountFacts.
Import XtractAndroid.

Lemma rstrip_dots_app (a b : string) :
  rstrip_dots b <> EmptyString ->
  rstrip_dots (a +:+ b) = a +:+ rstrip_dots b.
Proof.
  intros Hb. induction a as [|c a IH]; [reflexivity|].
  rewrite !append_cons. cbn [rstrip_dots]. rewrite IH.
  destruct (a +:+ rstrip_dots b) eqn:Hab; [|reflexivity].
  destruct a; [|discriminate]. now destruct Hb.
Qed.

Lemma rstrip_dots_trailing_dot (s : string) :
  rstrip_dots (s +:+ ".") = rstrip_dots s.
Proof.
  induction s as [|c s IH]; [reflexivity|].
  rewrite append_cons. cbn [rstrip_dots]. now rewrite IH.
Qed.

Lemma remove_commas_app (a b : string) :
  remove_commas (a +:+ b) = remove_commas a +:+ remove_commas b.
Proof.
  induction a as [|c a IH]; [reflexivity|].
  rewrite append_cons. cbn [remove_commas]. rewrite IH.
  destruct (Ascii.eqb c ","); [reflexivity|]. now rewrite append_cons.
Qed.

Lemma truthy_app_r (a b : string) :
  b <> EmptyString -> PyStr.truthy (a +:+ b) = true.
Proof.
  intros Hb. destruct a; [|reflexivity].
  change (EmptyString +:+ b) with b. destruct b; [now destruct Hb | reflexivity].
Qed.

End CleanAmountFacts.

(** [_clean_amount] reads an amount the same with or without a
    thousands comma before its last digits, and with or without a period
    after it: the two are dropped before [float] sees the text. *)
Theorem clean_amount_ignores_separators `{PyRuntime} (a b : string) :
  XtractAndroid.rstrip_dots b <> "" ->
  XtractAndroid._clean_amount (Some (a +:+ "," +:+ b)) =
    XtractAndroid._clean_amount (Some (a +:+ b)) /\
  XtractAndroid._clean_amount (Some (a +:+ b +:+ ".")) =
    XtractAndroid._clean_amount (Some (a +:+ b)).
Proof.
  intros Hb.
  assert (Hne : b <> "") by (intros ->; now apply Hb).
  assert (Hcb : XtractAndroid.rstrip_dots ("," +:+ b) <> "").
  { rewrite rstrip_dots_app by exact Hb. discriminate. }
  assert (Hdot : b +:+ "." <> "") by (destruct b; discriminate).
  unfold XtractAndroid._clean_amount.
  rewrite (truthy_app_r a ("," +:+ b)) by discriminate.
  rewrite (truthy_app_r a b) by exact Hne.
  rewrite (truthy_app_r a (b +:+ ".")) by exact Hdot.
  cbn [negb]. split.
  - rewrite (rstrip_dots_app a ("," +:+ b)) by exact Hcb.
    rewrite (rstrip_dots_app "," b) by exact Hb.
    rewrite (rstrip_dots_app a b) by exact Hb.
    rewrite !remove_commas_app. reflexivity.
  - rewrite <- (append_assoc a b "."), rstrip_dots_trailing_dot.
    reflexivity.
Qed.

Lemma clean_amount_ignores_separators_witness :
  XtractAndroid._clean_amount (H := ReferenceRuntime.runtime)
    (Some "55,790.87") =
  XtractAndroid._clean_amount (H := ReferenceRuntime.runtime)
    (Some "55790.87") /\
  XtractAndroid._clean_amount (H := ReferenceRuntime.runtime)
    (Some "55790.87.") =
  XtractAndroid._clean_amount (H := ReferenceRuntime.runtime)
    (Some "55790.87").
Proof.
  apply (clean_amount_ignores_separators (H := ReferenceRuntime.runtime)
           "55" "790.87").
  vm_compute. discriminate.
Defined.

(** ** Amounts of the PDF extraction *)

Section AmountTextFacts.
Import PyTime XtractAndroid Xtract MoreSpec.

Lemma keep_amount_chars_all (s : string) :
  PyStr.all_chars amount_char (keep_amount_chars s) = true.
Proof.
  induction s as [|c s IH]; [reflexivity|].
  cbn [keep_amount_chars]. destruct (amount_char c) eqn:Hc; [|exact IH].
  cbn [PyStr.all_chars]. now rewrite Hc.
Qed.

Lemma keep_amount_chars_fixed (s : string) :
  PyStr.all_chars amount_char s = true -> keep_amount_chars s = s.
Proof.
  induction s as [|c s IH]; [reflexivity|].
  cbn [PyStr.all_chars keep_amount_chars]. intros Hs.
  apply andb_prop in Hs as [-> Hs]. now rewrite IH.
Qed.

Lemma amount_char_not_space (c : ascii) :
  amount_char c = true -> is_space c = false.
Proof.
  destruct c as [[] [] [] [] [] [] [] []]; vm_compute; congruence.
Qed.

Lemma keep_lstrip (s : string) :
  keep_amount_chars (lstrip s) = keep_amount_chars s.
Proof.
  induction s as [|c s IH]; [reflexivity|].
  cbn [lstrip]. destruct (is_space c) eqn:Hc; [|reflexivity].
  rewrite IH. cbn [keep_amount_chars].
  destruct (amount_char c) eqn:Ha; [|reflexivity].
  apply amount_char_not_space in Ha. congruence.
Qed.

Lemma keep_rstrip (s : string) :
  keep_amount_chars (rstrip s) = keep_amount_chars s.
Proof.
  induction s as [|c s IH]; [reflexivity|].
  cbn [rstrip keep_amount_chars]. rewrite <- IH.
  destruct (rstrip s) as [|a r] eqn:Hr.
  - destruct (is_space c) eqn:Hc.
    + destruct (amount_char c) eqn:Ha; [|reflexivity].
      apply amount_char_not_space in Ha. congruence.
    + reflexivity.
  - reflexivity.
Qed.

Lemma keep_strip (s : string) :
  keep_amount_chars (strip s) = keep_amount_chars s.
Proof. unfold strip. now rewrite keep_rstrip, keep_lstrip. Qed.

Lemma count_dots_app (a b : string) :
  count_dots (a +:+ b) = (count_dots a + count_dots b)%nat.
Proof.
  induction a as [|c a IH]; [reflexivity|].
  rewrite append_cons. cbn [count_dots]. rewrite IH. lia.
Qed.

Lemma split_dots_nonempty (s : string) : split_dots s <> [].
Proof.
  induction s as [|c s IH]; [discriminate|].
  cbn [split_dots]. destruct (Ascii.eqb c "."); [discriminate|].
  destruct (split_dots s); discriminate.
Qed.

Lemma split_dots_length (s : string) :
  length (split_dots s) = S (count_dots s).
Proof.
  induction s as [|c s IH]; [reflexivity|].
  cbn [split_dots count_dots]. destruct (Ascii.eqb c ".").
  - cbn [length]. now rewrite IH.
  - pose proof (split_dots_nonempty s) as Hne.
    destruct (split_dots s); [now destruct Hne | exact IH].
Qed.

Lemma split_dots_parts (P : ascii -> bool) (s : string) :
  PyStr.all_chars P s = true ->
  Forall (fun part => count_dots part = 0%nat /\
                      PyStr.all_chars P part = true) (split_dots s).
Proof.
  induction s as [|c s IH]; [repeat constructor|].
  cbn [PyStr.all_chars split_dots]. intros Hs.
  apply andb_prop in Hs as [Hc Hs]. specialize (IH Hs).
  destruct (Ascii.eqb c ".") eqn:Hdot.
  - constructor; [split; reflexivity | exact IH].
  - pose proof (split_dots_nonempty s) as Hne.
    destruct (split_dots s) as [|part parts]; [now destruct Hne|].
    inversion IH as [|? ? [Hcount Hall] Hparts]; subst.
    constructor; [|exact Hparts].
    cbn [count_dots PyStr.all_chars]. rewrite Hdot, Hc. now split.
Qed.

Lemma join_parts (P : ascii -> bool) (parts : list string) :
  Forall (fun part => count_dots part = 0%nat /\
                      PyStr.all_chars P part = true) parts ->
  count_dots (join parts) = 0%nat /\ PyStr.all_chars P (join parts) = true.
Proof.
  induction 1 as [|part parts [Hcount Hall] _ [IHc IHa]]; [now split|].
  cbn [join]. rewrite count_dots_app, all_chars_app, Hcount, IHc, Hall, IHa.
  now split.
Qed.

Lemma contains_dot_count (s : string) :
  PyStr.contains "." s = false -> count_dots s = 0%nat.
Proof.
  induction s as [|c s IH]; [reflexivity|].
  cbn [PyStr.contains count_dots]. intros Hs.
  apply orb_false_elim in Hs as [Hpre Hs]. rewrite (IH Hs).
  destruct (Ascii.eqb_spec c "."); [|reflexivity].
  subst c. cbn [String.prefix] in Hpre.
  destruct (Ascii.ascii_dec "." ".") as [_|Hn]; [|now destruct Hn].
  destruct s; discriminate.
Qed.

(** The text [clean_amount_to_number] hands to [float]. *)
Lemma amount_text_shape (amount_str t : string) :
  amount_text amount_str = Some t ->
  t <> "" /\ PyStr.all_chars amount_char t = true /\ (count_dots t <= 1)%nat.
Proof.
  unfold amount_text.
  destruct (negb (PyStr.truthy amount_str)); [discriminate|].
  set (k := keep_amount_chars (strip amount_str)).
  assert (Hk : PyStr.all_chars amount_char k = true)
    by apply keep_amount_chars_all.
  destruct (negb (PyStr.truthy k) || String.eqb k "-" || String.eqb k ".")
    eqn:Hnone; [discriminate|].
  assert (Hne : k <> "") by (intros Hk0; rewrite Hk0 in Hnone; discriminate).
  intros [= <-].
  destruct (PyStr.contains "." k) eqn:Hdot.
  - destruct (Nat.ltb 2 (length (split_dots k))) eqn:Hlen.
    + pose proof (split_dots_parts amount_char k Hk) as Hparts.
      destruct (split_dots k) as [|part parts]; [discriminate|].
      inversion Hparts as [|? ? [Hcount Hall] Hrest]; subst.
      destruct (join_parts _ _ Hrest) as [Hjc Hja].
      change (default "" (head (part :: parts))) with part.
      change (tail (part :: parts)) with parts. split; [|split].
      * destruct part; discriminate.
      * rewrite !all_chars_app, Hall, Hja. reflexivity.
      * rewrite !count_dots_app, Hcount, Hjc. cbn. lia.
    + split; [exact Hne|]. split; [exact Hk|].
      apply Nat.ltb_ge in Hlen. rewrite split_dots_length in Hlen. lia.
  - split; [exact Hne|]. split; [exact Hk|].
    rewrite (contains_dot_count _ Hdot). lia.
Qed.

Lemma amount_text_filtered (amount_str : string) :
  amount_text (keep_amount_chars amount_str) = amount_text amount_str.
Proof.
  unfold amount_text.
  pose proof (keep_amount_chars_all amount_str) as Hk.
  rewrite !keep_strip, !(keep_amount_chars_fixed _ Hk).
  destruct (PyStr.truthy (keep_amount_chars amount_str)) eqn:Hkt.
  - destruct amount_str; [discriminate | reflexivity].
  - cbn [negb orb]. destruct (negb (PyStr.truthy amount_str)); reflexivity.
Qed.

End AmountTextFacts.

(** [clean_amount_to_number] looks at the digits, periods and minus
    signs of its argument only, and what it hands to [float] is never
    empty and has one period at most: the first one of the text. *)
Theorem clean_amount_to_number_filters `{PyRuntime} (amount_str : string) :
  Xtract.clean_amount_to_number (Xtract.keep_amount_chars amount_str) =
    Xtract.clean_amount_to_number amount_str /\
  (Xtract.keep_amount_chars amount_str = "" ->
   Xtract.clean_amount_to_number amount_str = None) /\
  forall x, Xtract.clean_amount_to_number amount_str = Some x ->
    exists t, py_float t = Some x /\ t <> "" /\
      PyStr.all_chars Xtract.amount_char t = true /\
      (MoreSpec.count_dots t <= 1)%nat.
Proof.
  unfold Xtract.clean_amount_to_number.
  rewrite amount_text_filtered. split; [reflexivity|]. split.
  - intros Hk. rewrite <- (amount_text_filtered amount_str), Hk. reflexivity.
  - intros x Hx.
    destruct (Xtract.amount_text amount_str) as [t|] eqn:Ht; [|discriminate].
    exists t. split; [exact Hx|]. exact (amount_text_shape amount_str t Ht).
Qed.

(** ** Rows of the PDF extraction *)

Section PdfRowFacts.
Context `{PyRuntime}.
Import Xtract MoreSpec.

Lemma abs_not_negative (w : float) : (abs w <? 0)%float = false.
Proof.
  rewrite ltb_spec, abs_spec.
  destruct (Prim2SF w) as [s|s| |s m e]; reflexivity.
Qed.

Lemma truthy_nonempty (s : string) : PyStr.truthy s = true -> s <> "".
Proof. destruct s; [discriminate | discriminate]. Qed.

Lemma process_transaction_row_ok (row : list (option string))
    (t : PdfTransaction) :
  process_transaction_row row = Some t -> pdf_transaction_ok t.
Proof.
  unfold process_transaction_row.
  destruct row as [|c0 [|c1 [|c2 [|c3 [|c4 [|c5 [|c6 row]]]]]]];
    try discriminate.
  destruct (PyStr.truthy (clean_text c0)) eqn:H0; [|discriminate].
  destruct (PyStr.truthy (clean_text c1)) eqn:H1; [|discriminate].
  cbn [negb orb]. intros [= <-]. unfold pdf_transaction_ok. cbn.
  split; [now apply truthy_nonempty|].
  split; [now apply truthy_nonempty|]. split.
  - destruct (PyStr.truthy (clean_text c3)) eqn:H3; cbn [negb].
    + now apply truthy_nonempty.
    + discriminate.
  - intros w. destruct (clean_amount_to_number (clean_text c5)) as [x|];
      [|discriminate].
    destruct (x <? 0)%float eqn:Hx; intros [= <-];
      [apply abs_not_negative | exact Hx].
Qed.

Lemma process_transaction_row_short (row : list (option string)) :
  Nat.leb 7 (length row) = false -> process_transaction_row row = None.
Proof.
  destruct row as [|c0 [|c1 [|c2 [|c3 [|c4 [|c5 [|c6 row]]]]]]];
    try reflexivity.
  discriminate.
Qed.

Lemma extract_rows_spec (rows : list (list (option string)))
    (transactions : list PdfTransaction) :
  extract_rows rows transactions =
  transactions ++ omap process_transaction_row
                    (filter (fun row => data_row row = true) rows).
Proof.
  revert transactions.
  induction rows as [|row rows IH]; intros transactions.
  - cbn. now rewrite app_nil_r.
  - cbn [extract_rows]. rewrite filter_cons.
    destruct (data_row row) eqn:Hd.
    + unfold data_row in Hd.
      apply andb_prop in Hd as [Hd Hfooter]. apply andb_prop in Hd as [H7 Hheader].
      apply negb_true_iff in Hfooter, Hheader. rewrite Hheader, Hfooter.
      assert (Nat.ltb (length row) 6 = false) as ->.
      { apply Nat.leb_le in H7. apply Nat.ltb_ge. lia. }
      rewrite decide_True by reflexivity. cbn [omap list_omap].
      destruct (process_transaction_row row) as [t|].
      * rewrite IH, <- app_assoc. reflexivity.
      * apply IH.
    + rewrite decide_False by discriminate.
      destruct (Nat.ltb (length row) 6); [apply IH|].
      destruct (is_header_row row) eqn:Hheader; [apply IH|].
      destruct (is_footer_row row) eqn:Hfooter; [apply IH|].
      unfold data_row in Hd. rewrite Hheader, Hfooter, !andb_true_r in Hd.
      rewrite (process_transaction_row_short row Hd). apply IH.
Qed.

Lemma extract_tables_spec (tables : list (list (list (option string))))
    (transactions : list PdfTransaction) :
  extract_tables tables transactions =
  transactions ++ omap process_transaction_row
                    (filter (fun row => data_row row = true) (concat tables)).
Proof.
  revert transactions.
  induction tables as [|table tables IH]; intros transactions.
  - cbn. now rewrite app_nil_r.
  - cbn [extract_tables concat]. rewrite IH, extract_rows_spec.
    rewrite filter_app, omap_app, app_assoc. reflexivity.
Qed.

Lemma extract_pages_spec (pages : list PdfPage)
    (transactions : list PdfTransaction) :
  extract_pages pages transactions =
  transactions ++ omap process_transaction_row
                    (filter (fun row => data_row row = true)
                            (table_rows pages)).
Proof.
  revert transactions. unfold table_rows.
  induction pages as [|page pages IH]; intros transactions.
  - cbn. now rewrite app_nil_r.
  - cbn [extract_pages]. rewrite filter_cons.
    destruct (marked_page page) eqn:Hmark; unfold marked_page in Hmark.
    + rewrite decide_True by reflexivity.
      destruct (page_text page) as [text|]; [|discriminate].
      rewrite Hmark.
      assert (PyStr.truthy text = true) as ->
        by (destruct text; [discriminate | reflexivity]).
      cbn [negb orb].
      rewrite IH, extract_tables_spec. cbn [fmap list_fmap concat].
      rewrite concat_app, filter_app, omap_app, app_assoc. reflexivity.
    + rewrite decide_False by discriminate.
      destruct (page_text page) as [text|]; [|apply IH].
      rewrite Hmark, orb_true_r. apply IH.
Qed.

Lemma table_rows_app (pages1 pages2 : list PdfPage) :
  table_rows (pages1 ++ pages2) = table_rows pages1 ++ table_rows pages2.
Proof.
  unfold table_rows. now rewrite filter_app, fmap_app, !concat_app.
Qed.

End PdfRowFacts.

(** [extract_mpesa_data_from_pdf] returns, in reading order, what
    [process_transaction_row] makes of the rows of the pages that mention
    ["Receipt No."], header and footer rows left out; a row needs seven
    cells, not the six the loop asks for.  Pages are read independently of
    each other. *)
Theorem extract_mpesa_data_from_pdf_rows `{PyRuntime}
    (pages more_pages : list PdfPage) :
  Xtract.extract_mpesa_data_from_pdf pages =
    omap Xtract.process_transaction_row
         (filter (fun row => MoreSpec.data_row row = true)
                 (MoreSpec.table_rows pages)) /\
  Xtract.extract_mpesa_data_from_pdf (pages ++ more_pages) =
    Xtract.extract_mpesa_data_from_pdf pages ++
    Xtract.extract_mpesa_data_from_pdf more_pages.
Proof.
  unfold Xtract.extract_mpesa_data_from_pdf.
  rewrite !extract_pages_spec. cbn [app]. split; [reflexivity|].
  now rewrite table_rows_app, filter_app, omap_app.
Qed.

(** every transaction [extract_mpesa_data_from_pdf] returns has a
    receipt number, a completion time and a status, none of them empty,
    and its [withdrawn] amount is never below zero. *)
Theorem extracted_transactions_are_wellformed `{PyRuntime}
    (pages : list PdfPage) :
  Forall MoreSpec.pdf_transaction_ok (Xtract.extract_mpesa_data_from_pdf pages).
Proof.
  unfold Xtract.extract_mpesa_data_from_pdf.
  rewrite extract_pages_spec. cbn [app].
  apply Forall_forall. intros t Ht.
  apply list_elem_of_omap in Ht as (row & _ & Hrow).
  exact (process_transaction_row_ok row t Hrow).
Qed.

(** ** The second parse of [_parse_datetime] *)

Section DatetimeRoundTrip.
Import PyTime PyFloat MoreSpec.

Lemma first_answer_bind {A B : Type} (p : matcher A) (k : A -> matcher B)
    (s s1 s2 : string) (a : A) (b : B) :
  first_answer p s a s1 -> first_answer (k a) s1 b s2 ->
  first_answer (m_bind p k) s b s2.
Proof.
  intros [o1 Hp] [o2 Hk]. unfold first_answer, m_bind.
  rewrite Hp. cbn [map concat fst snd]. rewrite Hk. cbn [app]. eauto.
Qed.

Lemma first_answer_full {A : Type} (p : matcher A) (s : string) (a : A) :
  first_answer p s a "" -> first_full_match p s = Some a.
Proof. intros [o Hp]. unfold first_full_match. now rewrite Hp. Qed.

Lemma range_cases (P : Z -> Prop) (lo : Z) (k : nat) :
  (forall i, (i < k)%nat -> P (lo + Z.of_nat i)) ->
  forall n, lo <= n < lo + Z.of_nat k -> P n.
Proof.
  intros HP n Hn. replace n with (lo + Z.of_nat (Z.to_nat (n - lo))) by lia.
  apply HP. lia.
Qed.

Tactic Notation "field_cases" integer(k) :=
  intros n rest Hn; revert rest;
  refine (range_cases (fun n => forall rest, _) _ _ _ n Hn);
  clear n Hn; intros i Hi;
  do k (destruct i as [|i];
        [intros rest; vm_compute; eexists; reflexivity|]);
  exfalso; lia.

Lemma m_two_digits_any (n : Z) (rest : string) :
  0 <= n < 0 + Z.of_nat 100 ->
  first_answer (m_two 0 9 0 9) (two_digits n +:+ rest) n rest.
Proof. revert n rest. field_cases 100. Qed.

Lemma m_m_two_digits (n : Z) (rest : string) :
  1 <= n < 1 + Z.of_nat 12 ->
  first_answer m_m (two_digits n +:+ rest) n rest.
Proof. revert n rest. field_cases 12. Qed.

Lemma m_d_two_digits (n : Z) (rest : string) :
  1 <= n < 1 + Z.of_nat 31 ->
  first_answer m_d (two_digits n +:+ rest) n rest.
Proof. revert n rest. field_cases 31. Qed.

Lemma m_H_two_digits (n : Z) (rest : string) :
  0 <= n < 0 + Z.of_nat 24 ->
  first_answer m_H (two_digits n +:+ rest) n rest.
Proof. revert n rest. field_cases 24. Qed.

Lemma m_M_two_digits (n : Z) (rest : string) :
  0 <= n < 0 + Z.of_nat 60 ->
  first_answer m_M (two_digits n +:+ rest) n rest.
Proof. revert n rest. field_cases 60. Qed.

Lemma m_S_two_digits (n : Z) (rest : string) :
  0 <= n < 0 + Z.of_nat 60 ->
  first_answer m_S (two_digits n +:+ rest) n rest.
Proof. revert n rest. field_cases 60. Qed.

Lemma m_spaces_before_digits (n : Z) (rest : string) :
  0 <= n < 0 + Z.of_nat 24 ->
  first_answer m_spaces (" " +:+ two_digits n +:+ rest) tt
               (two_digits n +:+ rest).
Proof. revert n rest. field_cases 24. Qed.

Lemma m_char_first (c : ascii) (rest : string) :
  first_answer (m_char c) (String c rest) tt rest.
Proof. exists []. cbn. now rewrite Ascii.eqb_refl. Qed.

Lemma m_Y_four_digits (y : Z) (rest : string) :
  0 <= y <= 9999 ->
  first_answer m_Y (two_digits (y / 100) +:+ two_digits (y mod 100) +:+ rest)
               y rest.
Proof.
  intros Hy. unfold m_Y.
  eapply first_answer_bind; [apply m_two_digits_any|].
  { split; [apply Z.div_pos; lia|].
    apply Z.div_lt_upper_bound; lia. }
  eapply first_answer_bind; [apply m_two_digits_any|].
  { pose proof (Z.mod_pos_bound y 100). lia. }
  exists []. unfold m_ret. do 2 f_equal.
  pose proof (Z.div_mod y 100). lia.
Qed.

Lemma days_in_month_bound (y m : Z) : days_in_month y m <= 31.
Proof.
  unfold days_in_month.
  repeat match goal with |- context [if ?b then _ else _] => destruct b end;
    lia.
Qed.

Lemma strptime_strftime_iso (d : datetime) :
  valid_datetime d = true -> strptime_iso (strftime_iso d) = Ok d.
Proof.
  intros Hvalid. pose proof Hvalid as Hv. unfold valid_datetime in Hv.
  repeat (apply andb_prop in Hv as [Hv ?]).
  repeat match goal with H : (_ <=? _) = true |- _ => apply Z.leb_le in H end.
  pose proof (days_in_month_bound (dt_year d) (dt_month d)).
  destruct d as [Y m dd h M sec]. cbn [dt_year dt_month dt_day dt_hour
    dt_minute dt_second] in *.
  unfold strptime_iso, strftime_iso.
  cbn [dt_year dt_month dt_day dt_hour dt_minute dt_second].
  erewrite first_answer_full; [rewrite Hvalid; reflexivity|].
  eapply first_answer_bind; [apply m_Y_four_digits; lia|]. cbv beta.
  eapply first_answer_bind; [apply m_char_first|]. cbv beta.
  eapply first_answer_bind; [apply m_m_two_digits; lia|]. cbv beta.
  eapply first_answer_bind; [apply m_char_first|]. cbv beta.
  eapply first_answer_bind; [apply m_d_two_digits; lia|]. cbv beta.
  eapply first_answer_bind;
    [apply (m_spaces_before_digits h); lia|]. cbv beta.
  eapply first_answer_bind; [apply m_H_two_digits; lia|]. cbv beta.
  eapply first_answer_bind; [apply m_char_first|]. cbv beta.
  eapply first_answer_bind; [apply m_M_two_digits; lia|]. cbv beta.
  eapply first_answer_bind; [apply m_char_first|]. cbv beta.
  eapply first_answer_bind;
    [apply (m_S_two_digits sec EmptyString); lia|]. cbv beta.
  exists []. reflexivity.
Qed.

Lemma m_digit_range (lo hi : Z) (s : string) (a : Z) (s' : string) :
  In (a, s') (m_digit lo hi s) -> lo <= a <= hi.
Proof.
  unfold m_digit. destruct s as [|c s]; [intros []|].
  destruct (_ && _) eqn:Hr; [|intros []].
  intros [[= <- _]|[]]. apply andb_prop in Hr as [Hlo Hhi]. lia.
Qed.

Lemma m_y_range (s : string) (y : Z) (s' : string) :
  In (y, s') (m_y s) -> 0 <= y <= 99.
Proof.
  unfold m_y, m_two. intros Hy.
  apply m_bind_in in Hy as (a & s1 & Ha & Hy).
  apply m_bind_in in Hy as (b & s2 & Hb & Hy).
  apply m_digit_range in Ha, Hb.
  destruct Hy as [[= <- _]|[]]. lia.
Qed.

Lemma first_full_match_in {A : Type} (p : matcher A) (s : string) (a : A) :
  first_full_match p s = Some a -> In (a, EmptyString) (p s).
Proof.
  unfold first_full_match. destruct (p s) as [|[a' [|c r]] l]; try discriminate.
  intros [= <-]. now left.
Qed.

(** What [strptime] with ["%d/%m/%y %I:%M %p"] returns: a valid date at
    a full minute, the year read with the pivot at 69. *)
Lemma strptime_dmy_IMp_ok (s : string) (t : datetime) :
  strptime_dmy_IMp s = Ok t ->
  valid_datetime t = true /\ dt_second t = 0 /\ 1969 <= dt_year t <= 2068.
Proof.
  unfold strptime_dmy_IMp.
  destruct (first_full_match _ s) as [[[[[[d m] y] h12] M] pm]|] eqn:Hm;
    [|discriminate].
  destruct (valid_datetime _) eqn:Hvalid; [|discriminate].
  intros [= <-]. split; [exact Hvalid|]. split; [reflexivity|].
  apply first_full_match_in in Hm.
  repeat (apply m_bind_in in Hm as (? & ? & ? & Hm); cbv beta in Hm).
  destruct Hm as [[= <- <- <- <- <- <- _]|[]].
  match goal with Hy : In _ (m_y _) |- _ => apply m_y_range in Hy end.
  cbn [dt_year]. destruct (_ <=? 68) eqn:Hp; [apply Z.leb_le in Hp|
    apply Z.leb_gt in Hp]; lia.
Qed.

Lemma m_d_unpadded (n : Z) (rest : string) :
  1 <= n < 1 + Z.of_nat 31 ->
  first_answer m_d (str_of_nonneg n +:+ "/" +:+ rest) n ("/" +:+ rest).
Proof. revert n rest. field_cases 31. Qed.

Lemma m_m_unpadded (n : Z) (rest : string) :
  1 <= n < 1 + Z.of_nat 12 ->
  first_answer m_m (str_of_nonneg n +:+ "/" +:+ rest) n ("/" +:+ rest).
Proof. revert n rest. field_cases 12. Qed.

Lemma m_y_two_digits (n : Z) (rest : string) :
  0 <= n < 0 + Z.of_nat 100 ->
  first_answer m_y (two_digits n +:+ rest) n rest.
Proof. revert n rest. field_cases 100. Qed.

Lemma m_spaces_before_hour (n : Z) (rest : string) :
  1 <= n < 1 + Z.of_nat 12 ->
  first_answer m_spaces (" " +:+ str_of_nonneg n +:+ ":" +:+ rest) tt
    (str_of_nonneg n +:+ ":" +:+ rest).
Proof. revert n rest. field_cases 12. Qed.

Lemma m_I_unpadded (n : Z) (rest : string) :
  1 <= n < 1 + Z.of_nat 12 ->
  first_answer m_m (str_of_nonneg n +:+ ":" +:+ rest) n (":" +:+ rest).
Proof. revert n rest. field_cases 12. Qed.

Lemma m_M_before_space (n : Z) (rest : string) :
  0 <= n < 0 + Z.of_nat 60 ->
  first_answer m_M (two_digits n +:+ " " +:+ rest) n (" " +:+ rest).
Proof. revert n rest. field_cases 60. Qed.

Lemma m_spaces_before_letter (rest : string) :
  rest = "AM" \/ rest = "PM" ->
  first_answer m_spaces (" " +:+ rest) tt rest.
Proof. intros [->| ->]; eexists; reflexivity. Qed.

Lemma written_datetime_valid (d m y h12 M : Z) (pm : bool) :
  1 <= m <= 12 -> 1 <= d <= days_in_month (pivot_year y) m -> 0 <= y <= 99 ->
  1 <= h12 <= 12 -> 0 <= M <= 59 ->
  valid_datetime (mkDatetime (pivot_year y) m d (hour24 h12 pm) M 0) = true.
Proof.
  intros Hm Hd Hy Hh HM. unfold valid_datetime.
  cbn [dt_year dt_month dt_day dt_hour dt_minute dt_second].
  assert (1 <= pivot_year y <= 9999)
    by (unfold pivot_year; destruct (y <=? 68); lia).
  assert (0 <= hour24 h12 pm <= 23).
  { unfold hour24. destruct pm, (h12 =? 12) eqn:Hnoon; lia. }
  repeat (apply andb_true_intro; split); apply Z.leb_le; lia.
Qed.

Lemma strptime_written (d m y h12 M : Z) (pm : bool) :
  1 <= m <= 12 -> 1 <= d <= days_in_month (pivot_year y) m -> 0 <= y <= 99 ->
  1 <= h12 <= 12 -> 0 <= M <= 59 ->
  strptime_dmy_IMp (written_date d m y +:+ " " +:+ written_time h12 M pm) =
  Ok (mkDatetime (pivot_year y) m d (hour24 h12 pm) M 0).
Proof.
  intros Hm Hd Hy Hh HM.
  pose proof (days_in_month_bound (pivot_year y) m) as Hdim.
  pose proof (written_datetime_valid d m y h12 M pm Hm Hd Hy Hh HM) as Hvalid.
  unfold strptime_dmy_IMp, written_date, written_time.
  rewrite !append_assoc.
  assert (Hpm : first_answer PyTime.m_p (if pm then "PM" else "AM") pm "")
    by (destruct pm; eexists; reflexivity).
  erewrite first_answer_full; cycle 1.
  - eapply first_answer_bind; [apply m_d_unpadded; lia|]. cbv beta.
    eapply first_answer_bind; [apply m_char_first|]. cbv beta.
    eapply first_answer_bind; [apply m_m_unpadded; lia|]. cbv beta.
    eapply first_answer_bind; [apply m_char_first|]. cbv beta.
    eapply first_answer_bind; [apply m_y_two_digits; lia|]. cbv beta.
    eapply first_answer_bind; [apply (m_spaces_before_hour h12); lia|].
    cbv beta.
    eapply first_answer_bind; [apply m_I_unpadded; lia|]. cbv beta.
    eapply first_answer_bind; [apply m_char_first|]. cbv beta.
    eapply first_answer_bind; [apply m_M_before_space; lia|]. cbv beta.
    eapply first_answer_bind; [apply m_spaces_before_letter; destruct pm; auto|].
    cbv beta.
    eapply first_answer_bind; [exact Hpm|]. cbv beta.
    eexists. reflexivity.
  - cbv beta iota zeta. unfold pivot_year, hour24 in Hvalid |- *.
    rewrite Hvalid. reflexivity.
Qed.

End DatetimeRoundTrip.

(** the second [strptime] of [_parse_datetime] changes nothing: the
    function returns what [strptime] makes of the date and the time with
    the format ["%d/%m/%y %I:%M %p"], or raises its [ValueError].  A result
    is a valid date at a full minute, in the years 1969 to 2068. *)
Theorem parse_datetime_is_one_parse (date_str time_str : option string) :
  (XtractAndroid._parse_datetime date_str time_str =
     PyTime.strptime_dmy_IMp
       (XtractAndroid.fmt_opt date_str +:+ " " +:+
        XtractAndroid.fmt_opt time_str)) /\
  (forall t, XtractAndroid._parse_datetime date_str time_str = Ok t ->
     PyTime.valid_datetime t = true /\ dt_second t = 0 /\
     (1969 <= dt_year t <= 2068)).
Proof.
  unfold XtractAndroid._parse_datetime.
  destruct (PyTime.strptime_dmy_IMp _) as [t|e] eqn:Hparse.
  - destruct (strptime_dmy_IMp_ok _ _ Hparse) as (Hvalid & Hsec & Hyear).
    cbn. rewrite (strptime_strftime_iso t Hvalid).
    split; [reflexivity|]. intros t' [= <-]. repeat split; tauto || lia.
  - cbn. split; [reflexivity | discriminate].
Qed.

(** [_parse_datetime] reads every date and time written the way the
    messages write them: a day that exists in its month, a two-digit year
    taken as 1969 to 2068, an hour from 1 to 12 with ["AM"] or ["PM"]
    (12 AM is hour 0 and 12 PM is hour 12), and the minutes. *)
Theorem parse_datetime_reads_written_dates (d m y h12 M : Z) (pm : bool) :
  1 <= m <= 12 -> 1 <= d <= PyTime.days_in_month (MoreSpec.pivot_year y) m ->
  0 <= y <= 99 -> 1 <= h12 <= 12 -> 0 <= M <= 59 ->
  XtractAndroid._parse_datetime (Some (MoreSpec.written_date d m y))
                                (Some (MoreSpec.written_time h12 M pm)) =
  Ok (mkDatetime (MoreSpec.pivot_year y) m d (MoreSpec.hour24 h12 pm) M 0).
Proof.
  intros Hm Hd Hy Hh HM. unfold XtractAndroid._parse_datetime.
  cbn [XtractAndroid.fmt_opt default from_option id].
  rewrite (strptime_written d m y h12 M pm Hm Hd Hy Hh HM).
  cbn [mbind result_bind].
  apply strptime_strftime_iso.
  exact (written_datetime_valid d m y h12 M pm Hm Hd Hy Hh HM).
Qed.

Lemma parse_datetime_reads_written_dates_witness :
  XtractAndroid._parse_datetime (Some "29/2/24") (Some "12:05 AM") =
  Ok (mkDatetime 2024 2 29 0 5 0).
Proof.
  apply (parse_datetime_reads_written_dates 29 2 24 12 5 false);
    vm_compute; split; discriminate.
Defined.

(** ** Records of the SMS parser *)

Section SmsRecordFacts.
Context `{PyRuntime}.
Import XtractAndroid MoreSpec.







End SmsRecordFacts.



(** ** A batch of messages *)

Section BatchFacts.
Context `{PyRuntime}.
Import SmsBatch MoreSpec.

Lemma process_messages_ok (sms_list : list (option string))
    (all_transactions : list SmsRecord) :
  Forall parses sms_list ->
  process_messages sms_list all_transactions =
    Ok (all_transactions ++ concat (records_of <$> sms_list)).
Proof.
  intros Hall. revert all_transactions.
  induction Hall as [|sms rest [r Hr] _ IH]; intros all_transactions.
  - cbn. now rewrite app_nil_r.
  - cbn [process_messages fmap list_fmap concat]. unfold records_of at 1.
    rewrite Hr. cbn. destruct r as [[|record records]|]; rewrite IH.
    + reflexivity.
    + now rewrite <- app_assoc.
    + reflexivity.
Qed.

Lemma process_messages_raise (before after : list (option string))
    (sms : option string) (e : py_error) (all_transactions : list SmsRecord) :
  Forall parses before ->
  XtractAndroid.parse (default "" sms) = Raise e ->
  process_messages (before ++ sms :: after) all_transactions = Raise e.
Proof.
  intros Hall Hraise. revert all_transactions.
  induction Hall as [|m rest [r Hr] _ IH]; intros all_transactions.
  - cbn [app process_messages]. rewrite Hraise. reflexivity.
  - cbn [app process_messages]. rewrite Hr. cbn.
    destruct r as [[|record records]|]; apply IH.
Qed.

End BatchFacts.

(** when no message of the batch makes [parse] raise, [process_data]
    returns the records of all messages, in the order of the messages, and
    [None] when there is none. *)
Theorem process_data_collects_in_order `{PyRuntime}
    (sms_list : list (option string)) :
  Forall MoreSpec.parses sms_list ->
  SmsBatch.process_data sms_list =
    Ok (match concat (MoreSpec.records_of <$> sms_list) with
        | [] => None
        | all_transactions => Some all_transactions
        end).
Proof.
  intros Hall. unfold SmsBatch.process_data.
  destruct sms_list as [|sms rest]; [reflexivity|].
  rewrite (process_messages_ok _ _ Hall). cbn [app mbind result_bind].
  now destruct (concat _).
Qed.

Lemma process_data_collects_in_order_witness :
  SmsBatch.process_data (H := ReferenceRuntime.runtime)
    [Some ReferenceRuntime.sms_received; None; Some "Hello";
     Some ReferenceRuntime.sms_sent] =
  Ok (Some [mkSmsRecord "QB87654321" (mkDatetime 2024 3 1 14 30 0)
                        "from JOHN DOE 0712345678" "Completed"
                        "500.00" "" "1500.00";
            mkSmsRecord "QA12345678" (mkDatetime 2024 3 1 14 30 0)
                        "sent to JOHN DOE 0712345678" "Completed"
                        "" "500.00" "1500.00";
            mkSmsRecord "QA12345678" (mkDatetime 2024 3 1 14 30 0)
                        "Mpesa Charge" "Completed" "" "15.00" "1500.00"]).
Proof.
  refine (eq_trans
            (process_data_collects_in_order (H := ReferenceRuntime.runtime)
               [Some ReferenceRuntime.sms_received; None; Some "Hello";
                Some ReferenceRuntime.sms_sent] _) _).
  - repeat constructor; eexists; vm_compute; reflexivity.
  - vm_compute. reflexivity.
Defined.

(** a message that makes [parse] raise ends [process_data] with that
    exception: the records of the messages before it are not returned, and
    the messages after it are not read. *)
Theorem process_data_stops_at_first_failure `{PyRuntime}
    (before after : list (option string)) (sms : option string)
    (e : py_error) :
  Forall MoreSpec.parses before ->
  XtractAndroid.parse (default "" sms) = Raise e ->
  SmsBatch.process_data (before ++ sms :: after) = Raise e.
Proof.
  intros Hall Hraise. unfold SmsBatch.process_data.
  destruct (before ++ sms :: after) eqn:Hlist.
  - now destruct before.
  - rewrite <- Hlist, (process_messages_raise _ _ _ _ _ Hall Hraise).
    reflexivity.
Qed.

Lemma process_data_stops_at_first_failure_witness :
  SmsBatch.process_data (H := LongYearRuntime.runtime)
    [Some ReferenceRuntime.sms_sent; Some LongYearRuntime.sms_long_year;
     Some ReferenceRuntime.sms_received] =
  Raise (ValueError_strptime "1/3/2024 2:30 PM").
Proof.
  apply (process_data_stops_at_first_failure (H := LongYearRuntime.runtime)
           [Some ReferenceRuntime.sms_sent]
           [Some ReferenceRuntime.sms_received]
           (Some LongYearRuntime.sms_long_year)).
  - repeat constructor. eexists. vm_compute. reflexivity.
  - vm_compute. reflexivity.
Defined.
